(** * Live preview virtual serving: a shallow embedding

    The development follows two source units of the repository:

    - [BrowserStaticServer.js] (the editor side): content resolution
      ([getContent], [_getInstrumentedContent], [_getMarkdown],
      [_getRedirectionPage]), the two broadcast-channel handlers, the tab
      registry [livePreviewTabs] with its heartbeat sweep;
    - the live preview loader page (the popped-out tab): its navigation
      handler, the window message relay with the origin allowlist, and the
      trust prompt ([securityOk], [PROJECT_SWITCH]).

    Collaborators whose code is not part of these units (the project model,
    the document manager, the URL parser of the browser, Mustache templates,
    marked) are parameters of the sections below; every theorem holds for
    all of them. Concrete instances are given in [Module Scenario] to run the
    definitions on explicit inputs. *)

From Stdlib Require Import ZArith List Bool String Ascii Lia.
From stdpp Require Import base gmap strings list.

Open Scope string_scope.

(** ** JavaScript string helpers *)

Module Js.

(** [s.startsWith(p)] *)
Definition startsWith (s p : string) : bool := String.prefix p s.

(** [s.endsWith(suf)] *)
Definition endsWith (s suf : string) : bool :=
  let n := String.length s in
  let m := String.length suf in
  (m <=? n)%nat && String.eqb (substring (n - m) m s) suf.

(** [s.indexOf(pat) !== -1] *)
Definition includes (s pat : string) : bool :=
  match index 0 pat s with
  | Some _ => true
  | None => false
  end.

(** Truthiness of a string value: only the empty string is falsy. *)
Definition truthy (s : string) : bool := negb (String.eqb s EmptyString).

(** Truthiness of a possibly [undefined]/[null] string. *)
Definition truthy_opt (o : option string) : bool :=
  match o with
  | Some s => truthy s
  | None => false
  end.

(** String coercion of a possibly [undefined] value, as done by
    [decodeURIComponent(undefined)]. *)
Definition to_string (o : option string) : string :=
  match o with
  | Some s => s
  | None => "undefined"
  end.

(** *** Objects and arrays used as maps

    A lookup [o[k]] finds the own properties of [o] and, failing those, the
    properties of its prototypes. *)

(** The properties of [Object.prototype]. Every object literal and every
    array inherits them, and the value of each is truthy (a function, or
    the prototype itself under [__proto__]). *)
Definition Object_prototype : list string :=
  [ "constructor"; "hasOwnProperty"; "isPrototypeOf"; "propertyIsEnumerable";
    "toLocaleString"; "toString"; "valueOf"; "__proto__";
    "__defineGetter__"; "__defineSetter__"; "__lookupGetter__"; "__lookupSetter__" ].

(** The properties of [Array.prototype] (ECMAScript 2023) that an array
    does not shadow; [length] is an own property of every array. All are
    functions. *)
Definition Array_prototype : list string :=
  [ "at"; "concat"; "constructor"; "copyWithin"; "entries"; "every"; "fill"; "filter";
    "find"; "findIndex"; "findLast"; "findLastIndex"; "flat"; "flatMap"; "forEach";
    "includes"; "indexOf"; "join"; "keys"; "lastIndexOf"; "map"; "pop"; "push";
    "reduce"; "reduceRight"; "reverse"; "shift"; "slice"; "some"; "sort"; "splice";
    "toLocaleString"; "toReversed"; "toSorted"; "toSpliced"; "toString"; "unshift";
    "values"; "with" ].

Definition inherited_by_object (k : string) : bool :=
  existsb (String.eqb k) Object_prototype.

Definition inherited_by_array (k : string) : bool :=
  existsb (String.eqb k) Array_prototype || inherited_by_object k.

Definition digit (c : ascii) : option N :=
  let n := N_of_ascii c in
  if (48 <=? n)%N && (n <=? 57)%N then Some (n - 48)%N else None.

Fixpoint decimal (s : string) (acc : N) : option N :=
  match s with
  | EmptyString => Some acc
  | String c rest =>
      match digit c with
      | Some d => decimal rest (10 * acc + d)%N
      | None => None
      end
  end.

(** The property key is an array index: the canonical decimal form of an
    integer below 2^32 - 1. *)
Definition array_index (k : string) : option N :=
  match k with
  | EmptyString => None
  | String c rest =>
      if Ascii.eqb c "0" && negb (String.eqb rest EmptyString) then None
      else match decimal k 0 with
           | Some n => if (n <? 4294967295)%N then Some n else None
           | None => None
           end
  end.

(** [a[k]] as a condition, for an array to which the code only ever assigns
    [true]. The array is kept as a map from property key to the truthiness
    of the own property: the elements and named properties assigned so
    far, and [length] once it is positive. No assignment creates an own
    [__proto__]. *)
Definition Array_truthy (a : gmap string bool) (k : string) : bool :=
  if String.eqb k "__proto__" then true
  else match a !! k with
       | Some b => b
       | None => inherited_by_array k
       end.

(** The element survives [a.length = 1]. *)
Definition below_length_1 (k : string) : bool :=
  match array_index k with
  | Some n => (n <? 1)%N
  | None => true
  end.

(** [a[k] = true] in sloppy mode. Under [length] the value becomes the
    number 1, the new length, and the elements from index 1 on are deleted;
    an element makes the length positive; [__proto__] is an accessor that
    ignores a value that is no object; any other key becomes an own
    property. *)
Definition Array_assign_true (k : string) (a : gmap string bool) : gmap string bool :=
  if String.eqb k "length" then
    <["length" := true]> (filter (fun kv => below_length_1 kv.1 = true) a)
  else if String.eqb k "__proto__" then a
  else match array_index k with
       | Some _ => <["length" := true]> (<[k := true]> a)
       | None => <[k := true]> a
       end.

End Js.

(** ** The URL objects of the browser

    Only the part of a URL that the code inspects is kept: the search
    parameters. The text before the query and the fragment are carried
    along. *)

(** The query of a URL as [href] shows it. A URL object keeps the query
    text it was parsed from until its [searchParams] is written; every
    write ([set], [delete]) replaces the text by the serialisation of the
    pairs, whether or not a pair changed. *)
Inductive QueryText : Type :=
| AsParsed (text : string)             (* the text after the question mark, as given *)
| Serialised.                          (* serialised anew from [searchParams] *)

Record URL : Type := mkURL {
  url_prefix : string;                 (* scheme, authority and path *)
  url_query : QueryText;
  searchParams : list (string * string);
  url_hash : string
}.

(** [url.searchParams.get(name)]: the first value under [name], or [null]. *)
Fixpoint searchParams_get (name : string) (ps : list (string * string)) : option string :=
  match ps with
  | [] => None
  | (k, v) :: rest => if String.eqb k name then Some v else searchParams_get name rest
  end.

(** [url.searchParams.delete(name)]: drops every pair under [name]. *)
Fixpoint searchParams_delete (name : string) (ps : list (string * string)) : list (string * string) :=
  match ps with
  | [] => []
  | (k, v) :: rest =>
      if String.eqb k name then searchParams_delete name rest
      else (k, v) :: searchParams_delete name rest
  end.

Definition URL_delete_param (name : string) (u : URL) : URL :=
  mkURL (url_prefix u) Serialised (searchParams_delete name (searchParams u)) (url_hash u).

(** ** Responses, promises and effects *)

Inductive Contents : Type :=
| Text (s : string)                    (* a JS string *)
| Binary (b : list Byte.byte).         (* an ArrayBuffer read from disk *)

(** The response object literal; [contents = None] is [null] and
    [headers = None] is an absent or [undefined] property. *)
Record Response : Type := mkResponse {
  path : string;
  contents : option Contents;
  headers : option (list (string * string))
}.

Inductive Promise (A : Type) : Type :=
| Resolved (a : A)
| Rejected (reason : string).
Arguments Resolved {A} a.
Arguments Rejected {A} reason.

(** What a call does besides returning: console output and reads. *)
Inductive Effect : Type :=
| ConsoleError (msg : string)
| ConsoleLog (msg : string)
| FsReadFile (path : string)
| GetDocumentForPath (path : string).

(** ** BrowserStaticServer.js: the resolver *)

(** A live document registered with the server. [getResponseData] is [None]
    when the object has no such method, else the [body] it returns. *)
Record LiveDocument : Type := mkLiveDocument {
  getResponseData : option string
}.

(** The fields of a [StaticServer] instance that resolution reads. Both
    maps are plain objects keyed by document key. *)
Record StaticServer : Type := mkStaticServer {
  _baseUrl : string;
  _liveDocuments : gmap string LiveDocument;
  _virtualServingDocuments : gmap string string
}.

(** The editor collaborators as the resolver sees them at the time of a
    request. Paths are full paths. *)
Record Editor : Type := mkEditor {
  (* DocumentManager.getCurrentDocument(): the full path of its file *)
  getCurrentDocument : option string;
  (* ProjectManager.getSelectedItem(): its full path *)
  getSelectedItem : option string;
  (* ProjectManager.isWithinProject *)
  isWithinProject : string -> bool;
  (* FileSystem.getFileForPath(p).fullPath *)
  getFileForPath : string -> string;
  (* DocumentManager.getOpenDocumentForPath(p): the text of the open document *)
  getOpenDocumentForPath : gmap string string;
  (* DocumentManager.getDocumentForPath(p): done(text) or fail(err) *)
  getDocumentForPath : string -> string + string;
  (* fs.readFile(p, BYTE_ARRAY_ENCODING, cb): None is cb(error) *)
  readFile : string -> option (list Byte.byte);
  (* CommandManager.get(Commands.FILE_LIVE_HIGHLIGHT).getChecked() *)
  isLiveHighlightEnabled : bool
}.

Definition PHCODE_LIVE_PREVIEW_QUERY_PARAM : string := "phcodeLivePreview".

Definition html_headers : list (string * string) :=
  [("Content-Type", "text/html;charset=UTF-8")].

Definition markdown_headers : list (string * string) :=
  [("Content-Type", "text/html")].

(** [path.endsWith(".htm") || ... || path.endsWith(".php")] *)
Definition is_html_family (p : string) : bool :=
  Js.endsWith p ".htm" || Js.endsWith p ".html"
  || Js.endsWith p ".xhtml" || Js.endsWith p ".php".

(** The leading zero-width characters removed before markdown parsing
    (U+200B to U+200F and U+FEFF), in their UTF-8 encoding. *)
Definition utf8_3 (a b c : nat) : string :=
  String (ascii_of_nat a) (String (ascii_of_nat b) (String (ascii_of_nat c) EmptyString)).

Definition zero_width_marks : list string :=
  [utf8_3 226 128 139; utf8_3 226 128 140; utf8_3 226 128 141;
   utf8_3 226 128 142; utf8_3 226 128 143; utf8_3 239 187 191].

Definition strip_leading_zero_width (text : string) : string :=
  if existsb (fun m => String.prefix m text) zero_width_marks
  then substring 3 (String.length text - 3) text
  else text.

Section EditorSide.

(** Collaborators outside the two source units. *)
Variable _documentKey : string -> string.         (* BaseServer.prototype._documentKey *)
Variable isMarkdownFile : string -> bool.         (* utils.isMarkdownFile *)
Variable getRemoteScript : string.                (* LiveDevProtocol.getRemoteScript() *)
Variable URL_new : string -> option URL.          (* new URL(s); None is a TypeError *)
Variable URL_href : URL -> string.                (* url.href *)
Variable render_redirect : string -> string.      (* Mustache.render(redirectionHTMLTemplate, {redirectURL}) *)
Variable marked_parse : string -> string.         (* marked.parse *)
Variable render_markdown : string -> string.      (* Mustache.render(markdownHTMLTemplate, {markdownContent, ...}) *)

(** [_getRedirectionPage]. The argument is the URL object built by the
    caller; [new URL(obj)] copies it. *)
Definition _getRedirectionPage (redirectURL : URL) : string :=
  let url := URL_delete_param PHCODE_LIVE_PREVIEW_QUERY_PARAM redirectURL in
  render_redirect (URL_href url).

(** [_getMarkdown] *)
Definition _getMarkdown (ed : Editor) (fullPath : string)
  : Promise Response * list Effect :=
  match getDocumentForPath ed fullPath with
  | inl text =>
      let text := strip_leading_zero_width text in
      let markdownHtml := marked_parse text in
      let html := render_markdown markdownHtml in
      (Resolved (mkResponse fullPath (Some (Text html)) (Some markdown_headers)),
       [GetDocumentForPath fullPath])
  | inr err =>
      (Rejected ("Markdown rendering failed for " ++ fullPath ++ ": " ++ err),
       [GetDocumentForPath fullPath])
  end.

(** The tail of [_getInstrumentedContent] shared by the overlay, live
    document and open document branches: headers by extension of the
    document key, then [resolve]. *)
Definition resolve_with_headers (key : string) (c : string)
  : Promise Response :=
  Resolved (mkResponse key (Some (Text c))
              (if is_html_family key then Some html_headers else None)).

(** [StaticServer.prototype._getInstrumentedContent] *)
Definition _getInstrumentedContent (this : StaticServer) (ed : Editor)
    (requestedPath url : string) : Promise Response * list Effect :=
  let key := _documentKey requestedPath in
  let liveDocument := _liveDocuments this !! key in
  let virtualDocument := _virtualServingDocuments this !! key in
  if negb (isWithinProject ed requestedPath) then
    (Resolved (mkResponse key None None),
     [ConsoleError "Security issue prevented: Live preview tried to access non project resource!!!"])
  else
    match URL_new url with
    | None => (Rejected "TypeError: Invalid URL", [])
    | Some u =>
        let isLivePreviewPopoutPage :=
          Js.truthy_opt (searchParams_get PHCODE_LIVE_PREVIEW_QUERY_PARAM (searchParams u)) in
        if Js.truthy_opt virtualDocument then
          (resolve_with_headers key (Js.to_string virtualDocument), [])
        else
          match liveDocument ≫= getResponseData with
          | Some body =>
              if isLivePreviewPopoutPage && negb (Js.includes body getRemoteScript) then
                (resolve_with_headers key (_getRedirectionPage u),
                 [ConsoleLog "serving stale live preview with navigable url"])
              else
                (resolve_with_headers key body, [])
          | None =>
              let file := getFileForPath ed requestedPath in
              match getOpenDocumentForPath ed !! file with
              | Some text => (resolve_with_headers key text, [])
              | None =>
                  (Resolved (mkResponse key (Binary <$> readFile ed requestedPath) None),
                   [FsReadFile requestedPath])
              end
          end
    end.

(** [getContent]. [inst] is the module variable [_staticServerInstance]. *)
Definition getContent (inst : option StaticServer) (ed : Editor)
    (path url : string) : Promise Response * list Effect :=
  let currentFile :=
    match getCurrentDocument ed with
    | Some f => Some f
    | None => getSelectedItem ed
    end in
  match inst with
  | None => (Rejected "Static serve not started!", [])
  | Some srv =>
      if negb (Js.startsWith url (_baseUrl srv)) then
        (Rejected ("Not serving content as url belongs to another phcode instance: " ++ url), [])
      else if isMarkdownFile path && bool_decide (currentFile = Some path) then
        _getMarkdown ed path
      else
        _getInstrumentedContent srv ed path url
  end.


(** The condition under which [getContent] answers from [_getMarkdown]:
    a markdown path that is the file of the current document (else of the
    selected item). *)
Definition currentFile (ed : Editor) : option string :=
  match getCurrentDocument ed with
  | Some f => Some f
  | None => getSelectedItem ed
  end.

Definition markdown_tier (ed : Editor) (p : string) : bool :=
  isMarkdownFile p && bool_decide (currentFile ed = Some p).

(** [getContent] ends in a rejected promise: one of its two guards, a
    markdown document that cannot be loaded, or (past the project root
    check) a URL that does not parse. *)
Definition rejects (inst : option StaticServer) (ed : Editor) (p url : string) : bool :=
  match inst with
  | None => true
  | Some srv =>
      negb (Js.startsWith url (_baseUrl srv))
      || (if markdown_tier ed p
          then match getDocumentForPath ed p with inr _ => true | inl _ => false end
          else isWithinProject ed p
               && match URL_new url with None => true | Some _ => false end)
  end.

(** The request reaches [fs.readFile]: no guard stops it and no earlier
    tier answers. *)
Definition disk_tier (srv : StaticServer) (ed : Editor) (p url : string) : bool :=
  Js.startsWith url (_baseUrl srv)
  && negb (markdown_tier ed p)
  && isWithinProject ed p
  && match URL_new url with Some _ => true | None => false end
  && negb (Js.truthy_opt (_virtualServingDocuments srv !! _documentKey p))
  && match (_liveDocuments srv !! _documentKey p) ≫= getResponseData with
     | Some _ => false
     | None => true
     end
  && match getOpenDocumentForPath ed !! getFileForPath ed p with
     | Some _ => false
     | None => true
     end.

(** ** BrowserStaticServer.js: the tab registry

    [livePreviewTabs] is a [Map]: [set] on a present key replaces the value
    in place, on a fresh key appends; iteration follows insertion order. *)

Record TabInfo : Type := mkTabInfo {
  lastSeen : Z;                        (* new Date(), in milliseconds *)
  tab_URL : option string;
  navigationTab : bool                 (* absent property is falsy *)
}.

Fixpoint Map_set (k : string) (v : TabInfo) (m : list (string * TabInfo))
  : list (string * TabInfo) :=
  match m with
  | [] => [(k, v)]
  | (k', v') :: rest =>
      if String.eqb k' k then (k, v) :: rest else (k', v') :: Map_set k v rest
  end.

Fixpoint Map_get (k : string) (m : list (string * TabInfo)) : option TabInfo :=
  match m with
  | [] => None
  | (k', v') :: rest => if String.eqb k' k then Some v' else Map_get k rest
  end.

Definition TAB_HEARTBEAT_TIMEOUT : Z := 10000.
Definition SWEEP_INTERVAL : Z := 1000.

(** [exports.trigger('BROWSER_CLOSE', {data: {message: {clientID: tab}}})] *)
Inductive Triggered : Type :=
| BROWSER_CLOSE (clientID : string).

Global Instance Triggered_eq_dec : EqDecision Triggered.
Proof. solve_decision. Defined.

(** The body of the [setInterval] callback of [_startHeartBeatListeners]:
    one pass over the keys, deleting the tabs whose last heartbeat is more
    than the timeout old. Returns the remaining map and the events raised,
    in iteration order. *)
Fixpoint sweep (endTime : Z) (tabs : list (string * TabInfo))
  : list (string * TabInfo) * list Triggered :=
  match tabs with
  | [] => ([], [])
  | (tab, tabInfo) :: rest =>
      let '(kept, raised) := sweep endTime rest in
      let timeDiff := (endTime - lastSeen tabInfo)%Z in
      if (timeDiff >? TAB_HEARTBEAT_TIMEOUT)%Z then
        (kept, if negb (navigationTab tabInfo) then BROWSER_CLOSE tab :: raised else raised)
      else
        ((tab, tabInfo) :: kept, raised)
  end.

(** What reaches the registry, each with the clock reading at that time. *)
Inductive TabEvent : Type :=
| TabLoaderOnline (pageLoaderID : string) (URL : option string)   (* navigator channel *)
| TabOnline (clientID : string) (URL : option string)             (* messenger channel *)
| SweepTick.

Definition registry_step (now : Z) (ev : TabEvent) (tabs : list (string * TabInfo))
  : list (string * TabInfo) * list Triggered :=
  match ev with
  | TabLoaderOnline id u => (Map_set id (mkTabInfo now u true) tabs, [])
  | TabOnline id u => (Map_set id (mkTabInfo now u false) tabs, [])
  | SweepTick => sweep now tabs
  end.

Fixpoint registry_run (trace : list (Z * TabEvent)) (tabs : list (string * TabInfo))
  : list (string * TabInfo) * list Triggered :=
  match trace with
  | [] => (tabs, [])
  | (now, ev) :: rest =>
      let '(tabs', raised) := registry_step now ev tabs in
      let '(tabs'', raised') := registry_run rest tabs' in
      (tabs'', (raised ++ raised')%list)
  end.

(** [hasActiveLivePreviews] *)
Definition hasActiveLivePreviews (tabs : list (string * TabInfo)) : bool :=
  (0 <? length tabs)%nat.

Definition is_heartbeat_of (id : string) (ev : TabEvent) : bool :=
  match ev with
  | TabLoaderOnline id' _ | TabOnline id' _ => String.eqb id' id
  | SweepTick => false
  end.

(** A tab beats every [period]: each clock reading of the trace is at most
    [period] after the latest heartbeat of [id] before it ([last] at the
    start). *)
Fixpoint beats_every (period : Z) (id : string) (last : Z) (trace : list (Z * TabEvent)) : bool :=
  match trace with
  | [] => true
  | (now, ev) :: rest =>
      (now - last <=? period)%Z
      && beats_every period id (if is_heartbeat_of id ev then now else last) rest
  end.

(** ** BrowserStaticServer.js: the channel handlers

    The two broadcast channels of the editor are modelled. The same events
    can also arrive from the embedded server frame through [exports.on];
    that path runs through the event manager, which is not part of these
    sources, and ends in the same [getContent]. *)

(** A browser [MessageEvent]: the origin of the sender and the payload. *)
Record MessageEvent (A : Type) : Type := mkEvent {
  origin : string;
  data : A
}.
Arguments mkEvent {A} origin data.
Arguments origin {A} m.
Arguments data {A} m.

(** Messages of the navigator channel, by their [type] field. *)
Inductive NavMessage : Type :=
| GET_INITIAL_URL (pageLoaderID : string)
| TAB_LOADER_ONLINE (pageLoaderID : string) (URL : option string)
| INITIAL_URL_NAVIGATE (URL : string) (pageLoaderID : string)
| REDIRECT_PAGE (URL : string) (force : bool)
| PROJECT_SWITCH (projectRoot : string)
| UPDATE_TITLE_ICON (title : option string) (faviconBase64 : option string)
| NAV_OTHER (type : string).

(** The [data] object a tab sends towards the editor, by [eventName], with
    the fields of [message] that the code of this file reads. The last
    constructor is a data object under any name that carries no [message]. *)
Inductive RelayRequest : Type :=
| GET_PHOENIX_INSTANCE_ID
| GET_CONTENT (requestID path url : string)
| TAB_ONLINE (clientID : string) (URL : option string)
| REPORT_ERROR (message : string)
| UPDATE_TITLE_AND_ICON (title faviconBase64 : option string)
| OTHER_EVENT (eventName : string).

Definition EVENT_GET_PHOENIX_INSTANCE_ID : string := "GET_PHOENIX_INSTANCE_ID".
Definition EVENT_GET_CONTENT : string := "GET_CONTENT".
Definition EVENT_TAB_ONLINE : string := "TAB_ONLINE".
Definition EVENT_REPORT_ERROR : string := "REPORT_ERROR".
Definition EVENT_UPDATE_TITLE_ICON : string := "UPDATE_TITLE_AND_ICON".
Definition EVENT_EMBEDDED_IFRAME_ESCAPE_PRESS : string := "embeddedEscapeKeyPressed".

(** The [data] object the editor sends towards the tabs, by [type]. *)
Inductive ServerReply : Type :=
| PHOENIX_INSTANCE_ID_IS (id : string)
| REQUEST_RESPONSE (requestID : string) (response : Response).

(** The envelope [{pageLoaderID, data}] of the messenger channel. *)
Record Envelope (A : Type) : Type := mkEnvelope {
  env_pageLoaderID : option string;
  env_data : A
}.
Arguments mkEnvelope {A} env_pageLoaderID env_data.
Arguments env_pageLoaderID {A} e.
Arguments env_data {A} e.

(** The module state of BrowserStaticServer.js. *)
Record Phoenix : Type := mkPhoenix {
  _staticServerInstance : option StaticServer;
  editor : Editor;
  livePreviewTabs : list (string * TabInfo);
  currentPopoutURL : option string
}.

(** What a handler of the editor side emits. [ExportsTrigger] is the event
    that [exports.trigger(eventName, {data})] raises for the listeners of
    other modules; what the listeners of this file do in answer is emitted
    after it. *)
Inductive PhoenixOut : Type :=
| SendToLivePreviewServerTabs (reply : Envelope ServerReply)
| NavigatorPost (m : NavMessage)
| ExportsTrigger (eventName : string)
| LoggerReportError (message : string)
| FocusActiveEditor                    (* utils.focusActiveEditorIfFocusInLivePreview() *)
| Uncaught (error : string)            (* an exception that leaves the handler or listener *)
| Did (e : Effect).

Variable PHOENIX_INSTANCE_ID : string.

(** [_sendInitialURL] *)
Definition _sendInitialURL (ph : Phoenix) (pageLoaderID : string) : list PhoenixOut :=
  if Js.truthy_opt (currentPopoutURL ph) then
    [NavigatorPost (INITIAL_URL_NAVIGATE (Js.to_string (currentPopoutURL ph)) pageLoaderID)]
  else [].

(** [redirectAllTabs] *)
Definition redirectAllTabs (ph : Phoenix) (newURL : string) (force : bool)
  : Phoenix * list PhoenixOut :=
  (mkPhoenix (_staticServerInstance ph) (editor ph) (livePreviewTabs ph) (Some newURL),
   [NavigatorPost (REDIRECT_PAGE newURL force)]).

(** [_projectOpened] *)
Definition _projectOpened (projectRoot : string) : list PhoenixOut :=
  [NavigatorPost (PROJECT_SWITCH projectRoot)].

Definition set_livePreviewTabs (ph : Phoenix) (tabs : list (string * TabInfo)) : Phoenix :=
  mkPhoenix (_staticServerInstance ph) (editor ph) tabs (currentPopoutURL ph).

(** [navigatorChannel.onmessage] of [_initNavigatorChannel]. The handler
    reads [event.data] only. *)
Definition phoenix_navigator_onmessage (now : Z) (ph : Phoenix)
    (event : MessageEvent NavMessage) : Phoenix * list PhoenixOut :=
  match data event with
  | GET_INITIAL_URL pageLoaderID => (ph, _sendInitialURL ph pageLoaderID)
  | TAB_LOADER_ONLINE pageLoaderID URL =>
      (set_livePreviewTabs ph
         (Map_set pageLoaderID (mkTabInfo now URL true) (livePreviewTabs ph)), [])
  | _ => (ph, [])
  end.

(** [exports.trigger(eventName, {data})] as called by the default branch of
    the messenger handler. Of the listeners this file registers, two are
    under names that reach the default branch: the one for
    [EVENT_UPDATE_TITLE_ICON], which reads [event.data.message] and posts
    on the navigator channel, and the one for
    [EVENT_EMBEDDED_IFRAME_ESCAPE_PRESS]. [title_icon] is [None] when the
    data carries no message. *)
Definition exports_trigger (ed : Editor) (eventName : string)
    (title_icon : option (option string * option string)) : list PhoenixOut :=
  ExportsTrigger eventName
  :: (if String.eqb eventName EVENT_UPDATE_TITLE_ICON then
        match title_icon with
        | Some (title, faviconBase64) => [NavigatorPost (UPDATE_TITLE_ICON title faviconBase64)]
        | None => [Uncaught "TypeError"]
        end
      else if String.eqb eventName EVENT_EMBEDDED_IFRAME_ESCAPE_PRESS then
        if isLiveHighlightEnabled ed then [FocusActiveEditor] else []
      else []).

(** [livePreviewChannel.onmessage] of [_initLivePreviewChannel]. The
    handler reads [event.data] only. *)
Definition phoenix_messenger_onmessage (now : Z) (ph : Phoenix)
    (event : MessageEvent (Envelope RelayRequest)) : Phoenix * list PhoenixOut :=
  let pageLoaderID := env_pageLoaderID (data event) in
  match env_data (data event) with
  | GET_PHOENIX_INSTANCE_ID =>
      (ph, [SendToLivePreviewServerTabs
              (mkEnvelope pageLoaderID (PHOENIX_INSTANCE_ID_IS PHOENIX_INSTANCE_ID))])
  | GET_CONTENT requestID path url =>
      let '(promise, effects) := getContent (_staticServerInstance ph) (editor ph) path url in
      (ph,
       (map Did effects ++
        match promise with
        | Resolved response =>
            [SendToLivePreviewServerTabs
               (mkEnvelope pageLoaderID (REQUEST_RESPONSE requestID response))]
        | Rejected reason => [Did (ConsoleError reason)]      (* .catch(console.error) *)
        end)%list)
  | TAB_ONLINE clientID URL =>
      (set_livePreviewTabs ph
         (Map_set clientID (mkTabInfo now URL false) (livePreviewTabs ph)), [])
  | REPORT_ERROR message => (ph, [LoggerReportError message])
  | UPDATE_TITLE_AND_ICON title faviconBase64 =>
      (ph, exports_trigger (editor ph) EVENT_UPDATE_TITLE_ICON (Some (title, faviconBase64)))
  | OTHER_EVENT eventName =>
      (* [message] is undefined *)
      if String.eqb eventName EVENT_GET_PHOENIX_INSTANCE_ID then
        (ph, [SendToLivePreviewServerTabs
                (mkEnvelope pageLoaderID (PHOENIX_INSTANCE_ID_IS PHOENIX_INSTANCE_ID))])
      else if String.eqb eventName EVENT_GET_CONTENT || String.eqb eventName EVENT_TAB_ONLINE then
        (ph, [Uncaught "TypeError"])              (* message.path, message.clientID *)
      else if String.eqb eventName EVENT_REPORT_ERROR then
        (ph, [LoggerReportError EmptyString])     (* new Error(undefined) *)
      else
        (ph, exports_trigger (editor ph) eventName None)
  end.

(** The output is a response to a content request. *)
Definition is_response (o : PhoenixOut) : bool :=
  match o with
  | SendToLivePreviewServerTabs e =>
      match env_data e with
      | REQUEST_RESPONSE _ _ => true
      | PHOENIX_INSTANCE_ID_IS _ => false
      end
  | _ => false
  end.

(** The heartbeat timer of [_startHeartBeatListeners]. *)
Definition phoenix_sweep (now : Z) (ph : Phoenix) : Phoenix * list Triggered :=
  let '(tabs, raised) := sweep now (livePreviewTabs ph) in
  (set_livePreviewTabs ph tabs, raised).

End EditorSide.

Arguments mkEvent {A} origin data.
Arguments origin {A} m.
Arguments data {A} m.
Arguments mkEnvelope {A} env_pageLoaderID env_data.
Arguments env_pageLoaderID {A} e.
Arguments env_data {A} e.

(** ** The live preview loader page *)

(** The keys of the [TRUSTED_ORIGINS] object literal; every value is
    [true]. *)
Definition TRUSTED_ORIGINS : list string :=
  [ "http://localhost:8000"; "http://localhost:8001"; "http://localhost:5000";
    "http://127.0.0.1:8000"; "http://127.0.0.1:8001"; "http://127.0.0.1:5000";
    "https://phcode.live"; "https://phcode.dev"; "https://dev.phcode.dev";
    "https://staging.phcode.dev"; "https://create.phcode.dev";
    "https://phcode-live.ts.r.appspot.com"; "https://csinschools.io" ].

(** The origin is a key of [TRUSTED_ORIGINS]. *)
Definition trusted_origin (o : string) : bool :=
  existsb (String.eqb o) TRUSTED_ORIGINS.

(** [TRUSTED_ORIGINS[origin]] as a condition: a key of the literal, or the
    name of a property that the literal inherits. *)
Definition TRUSTED_ORIGINS_lookup (o : string) : bool :=
  trusted_origin o || Js.inherited_by_object o.

(** [isTrustedURL] *)
Definition isTrustedURL (url : option string) : bool :=
  match url with
  | None => false
  | Some u => Js.truthy u && existsb (fun trustedUrl => Js.startsWith u trustedUrl) TRUSTED_ORIGINS
  end.

Definition SESSION_SECURITY_CLEAR_KEY : string := "LIVE_PREVIEW_SESSION_SECURITY_CLEAR".

Definition ABOUT_BLANK : string := "about:blank".

(** The script variables of the page and the parts of the document they
    drive. The label of the trust button, which the handlers also rewrite,
    is left out. *)
Record Loader : Type := mkLoader {
  pageLoaderID : string;
  securityAlertAcknowledged : bool;
  previewURL : option string;                  (* undefined until a message sets it *)
  trustedProjects : gmap string bool;          (* the array object, see [Js.Array_truthy] *)
  currentProjectRoot : option string;          (* None is null *)
  previewFrame_src : string;                   (* src attribute of #previewFrame *)
  dialog_display : option string;              (* style.display of #outer-container; None: no such element *)
  sessionStorage : gmap string string;
  document_title : string;
  favicon_href : option string
}.

(** A property key or string operand made from [currentProjectRoot]. *)
Definition root_key (root : option string) : string :=
  match root with
  | Some r => r
  | None => "null"
  end.

(** [trustedProjects[root]] as a condition *)
Definition isTrusted (st : Loader) (root : string) : bool :=
  Js.Array_truthy (trustedProjects st) root.

Definition set_previewURL (u : string) (st : Loader) : Loader :=
  mkLoader (pageLoaderID st) (securityAlertAcknowledged st) (Some u) (trustedProjects st)
    (currentProjectRoot st) (previewFrame_src st) (dialog_display st) (sessionStorage st)
    (document_title st) (favicon_href st).

Definition set_frame_src (src : string) (st : Loader) : Loader :=
  mkLoader (pageLoaderID st) (securityAlertAcknowledged st) (previewURL st) (trustedProjects st)
    (currentProjectRoot st) src (dialog_display st) (sessionStorage st)
    (document_title st) (favicon_href st).

Definition set_acknowledged (b : bool) (st : Loader) : Loader :=
  mkLoader (pageLoaderID st) b (previewURL st) (trustedProjects st)
    (currentProjectRoot st) (previewFrame_src st) (dialog_display st) (sessionStorage st)
    (document_title st) (favicon_href st).

Definition set_currentProjectRoot (root : string) (st : Loader) : Loader :=
  mkLoader (pageLoaderID st) (securityAlertAcknowledged st) (previewURL st) (trustedProjects st)
    (Some root) (previewFrame_src st) (dialog_display st) (sessionStorage st)
    (document_title st) (favicon_href st).

(** [dialog.style.display = d], when the element exists *)
Definition set_dialog_display (d : string) (st : Loader) : Loader :=
  mkLoader (pageLoaderID st) (securityAlertAcknowledged st) (previewURL st) (trustedProjects st)
    (currentProjectRoot st) (previewFrame_src st) (Some d) (sessionStorage st)
    (document_title st) (favicon_href st).

(** [trustedProjects[currentProjectRoot] = true] followed by
    [sessionStorage.setItem(SESSION_SECURITY_CLEAR_KEY+currentProjectRoot, 'true')] *)
Definition record_trust (st : Loader) : Loader :=
  let key := root_key (currentProjectRoot st) in
  mkLoader (pageLoaderID st) (securityAlertAcknowledged st) (previewURL st)
    (Js.Array_assign_true key (trustedProjects st))
    (currentProjectRoot st) (previewFrame_src st) (dialog_display st)
    (<[SESSION_SECURITY_CLEAR_KEY ++ key := "true"]> (sessionStorage st))
    (document_title st) (favicon_href st).

Definition set_title_icon (title faviconBase64 : option string) (st : Loader) : Loader :=
  mkLoader (pageLoaderID st) (securityAlertAcknowledged st) (previewURL st) (trustedProjects st)
    (currentProjectRoot st) (previewFrame_src st) (dialog_display st) (sessionStorage st)
    (match title with Some t => t | None => document_title st end)
    (if Js.truthy_opt faviconBase64 then faviconBase64 else favicon_href st).

(** How a handler ends: it returns, or an exception leaves it with the
    assignments made so far. *)
Inductive Completion : Type :=
| Returned (st : Loader)
| Threw (st : Loader).

Definition state_of (c : Completion) : Loader :=
  match c with
  | Returned st | Threw st => st
  end.

(** Unfolds the field assignments above. *)
Ltac unfold_setters :=
  unfold record_trust, set_acknowledged, set_frame_src, set_previewURL,
    set_currentProjectRoot, set_dialog_display, set_title_icon, isTrusted in *;
  cbn [pageLoaderID securityAlertAcknowledged previewURL trustedProjects
       currentProjectRoot previewFrame_src dialog_display sessionStorage
       document_title favicon_href state_of fst snd] in *.

(** What the page emits. *)
Inductive LoaderOut : Type :=
| LoaderNavigatorPost (m : NavMessage)
| LoaderMessengerPost (e : Envelope RelayRequest)
| ServerFramePost (d : RelayRequest + ServerReply)
| LoaderConsoleError (msg : string).

(** What the page receives. *)
Inductive LoaderEvent : Type :=
| NavigatorMessage (m : NavMessage)
| MessengerMessage (e : Envelope (RelayRequest + ServerReply))
| WindowMessage (event : MessageEvent RelayRequest)
| OkButtonClick
| HeartbeatTimer.

Section LoaderPage.

(** Browser functions. *)
Variable decodeURIComponent : string -> option string.   (* None: URIError *)
Variable iframe_src : string -> string.                   (* the src getter: the attribute as a resolved URL *)

(** [securityOk] *)
Definition securityOk (st : Loader) : Completion :=
  match dialog_display st with
  | None => Threw st                                       (* dialog is null *)
  | Some _ =>
      let st := set_dialog_display "none" st in
      match decodeURIComponent (Js.to_string (previewURL st)) with
      | None => Threw st
      | Some u => Returned (record_trust (set_acknowledged true (set_frame_src u st)))
      end
  end.

(** [navigatorChannel.onmessage] of [setupNavigationWatcher] *)
Definition loader_navigator_onmessage (st : Loader) (m : NavMessage)
  : Completion * list LoaderOut :=
  match m with
  | INITIAL_URL_NAVIGATE URL id =>
      let st := set_previewURL URL st in
      if negb (securityAlertAcknowledged st) || negb (String.eqb id (pageLoaderID st)) then
        (Returned st, [])
      else
        (Returned (set_frame_src URL st), [])
  | REDIRECT_PAGE URL force =>
      let st := set_previewURL URL st in
      if negb (securityAlertAcknowledged st) then
        (Returned st, [])
      else if force || negb (String.eqb (iframe_src (previewFrame_src st)) URL) then
        (Returned (set_frame_src URL st), [])
      else
        (Returned st, [])
  | UPDATE_TITLE_ICON title faviconBase64 =>
      (Returned (set_title_icon title faviconBase64 st), [])
  | PROJECT_SWITCH projectRoot =>
      let st := set_currentProjectRoot projectRoot st in
      if isTrusted st projectRoot && bool_decide (is_Some (dialog_display st)) then
        let st := set_dialog_display "none" st in
        match decodeURIComponent (Js.to_string (previewURL st)) with
        | None => (Threw st, [])
        | Some u => (Returned (set_acknowledged true (set_frame_src u st)), [])
        end
      else
        let st := set_frame_src ABOUT_BLANK (set_acknowledged false st) in
        (Returned (if bool_decide (is_Some (dialog_display st))
                   then set_dialog_display "flex" st else st), [])
  | TAB_LOADER_ONLINE _ _ => (Returned st, [])
  | GET_INITIAL_URL _ | NAV_OTHER _ =>
      (Returned st, [LoaderConsoleError "Unknown live preivew broadcast message received!: "])
  end.

(** [livePreviewChannel.onmessage] of [setupNavigationWatcher] *)
Definition loader_messenger_onmessage (st : Loader)
    (e : Envelope (RelayRequest + ServerReply)) : list LoaderOut :=
  match env_pageLoaderID e with
  | Some id =>
      if Js.truthy id && negb (String.eqb id (pageLoaderID st)) then []
      else [ServerFramePost (env_data e)]
  | None => [ServerFramePost (env_data e)]
  end.

(** The [message] listener of the window *)
Definition loader_window_onmessage (st : Loader) (event : MessageEvent RelayRequest)
  : list LoaderOut :=
  if negb (TRUSTED_ORIGINS_lookup (origin event)) then []
  else [LoaderMessengerPost (mkEnvelope (Some (pageLoaderID st)) (data event))].

(** The heartbeat timer of the page (every 3000 ms). The property is
    spelled [url] by the page and read as [URL] by the editor, which
    therefore sees no value. *)
Definition loader_heartbeat (st : Loader) : list LoaderOut :=
  [LoaderNavigatorPost (TAB_LOADER_ONLINE (pageLoaderID st) None)].

(** The page as loaded: script variables at their initial values, the frame
    on [about:blank], the prompt shown. [initialProjectRoot] is the query
    parameter read by [navigateToInitialURL]. *)
Definition page_loaded (id : string) (initialProjectRoot : option string)
    (storage : gmap string string) : Loader :=
  mkLoader id false None ∅ initialProjectRoot ABOUT_BLANK (Some EmptyString) storage
    "Phoenix Live Preview Loader..." None.

(** The tail of [setupNavigationWatcher]: ask for the initial URL, and
    replay the acknowledgement kept in the session storage. *)
Definition setupNavigationWatcher (st : Loader) : Loader * list LoaderOut :=
  let isAck := sessionStorage st !! (SESSION_SECURITY_CLEAR_KEY ++ root_key (currentProjectRoot st)) in
  (if Js.truthy_opt isAck then state_of (securityOk st) else st,
   [LoaderNavigatorPost (GET_INITIAL_URL (pageLoaderID st))]).

(** One turn of the event loop of the page. *)
Definition loader_step (st : Loader) (ev : LoaderEvent) : Loader * list LoaderOut :=
  match ev with
  | NavigatorMessage m =>
      let '(c, out) := loader_navigator_onmessage st m in (state_of c, out)
  | MessengerMessage e => (st, loader_messenger_onmessage st e)
  | WindowMessage event => (st, loader_window_onmessage st event)
  | OkButtonClick => (state_of (securityOk st), [])
  | HeartbeatTimer => (st, loader_heartbeat st)
  end.

Fixpoint loader_run (st : Loader) (evs : list LoaderEvent) : Loader * list LoaderOut :=
  match evs with
  | [] => (st, [])
  | ev :: rest =>
      let '(st', out) := loader_step st ev in
      let '(st'', out') := loader_run st' rest in
      (st'', (out ++ out')%list)
  end.

(** The states the page can be in during one load: loaded, set up, then
    any events. [currentProjectRoot] is the page's own view of the project
    root: the query parameter at load, then the last [PROJECT_SWITCH]. *)
Inductive reachable : Loader -> Prop :=
| reach_setup id root storage :
    reachable (fst (setupNavigationWatcher (page_loaded id root storage)))
| reach_step st ev :
    reachable st -> reachable (fst (loader_step st ev)).

(** What the trust prompt guarantees in every state of the page: an
    unacknowledged page shows the blank frame, an acknowledged one stands on
    a trusted root, and the prompt element is there. *)
Definition gate_invariant (st : Loader) : Prop :=
  (securityAlertAcknowledged st = false -> previewFrame_src st = ABOUT_BLANK)
  /\ (securityAlertAcknowledged st = true ->
      isTrusted st (root_key (currentProjectRoot st)) = true)
  /\ is_Some (dialog_display st).

(** The event is not the user's click on the trust button. *)
Definition not_ok_click (ev : LoaderEvent) : bool :=
  match ev with
  | OkButtonClick => false
  | _ => true
  end.

(** The session storage holds no acknowledgement for the root. *)
Definition session_unacknowledged (root : option string) (storage : gmap string string) : Prop :=
  Js.truthy_opt (storage !! (SESSION_SECURITY_CLEAR_KEY ++ root_key root)) = false.

End LoaderPage.

(** Window messages that pass the allowlist are relayed on the messenger
    channel and handled by the editor. [page_origin] is the origin of the
    loader page, which the browser stamps on its broadcast messages. *)
Section Relay.

Variable _documentKey : string -> string.
Variable isMarkdownFile : string -> bool.
Variable getRemoteScript : string.
Variable URL_new : string -> option URL.
Variable URL_href : URL -> string.
Variable render_redirect : string -> string.
Variable marked_parse : string -> string.
Variable render_markdown : string -> string.
Variable PHOENIX_INSTANCE_ID : string.
Variable page_origin : string.

Fixpoint deliver_to_editor (now : Z) (ph : Phoenix) (posts : list LoaderOut)
  : Phoenix * list PhoenixOut :=
  match posts with
  | [] => (ph, [])
  | LoaderMessengerPost e :: rest =>
      let '(ph', out) :=
        phoenix_messenger_onmessage _documentKey isMarkdownFile getRemoteScript
          URL_new URL_href render_redirect marked_parse render_markdown
          PHOENIX_INSTANCE_ID now ph (mkEvent page_origin e) in
      let '(ph'', out') := deliver_to_editor now ph' rest in
      (ph'', (out ++ out')%list)
  | _ :: rest => deliver_to_editor now ph rest
  end.

Definition window_message_to_editor (now : Z) (ph : Phoenix) (st : Loader)
    (event : MessageEvent RelayRequest) : Phoenix * list PhoenixOut :=
  deliver_to_editor now ph (loader_window_onmessage st event).

End Relay.

(** ** Sample instances of the collaborators, to run the definitions *)

Module Scenario.

Fixpoint split_on (c : ascii) (s : string) : list string :=
  match s with
  | EmptyString => [EmptyString]
  | String a rest =>
      if Ascii.eqb a c then EmptyString :: split_on c rest
      else match split_on c rest with
           | h :: t => String a h :: t
           | [] => [String a EmptyString]
           end
  end.

Definition split_once (c : ascii) (s : string) : string * string :=
  match index 0 (String c EmptyString) s with
  | Some i => (substring 0 i s, substring (S i) (String.length s - S i) s)
  | None => (s, EmptyString)
  end.

(** A URL parser for absolute http(s) URLs already in normal form and free
    of escapes: on these it agrees with [new URL]. *)
Definition URL_new (s : string) : option URL :=
  if Js.startsWith s "http://" || Js.startsWith s "https://" then
    let '(before_hash, hash) := split_once "#" s in
    let '(prefix, query) := split_once "?" before_hash in
    let pairs :=
      map (split_once "=")
          (List.filter (fun kv => Js.truthy kv) (split_on "&" query)) in
    Some (mkURL prefix (AsParsed query) pairs hash)
  else None.

Fixpoint join_params (ps : list (string * string)) : string :=
  match ps with
  | [] => EmptyString
  | [(k, v)] => k ++ "=" ++ v
  | (k, v) :: rest => k ++ "=" ++ v ++ "&" ++ join_params rest
  end.

(** [url.href] for the URLs above: the query is the text that was parsed,
    or the pairs joined again once [searchParams] was written. *)
Definition URL_href (u : URL) : string :=
  url_prefix u
  ++ (match url_query u with
      | AsParsed query => if Js.truthy query then "?" ++ query else EmptyString
      | Serialised =>
          match searchParams u with [] => EmptyString | ps => "?" ++ join_params ps end
      end)
  ++ (if Js.truthy (url_hash u) then "#" ++ url_hash u else EmptyString).

(** Modelled from the spec: [BaseServer.prototype._documentKey] is not among
    the sources; the overlay is a map from logical path to content, so the
    key of a path is the path. *)
Definition _documentKey (p : string) : string := p.

(** Modelled from the spec: [utils.isMarkdownFile] is not among the sources;
    a path is tagged as markdown by its extension. *)
Definition isMarkdownFile (p : string) : bool :=
  Js.endsWith p ".md" || Js.endsWith p ".markdown".

(** Modelled from the spec: [LiveDevProtocol.getRemoteScript] is not among
    the sources; the live-reload instrumentation marker is a script tag. *)
Definition getRemoteScript : string := "<script src=phoenix_live_preview_scripts_instrumented.js></script>".

(** Stand-ins for the two Mustache templates and for marked, which keep
    their argument visible. *)
Definition render_redirect (redirectURL : string) : string :=
  "<script>window.location.href='" ++ redirectURL ++ "';</script>".
Definition marked_parse (text : string) : string :=
  if Js.startsWith text "# " then "<h1>" ++ substring 2 (String.length text - 2) text ++ "</h1>"
  else "<p>" ++ text ++ "</p>".
Definition render_markdown (markdownContent : string) : string :=
  "<html><body>" ++ markdownContent ++ "</body></html>".

Definition PHOENIX_INSTANCE_ID : string := "inst1".
Definition PREVIEW_BASE_URL : string :=
  "https://phcode-live.ts.r.appspot.com/vfs/PHOENIX_LIVE_PREVIEW_inst1".

Definition projectRoot : string := "/proj/".

(** Modelled from the spec: [ProjectModel.isWithinProject] is not among the
    sources; a path lies within the project root when the root is a prefix
    of it. *)
Definition isWithinProject (p : string) : bool := Js.startsWith p projectRoot.

Definition url_of (p : string) : string := PREVIEW_BASE_URL ++ p.

(** A started server: an instrumented page and a page whose body carries no
    instrumentation under live preview, two overlay entries. *)
Definition server : StaticServer :=
  mkStaticServer PREVIEW_BASE_URL
    (<["/proj/index.html" := mkLiveDocument (Some ("<html>" ++ getRemoteScript ++ "index</html>"))]>
       (<["/proj/old.html" := mkLiveDocument (Some "<html>old page</html>")]> ∅))
    (<["/proj/lp_scripts.js" := "console.log(1)"]>
       (<["/proj/README.md" := "overlay text"]> ∅)).

(** The editor with [cur] as the file of the current document. *)
Definition editor_with_current (cur : option string) : Editor :=
  mkEditor cur None isWithinProject (fun p => p)
    (<["/proj/open.html" := "<p>edited</p>"]> ∅)
    (fun p =>
       if String.eqb p "/other/notes.md" then inl "# Hi"
       else if String.eqb p "/proj/README.md" then inl "# Readme"
       else inr "NotFound")
    (fun p =>
       if String.eqb p "/proj/about.html" then Some [Byte.x3c; Byte.x70; Byte.x3e]
       else None)
    true.

(** The URL of a popped-out tab, as [getTabPopoutURL] tags it. *)
Definition popout_url_of (p : string) : string :=
  url_of p ++ "?phcodeLivePreview=true".

Definition getContent :=
  getContent _documentKey isMarkdownFile getRemoteScript URL_new URL_href
    render_redirect marked_parse render_markdown.

Definition _getInstrumentedContent :=
  _getInstrumentedContent _documentKey getRemoteScript URL_new URL_href render_redirect.

Definition phoenix_messenger_onmessage :=
  phoenix_messenger_onmessage _documentKey isMarkdownFile getRemoteScript URL_new
    URL_href render_redirect marked_parse render_markdown PHOENIX_INSTANCE_ID.

(** Stand-ins for two browser functions: already decoded URLs decode to
    themselves, except that a lone percent sign is a URIError; the frame
    reports its attribute unchanged. *)
Definition decodeURIComponent (s : string) : option string :=
  if Js.includes s "%" then None else Some s.
Definition iframe_src (attr : string) : string := attr.

Definition loader_step := loader_step decodeURIComponent iframe_src.
Definition loader_run := loader_run decodeURIComponent iframe_src.
Definition securityOk := securityOk decodeURIComponent.

(** A loader page just set up for [/proj/], nothing acknowledged yet. *)
Definition fresh_loader : Loader :=
  fst (setupNavigationWatcher decodeURIComponent (page_loaded "tab1" (Some "/proj/") ∅)).

(** The same page after a [REDIRECT_PAGE] (still behind the prompt), and
    after the click on the trust button that follows. *)
Definition prompted_loader : Loader :=
  fst (loader_step fresh_loader
         (NavigatorMessage (REDIRECT_PAGE (url_of "/proj/index.html") false))).
Definition trusted_loader : Loader :=
  fst (loader_step prompted_loader OkButtonClick).

(** A content request as it reaches the editor on the messenger channel,
    stamped with the origin [o]. *)
Definition content_request (o : string) (p : string) : MessageEvent (Envelope RelayRequest) :=
  mkEvent o (mkEnvelope (Some "tab1") (GET_CONTENT "r1" p (url_of p))).

(** A content tab and a loader tab, both heard from at time 0; then the
    content tab beating every second across twelve sweeps. *)
Definition registry_history : list (Z * TabEvent) :=
  [(0%Z, TabOnline "tabA" None); (0%Z, TabLoaderOnline "loaderB" None)].

Definition beating_trace : list (Z * TabEvent) :=
  flat_map (fun n : nat =>
              let t := (1000 * Z.of_nat n)%Z in
              [(t, TabOnline "tabA" None); (t, SweepTick)])
           (seq 1 12).

Definition phoenix (cur : option string) (currentPopoutURL : option string) : Phoenix :=
  mkPhoenix (Some server) (editor_with_current cur) [] currentPopoutURL.

(** One browser tab through a reload. The page was opened for [/proj/],
    which the user trusted; the editor then switched to the project
    [/other/], which puts the page back behind the prompt
    ([switched_loader]); there the user may click the button too
    ([both_trusted_loader]). Then the tab is reloaded: the URL of the page
    still names [/proj/] as its initial project root, the session storage
    is that of the tab before the reload, and the page draws a new id. *)
Definition switched_loader : Loader :=
  fst (loader_step trusted_loader (NavigatorMessage (PROJECT_SWITCH "/other/"))).
Definition both_trusted_loader : Loader :=
  fst (loader_step switched_loader OkButtonClick).
Definition reloaded (before : Loader) : Loader :=
  fst (setupNavigationWatcher decodeURIComponent
         (page_loaded "tab2" (Some "/proj/") (sessionStorage before))).

End Scenario.

(** ** The resolver and the channels as the design notes describe them

    Each proposition below words one sentence of the design notes over the
    definitions above. The theorems say which of them the code satisfies
    and in which form. *)

Section Specified.

Variable _documentKey : string -> string.
Variable isMarkdownFile : string -> bool.
Variable getRemoteScript : string.
Variable URL_new : string -> option URL.
Variable URL_href : URL -> string.
Variable render_redirect : string -> string.
Variable marked_parse : string -> string.
Variable render_markdown : string -> string.
Variable PHOENIX_INSTANCE_ID : string.

Local Abbreviation resolve :=
  (getContent _documentKey isMarkdownFile getRemoteScript URL_new URL_href
     render_redirect marked_parse render_markdown).

(** "For all paths inside the project root with an overlay entry,
    resolution returns the overlay content." *)
Definition overlay_is_highest_precedence : Prop :=
  forall srv ed p url v,
    isWithinProject ed p = true ->
    Js.startsWith url (_baseUrl srv) = true ->
    _virtualServingDocuments srv !! _documentKey p = Some v ->
    exists r, fst (resolve (Some srv) ed p url) = Resolved r
              /\ contents r = Some (Text v).

(** "A popped-out request for a stale body gets a redirect page that
    targets the now-current URL." *)
Definition stale_popout_redirects_to_current_url : Prop :=
  forall (ph : Phoenix) srv p url u body current cu,
    _staticServerInstance ph = Some srv ->
    isWithinProject (editor ph) p = true ->
    Js.startsWith url (_baseUrl srv) = true ->
    URL_new url = Some u ->
    Js.truthy_opt (searchParams_get PHCODE_LIVE_PREVIEW_QUERY_PARAM (searchParams u)) = true ->
    (_liveDocuments srv !! _documentKey p) ≫= getResponseData = Some body ->
    Js.includes body getRemoteScript = false ->
    currentPopoutURL ph = Some current ->
    URL_new current = Some cu ->
    exists r, fst (resolve (Some srv) (editor ph) p url) = Resolved r
              /\ contents r = Some (Text (_getRedirectionPage URL_href render_redirect cu)).

(** "Resolution never rejects: the caller always receives a response." *)
Definition resolution_never_rejects : Prop :=
  forall inst ed p url, exists r, fst (resolve inst ed p url) = Resolved r.

(** "A resolved path with an HTML-family extension carries the UTF-8 HTML
    header, at every tier that produces content." *)
Definition html_family_always_has_header : Prop :=
  forall inst ed p url r,
    fst (resolve inst ed p url) = Resolved r ->
    is_Some (contents r) ->
    is_html_family (path r) = true ->
    headers r = Some html_headers.

(** "Every inbound message, on any channel, from a non-allowlisted origin is
    discarded before reaching a handler." The three inbound surfaces that
    receive a browser event are listed; the two broadcast handlers of the
    loader page read [event.data] only, like those of the editor. *)
Definition origin_checked_on_every_channel : Prop :=
  (forall now ph (event : MessageEvent NavMessage),
      trusted_origin (origin event) = false ->
      phoenix_navigator_onmessage now ph event = (ph, []))
  /\ (forall now ph (event : MessageEvent (Envelope RelayRequest)),
      trusted_origin (origin event) = false ->
      phoenix_messenger_onmessage _documentKey isMarkdownFile getRemoteScript URL_new
        URL_href render_redirect marked_parse render_markdown PHOENIX_INSTANCE_ID
        now ph event = (ph, []))
  /\ (forall st (event : MessageEvent RelayRequest),
      trusted_origin (origin event) = false ->
      loader_window_onmessage st event = []).

End Specified.

Section SpecifiedTrust.

Variable decodeURIComponent : string -> option string.
Variable iframe_src : string -> string.


End SpecifiedTrust.

(** ** BrowserStaticServer.js: the rest of the module *)

(** *** The event loop of the editor side *)

(** What reaches the module: a message on one of its two channels, or the
    heartbeat timer. *)
Inductive PhoenixEvent : Type :=
| NavigatorEvent (event : MessageEvent NavMessage)
| MessengerEvent (event : MessageEvent (Envelope RelayRequest))
| SweepTimer.

(** The registry's view of an event. *)
Definition tab_event_of (ev : PhoenixEvent) : option TabEvent :=
  match ev with
  | NavigatorEvent event =>
      match data event with
      | TAB_LOADER_ONLINE pageLoaderID URL => Some (TabLoaderOnline pageLoaderID URL)
      | _ => None
      end
  | MessengerEvent event =>
      match env_data (data event) with
      | TAB_ONLINE clientID URL => Some (TabOnline clientID URL)
      | _ => None
      end
  | SweepTimer => Some SweepTick
  end.

Fixpoint tab_events (trace : list (Z * PhoenixEvent)) : list (Z * TabEvent) :=
  match trace with
  | [] => []
  | (now, ev) :: rest =>
      match tab_event_of ev with
      | Some t => (now, t) :: tab_events rest
      | None => tab_events rest
      end
  end.

(** The message carried by [exports.on(EVENT_GET_CONTENT)]; a missing
    [phoenixInstanceID] is [None]. *)
Record EmbeddedContentRequest : Type := mkEmbeddedContentRequest {
  emb_phoenixInstanceID : option string;
  emb_path : string;
  emb_requestID : string;
  emb_url : string
}.

(** What [messageToLivePreviewTabs] emits: the message posted to the server
    frame of the editor window when that frame exists, then the same message
    on the messenger channel for every loader page. *)
Inductive EmbeddedOut : Type :=
| ServerIframePost (reply : ServerReply)
| ChannelOut (o : PhoenixOut).

Section EditorLoop.

Variable _documentKey : string -> string.
Variable isMarkdownFile : string -> bool.
Variable getRemoteScript : string.
Variable URL_new : string -> option URL.
Variable URL_href : URL -> string.
Variable render_redirect : string -> string.
Variable marked_parse : string -> string.
Variable render_markdown : string -> string.
Variable PHOENIX_INSTANCE_ID : string.

Definition phoenix_step (now : Z) (ph : Phoenix) (ev : PhoenixEvent)
  : Phoenix * list (PhoenixOut + Triggered) :=
  match ev with
  | NavigatorEvent event =>
      let '(ph', out) := phoenix_navigator_onmessage now ph event in
      (ph', map inl out)
  | MessengerEvent event =>
      let '(ph', out) :=
        phoenix_messenger_onmessage _documentKey isMarkdownFile getRemoteScript URL_new
          URL_href render_redirect marked_parse render_markdown PHOENIX_INSTANCE_ID
          now ph event in
      (ph', map inl out)
  | SweepTimer =>
      let '(ph', raised) := phoenix_sweep now ph in
      (ph', map inr raised)
  end.

Fixpoint phoenix_run (trace : list (Z * PhoenixEvent)) (ph : Phoenix)
  : Phoenix * list (PhoenixOut + Triggered) :=
  match trace with
  | [] => (ph, [])
  | (now, ev) :: rest =>
      let '(ph', out) := phoenix_step now ph ev in
      let '(ph'', out') := phoenix_run rest ph' in
      (ph'', (out ++ out')%list)
  end.

(** [messageToLivePreviewTabs]; [has_iframe] says whether
    [$livepreviewServerIframe] is set. Every message built by this module
    has a [type]. *)
Definition messageToLivePreviewTabs (has_iframe : bool) (message : ServerReply)
  : list EmbeddedOut :=
  ((if has_iframe then [ServerIframePost message] else [])
   ++ [ChannelOut (SendToLivePreviewServerTabs (mkEnvelope None message))])%list.

(** The handler of [exports.on(EVENT_GET_CONTENT)]; [message] is
    [event.data.message]. *)
Definition on_EVENT_GET_CONTENT (has_iframe : bool) (ph : Phoenix)
    (message : option EmbeddedContentRequest) : list EmbeddedOut :=
  match message with
  | Some m =>
      if bool_decide (emb_phoenixInstanceID m = Some PHOENIX_INSTANCE_ID) then
        let '(promise, effects) :=
          getContent _documentKey isMarkdownFile getRemoteScript URL_new URL_href
            render_redirect marked_parse render_markdown
            (_staticServerInstance ph) (editor ph) (emb_path m) (emb_url m) in
        (map (fun e => ChannelOut (Did e)) effects
         ++ match promise with
            | Resolved response =>
                messageToLivePreviewTabs has_iframe (REQUEST_RESPONSE (emb_requestID m) response)
            | Rejected reason => [ChannelOut (Did (ConsoleError reason))]
            end)%list
      else []
  | None => []
  end.

(** The handler of [exports.on(EVENT_GET_PHOENIX_INSTANCE_ID)] *)
Definition on_EVENT_GET_PHOENIX_INSTANCE_ID (has_iframe : bool) : list EmbeddedOut :=
  messageToLivePreviewTabs has_iframe (PHOENIX_INSTANCE_ID_IS PHOENIX_INSTANCE_ID).

(** The handler of [exports.on(EVENT_TAB_ONLINE)] *)
Definition on_EVENT_TAB_ONLINE (now : Z) (ph : Phoenix) (clientID : string) (URL : option string)
  : Phoenix :=
  set_livePreviewTabs ph (Map_set clientID (mkTabInfo now URL false) (livePreviewTabs ph)).

End EditorLoop.

(** *** Starting and stopping a server

    [_staticServerInstance] holds a reference; [isActive] compares
    references. An instance is therefore modelled with the identity of its
    object next to its fields. *)

Record ServerObject : Type := mkServerObject {
  object_id : nat;
  fields : StaticServer
}.

(** [StaticServer.prototype.start]: the new value of [_staticServerInstance] *)
Definition start (this : ServerObject) (active : option ServerObject) : option ServerObject :=
  Some this.

(** [StaticServer.prototype.stop] *)
Definition stop (this : ServerObject) (active : option ServerObject) : option ServerObject :=
  None.

(** [StaticServer.prototype.isActive] *)
Definition isActive (this : ServerObject) (active : option ServerObject) : bool :=
  match active with
  | Some s => Nat.eqb (object_id s) (object_id this)
  | None => false
  end.

(** A call on an instance, as the live development code issues them. *)
Inductive ServerCall : Type :=
| CallStart (this : ServerObject)
| CallStop (this : ServerObject).

Definition server_call (active : option ServerObject) (c : ServerCall) : option ServerObject :=
  match c with
  | CallStart this => start this active
  | CallStop this => stop this active
  end.

(** The server that [getContent] consults. *)
Definition serving (active : option ServerObject) : option StaticServer :=
  fields <$> active.

(** *** Popping a preview out into a tab *)

(** [url.searchParams.set(name, value)]: the first pair under [name] takes
    the value and the others are dropped; without one, the pair is
    appended. *)
Fixpoint searchParams_set (name value : string) (ps : list (string * string))
  : list (string * string) :=
  match ps with
  | [] => [(name, value)]
  | (k, v) :: rest =>
      if String.eqb k name then (k, value) :: searchParams_delete name rest
      else (k, v) :: searchParams_set name value rest
  end.

Definition URL_set_param (name value : string) (u : URL) : URL :=
  mkURL (url_prefix u) Serialised (searchParams_set name value (searchParams u)) (url_hash u).

Section Popout.

Variable URL_new : string -> option URL.
Variable URL_href : URL -> string.
Variable encodeURIComponent : string -> string.
Variable Phoenix_baseURL : string.                       (* Phoenix.baseURL *)
Variable LIVE_PREVIEW_STATIC_SERVER_BASE_URL : string.
Variable PHOENIX_INSTANCE_ID : string.
Variable DESCRIPTION_LIVEDEV_SECURITY_POPOUT_MESSAGE : string.   (* Strings.* *)
Variable APP_NAME : string.
Variable TRUST_PROJECT : string.

(** [getPageLoaderURL]; [projectRoot] is
    [ProjectManager.getProjectRoot().fullPath]. *)
Definition getPageLoaderURL (projectRoot url : string) : string :=
  Phoenix_baseURL ++ "live-preview-loader.html?"
  ++ "virtualServerURL=" ++ encodeURIComponent LIVE_PREVIEW_STATIC_SERVER_BASE_URL
  ++ "&phoenixInstanceID=" ++ PHOENIX_INSTANCE_ID
  ++ "&initialURL=" ++ encodeURIComponent url
  ++ "&localMessage=" ++ encodeURIComponent DESCRIPTION_LIVEDEV_SECURITY_POPOUT_MESSAGE
  ++ "&appName=" ++ encodeURIComponent APP_NAME
  ++ "&initialProjectRoot=" ++ encodeURIComponent projectRoot
  ++ "&okMessage=" ++ encodeURIComponent TRUST_PROJECT.

(** The URL object that [getTabPopoutURL] tags: [openURL] after
    [searchParams.set]. [None] is the TypeError of [new URL]. *)
Definition popout_openURL (url : string) : option URL :=
  URL_set_param PHCODE_LIVE_PREVIEW_QUERY_PARAM "true" <$> URL_new url.

(** [getTabPopoutURL] *)
Definition getTabPopoutURL (projectRoot url : string) : option string :=
  (fun openURL => getPageLoaderURL projectRoot (URL_href openURL)) <$> popout_openURL url.

End Popout.

(** *** Replies on their way back to the tabs *)

(** An envelope posted by the editor as a loader page receives it. *)
Definition reply_for_loader (e : Envelope ServerReply) : Envelope (RelayRequest + ServerReply) :=
  mkEnvelope (env_pageLoaderID e) (inr (env_data e)).

(** The events that the sweeps raise, among the outputs of the editor
    loop. *)
Fixpoint triggered_of (out : list (PhoenixOut + Triggered)) : list Triggered :=
  match out with
  | [] => []
  | inr t :: rest => t :: triggered_of rest
  | inl _ :: rest => triggered_of rest
  end.

(** The names of the events that the messenger handler raises for the
    tabs, among the outputs of the editor loop. *)
Fixpoint raised_for_tabs (out : list (PhoenixOut + Triggered)) : list string :=
  match out with
  | [] => []
  | inl (ExportsTrigger eventName) :: rest => eventName :: raised_for_tabs rest
  | _ :: rest => raised_for_tabs rest
  end.

(** The event name under which a data object reaches the default branch of
    the messenger handler, if it does. *)
Definition default_branch_name (request : RelayRequest) : option string :=
  match request with
  | UPDATE_TITLE_AND_ICON _ _ => Some EVENT_UPDATE_TITLE_ICON
  | OTHER_EVENT eventName =>
      if String.eqb eventName EVENT_GET_PHOENIX_INSTANCE_ID
         || String.eqb eventName EVENT_GET_CONTENT
         || String.eqb eventName EVENT_TAB_ONLINE
         || String.eqb eventName EVENT_REPORT_ERROR
      then None
      else Some eventName
  | _ => None
  end.

(** The event names that the tabs of a trace send to the default branch. *)
Fixpoint named_by_tabs (trace : list (Z * PhoenixEvent)) : list string :=
  match trace with
  | [] => []
  | (_, MessengerEvent event) :: rest =>
      match default_branch_name (env_data (data event)) with
      | Some eventName => eventName :: named_by_tabs rest
      | None => named_by_tabs rest
      end
  | _ :: rest => named_by_tabs rest
  end.

(** ** The loader page: the rest of the script *)

(** [sessionStorage] replaced, everything else kept: the page as it would
    be with another stored history. *)
Definition set_sessionStorage (storage : gmap string string) (st : Loader) : Loader :=
  mkLoader (pageLoaderID st) (securityAlertAcknowledged st) (previewURL st) (trustedProjects st)
    (currentProjectRoot st) (previewFrame_src st) (dialog_display st) storage
    (document_title st) (favicon_href st).

(** The character occurs in the string. *)
Fixpoint contains_char (c : ascii) (s : string) : bool :=
  match s with
  | EmptyString => false
  | String a rest => Ascii.eqb a c || contains_char c rest
  end.

(** [s.slice(0, -1)] *)
Definition drop_last_char (s : string) : string :=
  substring 0 (String.length s - 1) s.

(** [s.split(sep)] for a separator of one character, then the last
    element. *)
Definition last_segment (sep : ascii) (s : string) : string :=
  List.last (Scenario.split_on sep s) EmptyString.

(** The replacement text of [String.prototype.replace] for a string
    pattern: [$$], [$&], the text before the match and the text after it
    are substituted; any other dollar sequence stays as written, there
    being no capture groups. *)
Fixpoint expand_replacement (replacement before matched after : string) : string :=
  match replacement with
  | EmptyString => EmptyString
  | String a rest =>
      if Ascii.eqb a "$" then
        match rest with
        | String c rest' =>
            if Ascii.eqb c "$" then String "$" (expand_replacement rest' before matched after)
            else if Ascii.eqb c "&" then matched ++ expand_replacement rest' before matched after
            else if Ascii.eqb c "`" then before ++ expand_replacement rest' before matched after
            else if Ascii.eqb c "'" then after ++ expand_replacement rest' before matched after
            else String a (expand_replacement rest before matched after)
        | EmptyString => String a EmptyString
        end
      else String a (expand_replacement rest before matched after)
  end.

(** [s.replace(pattern, replacement)] with a string pattern: the first
    occurrence only. *)
Definition String_replace (s pattern replacement : string) : string :=
  match index 0 pattern s with
  | Some i =>
      let before := substring 0 i s in
      let after := substring (i + String.length pattern)
                     (String.length s - (i + String.length pattern)) s in
      before ++ expand_replacement replacement before pattern after ++ after
  | None => s
  end.

(** [getTrustOkButton]; the two script variables it reads are arguments.
    Both are falsy when absent and when empty. *)
Definition getTrustOkButton (okMessageTemplate currentProjectRoot : option string) : string :=
  match okMessageTemplate with
  | Some template =>
      if Js.truthy template then
        if Js.truthy_opt currentProjectRoot then
          let projectName := root_key currentProjectRoot in
          let projectName :=
            if Js.endsWith projectName "/" then drop_last_char projectName else projectName in
          String_replace template "{0}" (last_segment "/" projectName)
        else String_replace template "{0}" EmptyString
      else "Trust Project?"
  | None => "Trust Project?"
  end.

(** The query parameters of the page URL, each as [queryParams.get]
    returns it ([None] is null). *)
Record Query : Type := mkQuery {
  q_phoenixInstanceID : option string;
  q_virtualServerURL : option string;
  q_localMessage : option string;
  q_appName : option string;
  q_okMessage : option string;
  q_initialProjectRoot : option string
}.

(** The page around the script variables of [Loader]: the template of the
    button label, the hidden server frame, the texts of the prompt, and the
    editor instance whose channels the page listens to once
    [setupNavigationWatcher] has run. *)
Record Page : Type := mkPage {
  loader : Loader;
  okMessageTemplate : option string;
  serverFrame_src : string;
  okButton_text : string;
  dialog_message_text : option string;      (* None: the text of the markup *)
  appName_text : string;
  watching : option string
}.

Inductive PageCompletion : Type :=
| PageReturned (page : Page) (out : list LoaderOut)
| PageThrew (page : Page) (out : list LoaderOut).

Definition page_of (c : PageCompletion) : Page :=
  match c with
  | PageReturned page _ | PageThrew page _ => page
  end.

(** String coercion of a possibly null value, as done by
    [decodeURIComponent(null)]. *)
Definition null_to_string (o : option string) : string :=
  match o with
  | Some s => s
  | None => "null"
  end.

Section PageLoad.

Variable decodeURIComponent : string -> option string.   (* None: URIError *)

(** The page before [onload]: the markup and the initial values of the
    script. *)
Definition page_markup (id : string) (storage : gmap string string) : Page :=
  mkPage (page_loaded id None storage) None ABOUT_BLANK "Trust Project" None
    "Phoenix Code Live Preview" None.

Definition with_loader (st : Loader) (page : Page) : Page :=
  mkPage st (okMessageTemplate page) (serverFrame_src page) (okButton_text page)
    (dialog_message_text page) (appName_text page) (watching page).

(** The last two statements of [navigateToInitialURL]: the texts of the
    prompt. *)
Definition localise_prompt (q : Query) (page : Page) (out : list LoaderOut) : PageCompletion :=
  let set_app (page : Page) :=
    match q_appName q with
    | Some appName =>
        if Js.truthy appName then
          match decodeURIComponent appName with
          | Some text =>
              PageReturned (mkPage (loader page) (okMessageTemplate page) (serverFrame_src page)
                              (okButton_text page) (dialog_message_text page) text
                              (watching page)) out
          | None => PageThrew page out
          end
        else PageReturned page out
    | None => PageReturned page out
    end in
  match q_localMessage q with
  | Some localiseMessage =>
      if Js.truthy localiseMessage then
        match decodeURIComponent localiseMessage with
        | Some text =>
            set_app (mkPage (loader page) (okMessageTemplate page) (serverFrame_src page)
                       (okButton_text page) (Some text) (appName_text page) (watching page))
        | None => PageThrew page out
        end
      else set_app page
  | None => set_app page
  end.

(** [navigateToInitialURL], the [onload] handler. [id] is the UUID drawn
    for [pageLoaderID], [location_origin] the origin of the page. *)
Definition navigateToInitialURL (id : string) (storage : gmap string string)
    (location_origin : string) (q : Query) : PageCompletion :=
  let page := page_markup id storage in
  match decodeURIComponent (null_to_string (q_okMessage q)) with
  | None => PageThrew page []
  | Some template =>
      let st := page_loaded id (q_initialProjectRoot q) storage in
      let page := mkPage st (Some template) (serverFrame_src page) (okButton_text page)
                    (dialog_message_text page) (appName_text page) None in
      if negb (Js.truthy_opt (q_phoenixInstanceID q))
         || negb (Js.truthy_opt (q_virtualServerURL q))
         || negb (Js.truthy_opt (q_appName q)) then
        PageReturned page
          [LoaderConsoleError "Expected required query strings: phoenixInstanceID, virtualServerURL, appName"]
      else
        (* setupNavigationWatcher(phoenixInstanceID) *)
        let out := [LoaderNavigatorPost (GET_INITIAL_URL id)] in
        let page := mkPage st (Some template) (serverFrame_src page) (okButton_text page)
                      (dialog_message_text page) (appName_text page)
                      (q_phoenixInstanceID q) in
        let isAck := storage !! (SESSION_SECURITY_CLEAR_KEY ++ root_key (q_initialProjectRoot q)) in
        let watcher :=
          if Js.truthy_opt isAck then securityOk decodeURIComponent st else Returned st in
        match watcher with
        | Threw st' => PageThrew (with_loader st' page) out
        | Returned st' =>
            let page := with_loader st' page in
            match decodeURIComponent (null_to_string (q_virtualServerURL q)) with
            | None => PageThrew page out
            | Some decoded =>
                let serverURL := decoded ++ "?parentOrigin=" ++ location_origin in
                let page :=
                  if isTrustedURL (Some serverURL) then
                    mkPage (loader page) (okMessageTemplate page) serverURL (okButton_text page)
                      (dialog_message_text page) (appName_text page) (watching page)
                  else page in
                let page :=
                  mkPage (loader page) (okMessageTemplate page) (serverFrame_src page)
                    (getTrustOkButton (okMessageTemplate page) (currentProjectRoot (loader page)))
                    (dialog_message_text page) (appName_text page) (watching page) in
                localise_prompt q page out
            end
        end
  end.

End PageLoad.

(** All three required parameters of the page URL are there. *)
Definition has_required (q : Query) : bool :=
  Js.truthy_opt (q_phoenixInstanceID q)
  && Js.truthy_opt (q_virtualServerURL q)
  && Js.truthy_opt (q_appName q).

(** Two pages that differ in the session storage at most. *)
Definition same_but_storage (a b : Loader) : Prop :=
  set_sessionStorage ∅ a = set_sessionStorage ∅ b.

(** *** What to preview, and the URLs of paths *)

(** The object [getPreviewDetails] resolves with; an absent property is
    [None]. *)
Record PreviewDetails : Type := mkPreviewDetails {
  details_URL : string;
  details_filePath : option string;
  details_fullPath : option string;
  details_isMarkdownFile : option bool;
  details_isHTMLFile : option bool;
  details_isCustomServer : option bool;
  details_serverSupportsHotReload : option bool;
  details_isNoPreview : option bool
}.

(** A double quote, for the JSON text of [getNoPreviewURL]. *)
Definition dquote : string := String (Ascii.ascii_of_nat 34) EmptyString.

Section Preview.

Variable encodeURIComponent : string -> string.
Variable Phoenix_baseURL : string.                       (* Phoenix.baseURL *)
Variable PREVIEW_BASE_URL : string.
(* Strings.* *)
Variable DESCRIPTION_LIVEDEV_MAIN_HEADING : string.
Variable DESCRIPTION_LIVEDEV_MAIN_SPAN : string.
Variable DESCRIPTION_LIVEDEV_NO_PREVIEW : string.
Variable DESCRIPTION_LIVEDEV_NO_PREVIEW_DETAILS : string.
Variable DESCRIPTION_LIVEDEV_EXCLUDED : string.
Variable DESCRIPTION_LIVEDEV_NO_PREVIEW_EXCLUDED : string.
Variable StringUtils_format : string -> string -> string.
(* Phoenix.isNativeApp || !(isSafari || isIos) *)
Variable _isLivePreviewSupported : bool.
(* ProjectManager.getProjectRoot().fullPath *)
Variable projectRoot : string.
Variable path_relative : string -> string -> string.
(* LivePreviewSettings *)
Variable getCustomServerConfig : string -> option string.
Variable isUsingCustomServer : bool.
Variable getCustomServeRoot : string.
Variable serverSupportsHotReload : bool.
(* utils *)
Variable isMarkdownFile : string -> bool.
Variable isSVG : string -> bool.
Variable isHTMLFile : string -> bool.
Variable isPreviewableFile : string -> bool.
(* LiveDevelopment.getLivePreviewDetails().liveDocument, when the details,
   the document and its [isRelated] are all there: [isRelated] and
   [doc.file.fullPath] *)
Variable liveDocument : option ((string -> bool) * string).

(** [getLivePreviewNotSupportedURL] *)
Definition getLivePreviewNotSupportedURL : string :=
  Phoenix_baseURL ++ "assets/phoenix-splash/live-preview-error.html?mainHeading="
  ++ encodeURIComponent DESCRIPTION_LIVEDEV_MAIN_HEADING ++ "&mainSpan="
  ++ encodeURIComponent DESCRIPTION_LIVEDEV_MAIN_SPAN.

(** [getNoPreviewURL]; an argument left out is [None] and takes its
    default. *)
Definition getNoPreviewURL (heading message : option string) : string :=
  let heading := default DESCRIPTION_LIVEDEV_NO_PREVIEW heading in
  let message := default DESCRIPTION_LIVEDEV_NO_PREVIEW_DETAILS message in
  Phoenix_baseURL ++ "assets/phoenix-splash/no-preview.html?jsonInput="
  ++ encodeURIComponent
       ("{" ++ dquote ++ "heading" ++ dquote ++ ":" ++ dquote ++ heading ++ dquote ++ ","
        ++ dquote ++ "details" ++ dquote ++ ":" ++ dquote ++ message ++ dquote ++ "}").

Definition no_preview (URL : string) : PreviewDetails :=
  mkPreviewDetails URL None None None None None None (Some true).

Definition is_http (fullPath : string) : bool :=
  Js.startsWith fullPath "http://" || Js.startsWith fullPath "https://".

(** [getPreviewDetails]: the value its promise resolves with. The
    collaborators are taken to return, so the [catch] that rejects is not
    reached. *)
Definition getPreviewDetails (ed : Editor) : PreviewDetails :=
  if negb _isLivePreviewSupported then no_preview getLivePreviewNotSupportedURL
  else
    let projectRootUrl := PREVIEW_BASE_URL ++ projectRoot in
    let currentFile :=
      match getCurrentDocument ed with
      | Some f => Some f
      | None => getSelectedItem ed
      end in
    let fallback := no_preview (getNoPreviewURL None None) in
    match currentFile with
    | None => fallback
    | Some fullPath =>
        let httpFilePath := if is_http fullPath then Some fullPath else None in
        let customServeURL := getCustomServerConfig fullPath in
        let shouldUseInbuiltPreview := isMarkdownFile fullPath || isSVG fullPath in
        if Js.truthy_opt customServeURL then
          mkPreviewDetails (default EmptyString customServeURL)
            (Some (path_relative projectRoot fullPath))
            (Some fullPath) (Some (isMarkdownFile fullPath)) (Some (isHTMLFile fullPath))
            (Some true) (Some serverSupportsHotReload) None
        else if isUsingCustomServer && negb (Js.truthy_opt customServeURL)
                && negb shouldUseInbuiltPreview then
          (* the file is outside of the root of the custom server *)
          no_preview (getNoPreviewURL (Some DESCRIPTION_LIVEDEV_EXCLUDED)
                        (Some (StringUtils_format DESCRIPTION_LIVEDEV_NO_PREVIEW_EXCLUDED
                                 getCustomServeRoot)))
        else if isPreviewableFile fullPath then
          let filePath := default (path_relative projectRoot fullPath) httpFilePath in
          let URL := default (projectRootUrl ++ filePath) httpFilePath in
          mkPreviewDetails URL (Some filePath) (Some fullPath)
            (Some (isMarkdownFile fullPath)) (Some (isHTMLFile fullPath)) None None None
        else
          match liveDocument with
          | Some (isRelated, docPath) =>
              if isRelated fullPath then
                let fullPath := docPath in
                let filePath := path_relative projectRoot fullPath in
                mkPreviewDetails (projectRootUrl ++ filePath) (Some filePath) (Some fullPath)
                  (Some (isMarkdownFile fullPath)) (Some (isHTMLFile fullPath)) None None None
              else fallback
          | None => fallback
          end
    end.

End Preview.

(** The result of a call that can end in an exception. *)
Inductive Outcome (A : Type) : Type :=
| Normal (a : A)
| Abrupt.
Arguments Normal {A} a.
Arguments Abrupt {A}.

Section Paths.

(* this._pathResolver, given to the constructor *)
Variable _pathResolver : string -> string.
Variable encodeURI : string -> option string.            (* None: URIError *)
(* LiveDevelopmentUtils.isStaticHtmlFileExt *)
Variable isStaticHtmlFileExt : string -> bool.

(** [StaticServer.prototype.pathToUrl]; [Normal None] is null. *)
Definition pathToUrl (this : StaticServer) (path : string) : Outcome (option string) :=
  let baseUrl := _baseUrl this in
  let relativePath := _pathResolver path in
  if negb (String.eqb relativePath path) then
    match encodeURI path with
    | Some encoded => Normal (Some (baseUrl ++ encoded))
    | None => Abrupt
    end
  else Normal None.

(** [StaticServer.prototype.canServe] *)
Definition canServe (this : StaticServer) (localPath : string) : bool :=
  if String.eqb localPath (_pathResolver localPath) then false
  else if Js.endsWith localPath "/" then true
  else isStaticHtmlFileExt localPath.

End Paths.

(** *** Sample data for the properties below *)

Module Cases.

(** A loader page just set up under the id [id]. *)
Definition page_with_id (id : string) : Loader :=
  fst (setupNavigationWatcher Scenario.decodeURIComponent (page_loaded id (Some "/proj/") ∅)).

(** The query of a loader page opened by the editor instance [inst1] for
    the project [/proj/]. *)
Definition query : Query :=
  mkQuery (Some "inst1") (Some "https://phcode.live/") None (Some "Phoenix")
    (Some "Trust {0}?") (Some "/proj/").

(** The trusted page of [Scenario] is taken to another project and told
    the page to preview there. *)
Definition visit_other_project : list LoaderEvent :=
  [NavigatorMessage (PROJECT_SWITCH "/other/");
   NavigatorMessage (REDIRECT_PAGE (Scenario.url_of "/other/a.html") false)].

(** Stand-ins for [path.relative] and for the path resolver of the
    project: a path under the root loses the root, any other path is left as
    it is. *)
Definition relative (from to : string) : string :=
  if Js.startsWith to from
  then substring (String.length from) (String.length to - String.length from) to
  else to.
Definition pathResolver (path : string) : string := relative Scenario.projectRoot path.

(** [getPreviewDetails] on a supported platform without a custom server and
    without a live document: html and markdown files can be previewed. *)
Definition details : Editor -> PreviewDetails :=
  getPreviewDetails (fun s => s) "https://phcode.dev/" Scenario.PREVIEW_BASE_URL
    "Heading" "Span" "No preview" "Nothing to preview" "Excluded" "Excluded from {0}"
    (fun template arg => String_replace template "{0}" arg)
    true Scenario.projectRoot relative (fun _ => None) false EmptyString false
    Scenario.isMarkdownFile (fun p => Js.endsWith p ".svg") (fun p => Js.endsWith p ".html")
    (fun p => Js.endsWith p ".html" || Scenario.isMarkdownFile p) None.

End Cases.

(** * Properties *)

(** ** The helpers on small inputs *)

Example endsWith_html : Js.endsWith "/proj/index.html" ".html" = true.
Proof. reflexivity. Qed.

Example endsWith_longer_suffix : Js.endsWith "html" ".html" = false.
Proof. reflexivity. Qed.

Example html_family_is_case_sensitive :
  is_html_family "/proj/a.php" = true /\ is_html_family "/proj/a.HTML" = false
  /\ is_html_family "/proj/a.htmlx" = false.
Proof. repeat split. Qed.

Example includes_empty_pattern : Js.includes "abc" EmptyString = true.
Proof. reflexivity. Qed.

Example strip_byte_order_mark :
  strip_leading_zero_width (utf8_3 239 187 191 ++ "# Hi") = "# Hi"
  /\ strip_leading_zero_width "# Hi" = "# Hi".
Proof. split; reflexivity. Qed.

Example popout_url_parses :
  Scenario.URL_new (Scenario.popout_url_of "/proj/old.html")
  = Some (mkURL (Scenario.url_of "/proj/old.html") (AsParsed "phcodeLivePreview=true")
             [("phcodeLivePreview", "true")] EmptyString)
  /\ Scenario.URL_href
       (URL_delete_param PHCODE_LIVE_PREVIEW_QUERY_PARAM
          (mkURL (Scenario.url_of "/proj/old.html") (AsParsed "phcodeLivePreview=true")
             [("phcodeLivePreview", "true")] EmptyString))
     = Scenario.url_of "/proj/old.html".
Proof. split; reflexivity. Qed.

Example allowlist_lookup :
  TRUSTED_ORIGINS_lookup "https://phcode.dev" = true
  /\ TRUSTED_ORIGINS_lookup "https://evil.example" = false
  /\ TRUSTED_ORIGINS_lookup "https://phcode.dev.evil.example" = false
  /\ TRUSTED_ORIGINS_lookup "null" = false
  /\ TRUSTED_ORIGINS_lookup "constructor" = true
  /\ trusted_origin "constructor" = false.
Proof. repeat split. Qed.

(** ** Content resolution *)

Section ResolverFacts.

Variable _documentKey : string -> string.
Variable isMarkdownFile : string -> bool.
Variable getRemoteScript : string.
Variable URL_new : string -> option URL.
Variable URL_href : URL -> string.
Variable render_redirect : string -> string.
Variable marked_parse : string -> string.
Variable render_markdown : string -> string.

Local Abbreviation instrumented :=
  (_getInstrumentedContent _documentKey getRemoteScript URL_new URL_href render_redirect).
Local Abbreviation resolve :=
  (getContent _documentKey isMarkdownFile getRemoteScript URL_new URL_href
     render_redirect marked_parse render_markdown).

(** The guard of [_getInstrumentedContent]: outside the project root the
    answer is the null response, whatever the overlay, the live documents,
    the open documents and the disk hold. *)
Lemma instrumented_outside_project srv ed p url :
  isWithinProject ed p = false ->
  instrumented srv ed p url
  = (Resolved (mkResponse (_documentKey p) None None),
     [ConsoleError "Security issue prevented: Live preview tried to access non project resource!!!"]).
Proof.
  intros Hout. unfold _getInstrumentedContent. now rewrite Hout.
Qed.

(** [getContent] hands over to [_getInstrumentedContent] once its own
    guards and the markdown tier are passed. *)
Lemma getContent_delegates srv ed p url :
  Js.startsWith url (_baseUrl srv) = true ->
  markdown_tier isMarkdownFile ed p = false ->
  resolve (Some srv) ed p url = instrumented srv ed p url.
Proof.
  intros Hbase Hmd. unfold getContent.
  rewrite Hbase. cbn [negb]. unfold markdown_tier, currentFile in Hmd.
  now rewrite Hmd.
Qed.

(** The markdown tier answers without consulting the project root or the
    overlay. *)
Lemma getContent_markdown srv ed p url :
  Js.startsWith url (_baseUrl srv) = true ->
  markdown_tier isMarkdownFile ed p = true ->
  resolve (Some srv) ed p url = _getMarkdown marked_parse render_markdown ed p.
Proof.
  intros Hbase Hmd. unfold getContent.
  rewrite Hbase. cbn [negb]. unfold markdown_tier, currentFile in Hmd.
  now rewrite Hmd.
Qed.

Lemma searchParams_get_delete name ps :
  searchParams_get name (searchParams_delete name ps) = None.
Proof.
  induction ps as [|[k v] ps IH]; cbn; [reflexivity|].
  destruct (String.eqb k name) eqn:E; [exact IH|].
  cbn. now rewrite E.
Qed.

(** C4 (amended). Inside the project root a non-empty overlay entry is what
    [getContent] serves, whatever the live documents, the open documents and
    the disk hold, provided the request passes the two guards of
    [getContent] and is not taken by the markdown tier. *)
Theorem overlay_precedes_live_open_and_disk srv ed p url u v :
  Js.startsWith url (_baseUrl srv) = true ->
  markdown_tier isMarkdownFile ed p = false ->
  isWithinProject ed p = true ->
  URL_new url = Some u ->
  _virtualServingDocuments srv !! _documentKey p = Some v ->
  v <> EmptyString ->
  resolve (Some srv) ed p url
  = (Resolved (mkResponse (_documentKey p) (Some (Text v))
                 (if is_html_family (_documentKey p) then Some html_headers else None)),
     []).
Proof.
  intros Hbase Hmd Hin Hurl Hov Hne.
  rewrite getContent_delegates by assumption.
  unfold _getInstrumentedContent. rewrite Hin, Hurl, Hov. cbn.
  assert (Js.truthy v = true) as ->.
  { unfold Js.truthy. destruct (String.eqb_spec v EmptyString); [contradiction|reflexivity]. }
  reflexivity.
Qed.

(** C5 (amended). A popped-out request for a live document whose body lacks
    the remote script is answered with the redirection page for the
    requested URL itself, the popout parameter removed. *)
Theorem stale_popout_redirects_to_requested_url srv ed p url u body :
  Js.startsWith url (_baseUrl srv) = true ->
  markdown_tier isMarkdownFile ed p = false ->
  isWithinProject ed p = true ->
  URL_new url = Some u ->
  Js.truthy_opt (searchParams_get PHCODE_LIVE_PREVIEW_QUERY_PARAM (searchParams u)) = true ->
  Js.truthy_opt (_virtualServingDocuments srv !! _documentKey p) = false ->
  (_liveDocuments srv !! _documentKey p) ≫= getResponseData = Some body ->
  Js.includes body getRemoteScript = false ->
  let target := URL_delete_param PHCODE_LIVE_PREVIEW_QUERY_PARAM u in
  fst (resolve (Some srv) ed p url)
  = Resolved (mkResponse (_documentKey p)
                (Some (Text (render_redirect (URL_href target))))
                (if is_html_family (_documentKey p) then Some html_headers else None))
  /\ searchParams_get PHCODE_LIVE_PREVIEW_QUERY_PARAM (searchParams target) = None.
Proof.
  intros Hbase Hmd Hin Hurl Hpop Hov Hlive Hstale target. split.
  - rewrite getContent_delegates by assumption.
    unfold _getInstrumentedContent. rewrite Hin, Hurl, Hpop, Hov, Hlive, Hstale.
    reflexivity.
  - apply searchParams_get_delete.
Qed.

(** The two outcomes of [getContent] are told apart by [rejects]. *)
Lemma getContent_outcome inst ed p url :
  if rejects isMarkdownFile URL_new inst ed p url
  then exists reason, fst (resolve inst ed p url) = Rejected reason
  else exists r, fst (resolve inst ed p url) = Resolved r.
Proof.
  unfold rejects, getContent, markdown_tier, currentFile.
  destruct inst as [srv|]; [|eauto].
  destruct (Js.startsWith url (_baseUrl srv)); cbn [negb orb]; [|eauto].
  destruct (isMarkdownFile p && _) eqn:Hmd.
  - unfold _getMarkdown. destruct (getDocumentForPath ed p); cbn; eauto.
  - unfold _getInstrumentedContent.
    destruct (isWithinProject ed p); cbn [negb andb]; [|eauto].
    destruct (URL_new url); cbn; [|eauto].
    unfold resolve_with_headers.
    repeat case_match; cbn; eauto.
Qed.

(** C6 (amended). A disk read error resolves the promise with the null
    response. [getContent] rejects exactly under [rejects]: no server
    started, a URL of another instance, a markdown document that cannot be
    loaded, a URL that does not parse; the messenger handler then sends no
    response, and sends exactly one in every other case. *)
Theorem disk_error_is_null_and_rejection_is_guarded inst ed p url :
  (if rejects isMarkdownFile URL_new inst ed p url
   then exists reason, fst (resolve inst ed p url) = Rejected reason
   else exists r, fst (resolve inst ed p url) = Resolved r)
  /\ (forall srv,
        inst = Some srv ->
        disk_tier _documentKey isMarkdownFile URL_new srv ed p url = true ->
        readFile ed p = None ->
        resolve inst ed p url
        = (Resolved (mkResponse (_documentKey p) None None), [FsReadFile p]))
  /\ (forall PHOENIX_INSTANCE_ID now tabs popout o id requestID,
        length (List.filter is_response
          (snd (phoenix_messenger_onmessage _documentKey isMarkdownFile getRemoteScript
                  URL_new URL_href render_redirect marked_parse render_markdown
                  PHOENIX_INSTANCE_ID now (mkPhoenix inst ed tabs popout)
                  (mkEvent o (mkEnvelope id (GET_CONTENT requestID p url))))))
        = if rejects isMarkdownFile URL_new inst ed p url then 0%nat else 1%nat).
Proof.
  split; [apply getContent_outcome|]. split.
  - intros srv -> Hdisk Hread. unfold disk_tier in Hdisk.
    repeat (apply andb_prop in Hdisk as [Hdisk ?]).
    rewrite getContent_delegates; [|assumption|now apply negb_true_iff].
    unfold _getInstrumentedContent.
    destruct (isWithinProject ed p); [|discriminate].
    destruct (URL_new url); [|discriminate].
    destruct (Js.truthy_opt _); [discriminate|].
    destruct (_ ≫= getResponseData); [discriminate|].
    destruct (getOpenDocumentForPath ed !! _); [discriminate|].
    now rewrite Hread.
  - intros. unfold phoenix_messenger_onmessage. cbn [data env_data env_pageLoaderID _staticServerInstance editor].
    pose proof (getContent_outcome inst ed p url) as Hout.
    destruct (resolve inst ed p url) as [promise effects]. cbn [fst snd] in *.
    assert (forall l, List.filter is_response (map Did l) = []) as Hdid.
    { induction l; cbn; auto. }
    rewrite List.filter_app, Hdid. cbn [app].
    destruct (rejects _ _ _ _ _ _).
    + destruct Hout as [reason ->]. reflexivity.
    + destruct Hout as [r ->]. reflexivity.
Qed.

(** C9 (amended). The headers of a resolved response, tier by tier: text
    served by [_getInstrumentedContent] (overlay, live document or its
    redirection page, open document) carries the UTF-8 HTML header exactly
    when the document key has an HTML-family extension; the disk tier and
    the project root check send no headers; the markdown tier sends
    [text/html] without a charset. *)
Theorem headers_by_tier inst ed p url r :
  fst (resolve inst ed p url) = Resolved r ->
  if markdown_tier isMarkdownFile ed p then headers r = Some markdown_headers
  else match contents r with
       | Some (Text _) =>
           headers r = (if is_html_family (path r) then Some html_headers else None)
       | Some (Binary _) | None => headers r = None
       end.
Proof.
  unfold getContent, markdown_tier, currentFile.
  destruct inst as [srv|]; [|discriminate].
  destruct (Js.startsWith url (_baseUrl srv)); cbn [negb]; [|discriminate].
  destruct (isMarkdownFile p && _) eqn:Hmd.
  - unfold _getMarkdown. destruct (getDocumentForPath ed p); cbn; [|discriminate].
    intros [= <-]. reflexivity.
  - clear Hmd. unfold _getInstrumentedContent, resolve_with_headers.
    destruct (isWithinProject ed p); cbn [negb fst].
    2: { intros [= <-]. reflexivity. }
    destruct (URL_new url); cbn [fst]; [|discriminate].
    destruct (Js.truthy_opt _); cbn [fst]. { intros [= <-]; reflexivity. }
    destruct (_ ≫= getResponseData).
    { destruct (_ && _); cbn [fst]; intros [= <-]; reflexivity. }
    destruct (getOpenDocumentForPath ed !! _); cbn [fst]. { intros [= <-]; reflexivity. }
    intros [= <-]. cbn. destruct (readFile ed p); reflexivity.
Qed.

End ResolverFacts.

(** *** The resolver on explicit requests *)

(** C1 (defect in the code). A markdown file outside the project root that
    is the file of the current document is rendered and served by
    [getContent]: the markdown tier is decided before
    [_getInstrumentedContent], the only place where the project root is
    checked. The same request given to [_getInstrumentedContent] gets the
    null response. *)
Theorem markdown_tier_serves_path_outside_project :
  let ed := Scenario.editor_with_current (Some "/other/notes.md") in
  let url := Scenario.url_of "/other/notes.md" in
  isWithinProject ed "/other/notes.md" = false
  /\ fst (Scenario.getContent (Some Scenario.server) ed "/other/notes.md" url)
     = Resolved (mkResponse "/other/notes.md"
                   (Some (Text "<html><body><h1>Hi</h1></body></html>"))
                   (Some markdown_headers))
  /\ fst (Scenario._getInstrumentedContent Scenario.server ed "/other/notes.md" url)
     = Resolved (mkResponse "/other/notes.md" None None).
Proof. vm_compute. repeat split. Qed.

(** C4, as specified, fails: the overlay entry of a markdown file that is
    being edited is not served; its rendering is. *)
Lemma overlay_loses_to_markdown_tier :
  ~ overlay_is_highest_precedence Scenario._documentKey Scenario.isMarkdownFile
      Scenario.getRemoteScript Scenario.URL_new Scenario.URL_href
      Scenario.render_redirect Scenario.marked_parse Scenario.render_markdown.
Proof.
  intros H.
  destruct (H Scenario.server (Scenario.editor_with_current (Some "/proj/README.md"))
              "/proj/README.md" (Scenario.url_of "/proj/README.md") "overlay text"
              eq_refl eq_refl eq_refl) as [r [Hr Hc]].
  vm_compute in Hr. injection Hr as <-. vm_compute in Hc. discriminate Hc.
Qed.

Lemma overlay_precedes_live_open_and_disk_witness :
  Scenario.getContent (Some Scenario.server) (Scenario.editor_with_current None)
    "/proj/lp_scripts.js" (Scenario.url_of "/proj/lp_scripts.js")
  = (Resolved (mkResponse "/proj/lp_scripts.js" (Some (Text "console.log(1)")) None), []).
Proof.
  apply (overlay_precedes_live_open_and_disk Scenario._documentKey Scenario.isMarkdownFile
           Scenario.getRemoteScript Scenario.URL_new Scenario.URL_href
           Scenario.render_redirect Scenario.marked_parse Scenario.render_markdown
           Scenario.server (Scenario.editor_with_current None)
           "/proj/lp_scripts.js" (Scenario.url_of "/proj/lp_scripts.js")
           (mkURL (Scenario.url_of "/proj/lp_scripts.js") (AsParsed EmptyString) [] EmptyString)
           "console.log(1)");
    try (vm_compute; reflexivity).
  discriminate.
Defined.

(** C5, as specified, fails: while the editor has moved on to
    [/proj/new.html], the popped-out request for [/proj/old.html] is
    redirected to [/proj/old.html]. *)
Lemma stale_popout_redirect_ignores_current_url :
  ~ stale_popout_redirects_to_current_url Scenario._documentKey Scenario.isMarkdownFile
      Scenario.getRemoteScript Scenario.URL_new Scenario.URL_href
      Scenario.render_redirect Scenario.marked_parse Scenario.render_markdown.
Proof.
  intros H.
  destruct (H (Scenario.phoenix None (Some (Scenario.url_of "/proj/new.html")))
              Scenario.server "/proj/old.html" (Scenario.popout_url_of "/proj/old.html")
              (mkURL (Scenario.url_of "/proj/old.html") (AsParsed "phcodeLivePreview=true")
             [("phcodeLivePreview", "true")] EmptyString)
              "<html>old page</html>"
              (Scenario.url_of "/proj/new.html")
              (mkURL (Scenario.url_of "/proj/new.html") (AsParsed EmptyString) [] EmptyString)
              eq_refl eq_refl eq_refl eq_refl eq_refl eq_refl eq_refl eq_refl eq_refl)
    as [r [Hr Hc]].
  vm_compute in Hr. injection Hr as <-. vm_compute in Hc. discriminate Hc.
Qed.

Lemma stale_popout_redirects_to_requested_url_witness :
  fst (Scenario.getContent (Some Scenario.server) (Scenario.editor_with_current None)
         "/proj/old.html" (Scenario.popout_url_of "/proj/old.html"))
  = Resolved (mkResponse "/proj/old.html"
                (Some (Text (Scenario.render_redirect (Scenario.url_of "/proj/old.html"))))
                (Some html_headers)).
Proof.
  apply (stale_popout_redirects_to_requested_url Scenario._documentKey Scenario.isMarkdownFile
           Scenario.getRemoteScript Scenario.URL_new Scenario.URL_href
           Scenario.render_redirect Scenario.marked_parse Scenario.render_markdown
           Scenario.server (Scenario.editor_with_current None)
           "/proj/old.html" (Scenario.popout_url_of "/proj/old.html")
           (mkURL (Scenario.url_of "/proj/old.html") (AsParsed "phcodeLivePreview=true")
             [("phcodeLivePreview", "true")] EmptyString)
           "<html>old page</html>");
    vm_compute; reflexivity.
Defined.

(** C6, as specified, fails: with no server started [getContent] rejects. *)
Lemma getContent_rejects_without_server :
  ~ resolution_never_rejects Scenario._documentKey Scenario.isMarkdownFile
      Scenario.getRemoteScript Scenario.URL_new Scenario.URL_href
      Scenario.render_redirect Scenario.marked_parse Scenario.render_markdown.
Proof.
  intros H.
  destruct (H None (Scenario.editor_with_current None) "/proj/index.html"
              (Scenario.url_of "/proj/index.html")) as [r Hr].
  discriminate Hr.
Qed.

Lemma disk_error_is_null_and_rejection_is_guarded_witness :
  Scenario.getContent (Some Scenario.server) (Scenario.editor_with_current None)
    "/proj/missing.png" (Scenario.url_of "/proj/missing.png")
  = (Resolved (mkResponse "/proj/missing.png" None None), [FsReadFile "/proj/missing.png"]).
Proof.
  apply (proj1 (proj2
           (disk_error_is_null_and_rejection_is_guarded Scenario._documentKey
              Scenario.isMarkdownFile Scenario.getRemoteScript Scenario.URL_new
              Scenario.URL_href Scenario.render_redirect Scenario.marked_parse
              Scenario.render_markdown
              (Some Scenario.server) (Scenario.editor_with_current None)
              "/proj/missing.png" (Scenario.url_of "/proj/missing.png")))
           Scenario.server eq_refl);
    vm_compute; reflexivity.
Defined.

(** C9, as specified, fails: an HTML file served from disk has no headers. *)
Lemma html_from_disk_has_no_header :
  ~ html_family_always_has_header Scenario._documentKey Scenario.isMarkdownFile
      Scenario.getRemoteScript Scenario.URL_new Scenario.URL_href
      Scenario.render_redirect Scenario.marked_parse Scenario.render_markdown.
Proof.
  intros H.
  specialize (H (Some Scenario.server) (Scenario.editor_with_current None)
                "/proj/about.html" (Scenario.url_of "/proj/about.html")
                (mkResponse "/proj/about.html"
                   (Some (Binary [Byte.x3c; Byte.x70; Byte.x3e])) None)
                eq_refl (ex_intro _ _ eq_refl) eq_refl).
  discriminate H.
Qed.

Lemma headers_by_tier_witness :
  exists r,
    fst (Scenario.getContent (Some Scenario.server) (Scenario.editor_with_current None)
           "/proj/open.html" (Scenario.url_of "/proj/open.html")) = Resolved r
    /\ contents r = Some (Text "<p>edited</p>")
    /\ headers r = Some html_headers.
Proof.
  eexists. split; [vm_compute; reflexivity|]. split; [reflexivity|].
  exact (headers_by_tier Scenario._documentKey Scenario.isMarkdownFile
           Scenario.getRemoteScript Scenario.URL_new Scenario.URL_href
           Scenario.render_redirect Scenario.marked_parse Scenario.render_markdown
           (Some Scenario.server) (Scenario.editor_with_current None)
           "/proj/open.html" (Scenario.url_of "/proj/open.html") _ eq_refl).
Defined.

(** ** The loader page: trust prompt and navigation *)

(** ** Lookups that reach the prototypes *)

Lemma inherited_by_object_elem k :
  Js.inherited_by_object k = true <-> List.In k Js.Object_prototype.
Proof.
  unfold Js.inherited_by_object. rewrite existsb_exists. split.
  - intros (n & Hin & Heq). apply String.eqb_eq in Heq. now subst.
  - intros Hin. exists k. split; [assumption|apply String.eqb_refl].
Qed.

(** An origin as browsers serialise it holds "://", or is the string
    "null"; no inherited property has such a name. *)
Lemma serialised_origin_is_not_inherited o :
  Js.includes o "://" = true \/ o = "null" -> Js.inherited_by_object o = false.
Proof.
  intros Hshape. destruct (Js.inherited_by_object o) eqn:Hin; [|reflexivity].
  apply inherited_by_object_elem in Hin.
  assert (forallb (fun n => negb (Js.includes n "://") && negb (String.eqb n "null"))
            Js.Object_prototype = true) as Hnames by reflexivity.
  rewrite forallb_forall in Hnames. specialize (Hnames o Hin).
  apply andb_prop in Hnames as [Hsep Hnull].
  destruct Hshape as [Hshape| ->].
  - rewrite Hshape in Hsep. discriminate.
  - discriminate.
Qed.

Lemma filter_lookup_kept (a : gmap string bool) k :
  Js.below_length_1 k = true ->
  filter (fun kv => Js.below_length_1 kv.1 = true) a !! k = a !! k.
Proof.
  intros Hk. destruct (a !! k) as [b|] eqn:Hak.
  - now apply map_lookup_filter_Some_2.
  - apply map_lookup_filter_None_2. now left.
Qed.

Lemma not_index_below_length_1 k : Js.array_index k = None -> Js.below_length_1 k = true.
Proof. unfold Js.below_length_1. now intros ->. Qed.

(** After [a[k] = true], [a[k]] is truthy. *)
Lemma Array_truthy_assign_same k a :
  Js.Array_truthy (Js.Array_assign_true k a) k = true.
Proof.
  unfold Js.Array_truthy, Js.Array_assign_true.
  destruct (String.eqb_spec k "__proto__") as [->|Hproto]; [reflexivity|].
  destruct (String.eqb_spec k "length") as [->|Hlength].
  - now rewrite lookup_insert_eq.
  - destruct (Js.array_index k).
    + rewrite lookup_insert_ne by congruence. now rewrite lookup_insert_eq.
    + now rewrite lookup_insert_eq.
Qed.

(** A property that is no element keeps its truthiness under any
    assignment to another key, unless it is [length]. *)
Lemma Array_truthy_assign_other k r a :
  r <> k -> Js.array_index r = None -> r <> "length" ->
  Js.Array_truthy (Js.Array_assign_true k a) r = Js.Array_truthy a r.
Proof.
  intros Hne Hr Hlen. unfold Js.Array_truthy, Js.Array_assign_true.
  destruct (String.eqb r "__proto__"); [reflexivity|].
  destruct (String.eqb_spec k "length") as [->|Hlength].
  - rewrite lookup_insert_ne by congruence.
    now rewrite filter_lookup_kept by now apply not_index_below_length_1.
  - destruct (String.eqb k "__proto__"); [reflexivity|].
    destruct (Js.array_index k).
    + rewrite lookup_insert_ne by congruence. now rewrite lookup_insert_ne by congruence.
    + now rewrite lookup_insert_ne by congruence.
Qed.

(** A property that is no element and is truthy stays truthy under every
    assignment. *)
Lemma Array_truthy_assign_grows k r a :
  Js.array_index r = None ->
  Js.Array_truthy a r = true -> Js.Array_truthy (Js.Array_assign_true k a) r = true.
Proof.
  intros Hr Htrue.
  destruct (String.eqb_spec r k) as [->|Hne]; [apply Array_truthy_assign_same|].
  destruct (String.eqb_spec r "length") as [->|Hlen].
  - unfold Js.Array_truthy, Js.Array_assign_true in *. cbn [String.eqb Ascii.eqb] in *.
    destruct (String.eqb_spec k "length") as [->|Hlength]; [congruence|].
    destruct (String.eqb k "__proto__"); [exact Htrue|].
    destruct (Js.array_index k).
    + now rewrite lookup_insert_eq.
    + now rewrite lookup_insert_ne by congruence.
  - now rewrite Array_truthy_assign_other.
Qed.

Section LoaderFacts.

Variable decodeURIComponent : string -> option string.
Variable iframe_src : string -> string.

Local Abbreviation ok := (securityOk decodeURIComponent).
Local Abbreviation on_navigator := (loader_navigator_onmessage decodeURIComponent iframe_src).
Local Abbreviation step := (loader_step decodeURIComponent iframe_src).
Local Abbreviation run := (loader_run decodeURIComponent iframe_src).
Local Abbreviation setup := (setupNavigationWatcher decodeURIComponent).

(** [securityOk] either returns with the trust recorded and the frame on the
    decoded URL, or throws having at most hidden the prompt. *)
Lemma securityOk_cases st :
  (exists u,
      decodeURIComponent (Js.to_string (previewURL st)) = Some u
      /\ is_Some (dialog_display st)
      /\ ok st = Returned (record_trust (set_acknowledged true
                             (set_frame_src u (set_dialog_display "none" st)))))
  \/ (ok st = Threw st /\ dialog_display st = None)
  \/ (ok st = Threw (set_dialog_display "none" st)
      /\ decodeURIComponent (Js.to_string (previewURL st)) = None).
Proof.
  unfold securityOk. destruct (dialog_display st) eqn:Hd; [|auto].
  cbn [previewURL set_dialog_display].
  destruct (decodeURIComponent _) eqn:Hu; [left|right; right]; eauto.
Qed.

Lemma gate_invariant_securityOk st :
  gate_invariant st -> gate_invariant (state_of (ok st)).
Proof.
  intros (Hblank & Htrust & Hdlg).
  destruct (securityOk_cases st) as [(u & _ & _ & ->)|[[-> _]|[-> _]]];
    unfold gate_invariant; unfold_setters.
  - repeat split; [discriminate| |eauto].
    intros _. apply Array_truthy_assign_same.
  - auto.
  - repeat split; eauto.
Qed.

Lemma gate_invariant_navigator st m :
  gate_invariant st -> gate_invariant (state_of (fst (on_navigator st m))).
Proof.
  intros (Hblank & Htrust & Hdlg).
  destruct m as [id|id u|u id|u force|root|title icon|ty]; cbn [loader_navigator_onmessage].
  - repeat split; auto.
  - repeat split; auto.
  - unfold_setters.
    destruct (securityAlertAcknowledged st) eqn:Hack; cbn [negb orb].
    + destruct (String.eqb id (pageLoaderID st)); cbn [negb fst state_of];
        unfold gate_invariant; unfold_setters; repeat split; auto; discriminate.
    + unfold gate_invariant; unfold_setters. repeat split; auto.
  - unfold_setters.
    destruct (securityAlertAcknowledged st) eqn:Hack; cbn [negb].
    + destruct (force || _); cbn [fst state_of];
        unfold gate_invariant; unfold_setters; repeat split; auto; discriminate.
    + unfold gate_invariant; unfold_setters. repeat split; auto.
  - unfold_setters.
    destruct (Js.Array_truthy (trustedProjects st) root) eqn:Htr; cbn [andb].
    + rewrite bool_decide_eq_true_2 by assumption.
      destruct (decodeURIComponent _); cbn [fst state_of];
        unfold gate_invariant; unfold_setters; repeat split; eauto; discriminate.
    + rewrite bool_decide_eq_true_2 by assumption.
      unfold gate_invariant; unfold_setters; repeat split; eauto; discriminate.
  - unfold gate_invariant; unfold_setters. repeat split; auto.
  - repeat split; auto.
Qed.

Lemma gate_invariant_step st ev :
  gate_invariant st -> gate_invariant (fst (step st ev)).
Proof.
  intros Hinv. destruct ev as [m|e|event| |]; cbn [loader_step fst]; auto.
  - pose proof (gate_invariant_navigator st m Hinv) as H.
    destruct (on_navigator st m). exact H.
  - now apply gate_invariant_securityOk.
Qed.

Lemma gate_invariant_setup id root storage :
  gate_invariant (fst (setup (page_loaded id root storage))).
Proof.
  assert (gate_invariant (page_loaded id root storage)) as Hinit.
  { unfold gate_invariant, page_loaded; cbn. repeat split; eauto; discriminate. }
  unfold setupNavigationWatcher. cbn [fst].
  destruct (Js.truthy_opt _); [|exact Hinit].
  now apply gate_invariant_securityOk.
Qed.

Lemma reachable_invariant st :
  reachable decodeURIComponent iframe_src st -> gate_invariant st.
Proof.
  induction 1 as [id root storage|st ev _ IH].
  - apply gate_invariant_setup.
  - now apply gate_invariant_step.
Qed.

(** Only [securityOk] writes [trustedProjects]. *)
Lemma navigator_keeps_trust st m :
  trustedProjects (state_of (fst (on_navigator st m))) = trustedProjects st.
Proof.
  destruct m as [id|id u|u id|u force|root|title icon|ty]; cbn [loader_navigator_onmessage];
    unfold_setters; try reflexivity.
  - destruct (_ || _); reflexivity.
  - destruct (negb _); [reflexivity|]. destruct (_ || _); reflexivity.
  - destruct (_ && _).
    + destruct (decodeURIComponent _); reflexivity.
    + destruct (bool_decide _); reflexivity.
Qed.

Lemma step_keeps_trust st ev :
  not_ok_click ev = true ->
  trustedProjects (fst (step st ev)) = trustedProjects st.
Proof.
  destruct ev as [m|e|event| |]; cbn [loader_step fst not_ok_click]; try reflexivity;
    [|discriminate].
  intros _. pose proof (navigator_keeps_trust st m) as H.
  destruct (on_navigator st m). exact H.
Qed.

(** Trust in a root that is no array index is never taken away. An
    element of the array can be: see [trust_in_an_element_is_truncated]. *)
Lemma securityOk_trust_grows st r :
  Js.array_index r = None ->
  isTrusted st r = true -> isTrusted (state_of (ok st)) r = true.
Proof.
  intros Hplain Hr.
  destruct (securityOk_cases st) as [(u & _ & _ & ->)|[[-> _]|[-> _]]];
    unfold_setters; auto.
  now apply Array_truthy_assign_grows.
Qed.

Lemma step_trust_grows st ev r :
  Js.array_index r = None ->
  isTrusted st r = true -> isTrusted (fst (step st ev)) r = true.
Proof.
  intros Hplain Hr. destruct (not_ok_click ev) eqn:Hev.
  - unfold isTrusted in *. now rewrite step_keeps_trust.
  - destruct ev; try discriminate. cbn [loader_step fst].
    now apply securityOk_trust_grows.
Qed.

Lemma run_trust_grows evs st r :
  Js.array_index r = None ->
  isTrusted st r = true -> isTrusted (fst (run st evs)) r = true.
Proof.
  intros Hplain. revert st. induction evs as [|ev evs IH]; intros st Hr; [exact Hr|].
  cbn [loader_run]. pose proof (step_trust_grows st ev r Hplain Hr) as Hs.
  destruct (step st ev) as [st' out]. cbn [fst] in Hs.
  specialize (IH st' Hs). destruct (run st' evs). exact IH.
Qed.


Lemma run_reachable evs st :
  reachable decodeURIComponent iframe_src st ->
  reachable decodeURIComponent iframe_src (fst (run st evs)).
Proof.
  revert st. induction evs as [|ev evs IH]; intros st Hst; [exact Hst|].
  cbn [loader_run]. pose proof (reach_step decodeURIComponent iframe_src st ev Hst) as Hs.
  destruct (step st ev) as [st' out]. cbn [fst] in Hs.
  specialize (IH st' Hs). destruct (run st' evs). exact IH.
Qed.


(** Only a click adds truthiness to a property other than [length]. *)
Lemma index_is_not_inherited k n :
  Js.array_index k = Some n -> Js.inherited_by_array k = false.
Proof.
  intros Hk. destruct (Js.inherited_by_array k) eqn:Hin; [|reflexivity].
  unfold Js.inherited_by_array, Js.inherited_by_object in Hin. rewrite <- existsb_app in Hin.
  apply existsb_exists in Hin as (name & Hname & Heq). apply String.eqb_eq in Heq. subst name.
  assert (forallb (fun name => match Js.array_index name with Some _ => false | None => true end)
            (Js.Array_prototype ++ Js.Object_prototype)%list = true) as Hnames by reflexivity.
  rewrite forallb_forall in Hnames. specialize (Hnames k Hname). now rewrite Hk in Hnames.
Qed.

Lemma Array_truthy_assign_inv k r a :
  r <> k -> r <> "length" ->
  Js.Array_truthy (Js.Array_assign_true k a) r = true -> Js.Array_truthy a r = true.
Proof.
  intros Hne Hlen. destruct (Js.array_index r) as [n|] eqn:Hr.
  2: { now rewrite Array_truthy_assign_other. }
  unfold Js.Array_truthy, Js.Array_assign_true.
  destruct (String.eqb r "__proto__"); [reflexivity|].
  rewrite (index_is_not_inherited r n Hr).
  destruct (String.eqb_spec k "length") as [->|Hlength].
  - rewrite lookup_insert_ne by congruence.
    destruct (filter _ a !! r) as [b|] eqn:Hf; [|discriminate].
    apply map_lookup_filter_Some_1_1 in Hf. now rewrite Hf.
  - destruct (String.eqb k "__proto__"); [auto|].
    destruct (Js.array_index k).
    + rewrite lookup_insert_ne by congruence. now rewrite lookup_insert_ne by congruence.
    + now rewrite lookup_insert_ne by congruence.
Qed.

(** A page that replays a stored acknowledgement lets the next
    [INITIAL_URL_NAVIGATE] under its id into the frame, whatever the URL,
    while its array of trusted projects holds the initial root only. *)
Lemma replayed_acknowledgement_opens_the_frame id root storage URL shown r :
  storage !! (SESSION_SECURITY_CLEAR_KEY ++ root_key root) = Some "true" ->
  decodeURIComponent "undefined" = Some shown ->
  r <> root_key root -> r <> "length" -> Js.inherited_by_array r = false ->
  let page := fst (setup (page_loaded id root storage)) in
  let page' := fst (step page (NavigatorMessage (INITIAL_URL_NAVIGATE URL id))) in
  securityAlertAcknowledged page = true
  /\ currentProjectRoot page' = root
  /\ previewFrame_src page' = URL
  /\ isTrusted page' r = false.
Proof.
  intros Hstored Hshown Hr Hlen Hinherited page page'. subst page' page.
  unfold setupNavigationWatcher. cbn [fst page_loaded sessionStorage currentProjectRoot].
  rewrite Hstored. cbn [Js.truthy_opt Js.truthy].
  unfold securityOk. cbn. rewrite Hshown. cbn.
  rewrite String.eqb_refl. cbn. repeat split.
  unfold isTrusted. cbn.
  destruct (Js.Array_truthy (Js.Array_assign_true (root_key root) ∅) r) eqn:Htrusted;
    [|reflexivity].
  apply Array_truthy_assign_inv in Htrusted; [|assumption..].
  unfold Js.Array_truthy in Htrusted. rewrite lookup_empty, Hinherited in Htrusted.
  destruct (String.eqb_spec r "__proto__") as [->|]; [discriminate Hinherited|discriminate].
Qed.


(** C10. An acknowledged loader page that receives [REDIRECT_PAGE] leaves
    the frame as it is when [force] is falsy and the frame's [src] already
    reads as the URL of the message, and sets the frame to that URL
    otherwise; beyond the frame only [previewURL] is written. *)
Theorem redirect_page_reloads_only_on_change st URL force :
  securityAlertAcknowledged st = true ->
  let st' := fst (step st (NavigatorMessage (REDIRECT_PAGE URL force))) in
  (force = false -> iframe_src (previewFrame_src st) = URL ->
   st' = set_previewURL URL st /\ previewFrame_src st' = previewFrame_src st)
  /\ (force = true \/ iframe_src (previewFrame_src st) <> URL ->
      st' = set_frame_src URL (set_previewURL URL st) /\ previewFrame_src st' = URL)
  /\ snd (step st (NavigatorMessage (REDIRECT_PAGE URL force))) = [].
Proof.
  intros Hack st'. subst st'.
  cbn [loader_step loader_navigator_onmessage]. unfold_setters. rewrite Hack. cbn [negb].
  split; [|split].
  - intros -> Hsame. cbn [orb]. rewrite Hsame, String.eqb_refl. cbn. auto.
  - intros [->|Hdiff]; cbn [orb]; [cbn; auto|].
    destruct (String.eqb_spec (iframe_src (previewFrame_src st)) URL); [contradiction|].
    rewrite orb_true_r. cbn. auto.
  - destruct (force || _); reflexivity.
Qed.

End LoaderFacts.

(** C3 (defect in the code). The prompt guards the project root that the
    page carries in its own variable, and a reload sets that variable back
    to the root named in the URL of the page. A tab opened for [/proj/],
    trusted there, sits behind the prompt with a blank frame once the
    editor has switched to [/other/]. Reloaded, the page replays the
    acknowledgement stored for [/proj/], asks for the initial URL, and loads
    what the editor answers: the preview URL of [/other/], a project that
    was never trusted, with no click in between. *)
Theorem reloaded_page_previews_a_project_never_trusted :
  let before := Scenario.switched_loader in
  let page := Scenario.reloaded before in
  let url := Scenario.url_of "/other/a.html" in
  let answer :=
    snd (phoenix_navigator_onmessage 0%Z (Scenario.phoenix None (Some url))
           (mkEvent "https://phcode.dev" (GET_INITIAL_URL (pageLoaderID page)))) in
  let after := fst (Scenario.loader_step page (NavigatorMessage (INITIAL_URL_NAVIGATE url "tab2"))) in
  (currentProjectRoot before = Some "/other/"
   /\ securityAlertAcknowledged before = false
   /\ previewFrame_src before = ABOUT_BLANK)
  /\ (sessionStorage before !! (SESSION_SECURITY_CLEAR_KEY ++ "/other/") = None
      /\ isTrusted before "/other/" = false)
  /\ (currentProjectRoot page = Some "/proj/" /\ securityAlertAcknowledged page = true)
  /\ answer = [NavigatorPost (INITIAL_URL_NAVIGATE url "tab2")]
  /\ (previewFrame_src after = url
      /\ isTrusted after "/other/" = false
      /\ sessionStorage after !! (SESSION_SECURITY_CLEAR_KEY ++ "/other/") = None).
Proof. vm_compute. repeat split. Qed.

(** A root named like a property that arrays inherit is trusted without a
    click: the lookup finds the function on the prototype. *)
Example inherited_name_is_trusted_without_a_click :
  let st := fst (Scenario.loader_step Scenario.prompted_loader
                   (NavigatorMessage (PROJECT_SWITCH "map"))) in
  trustedProjects Scenario.prompted_loader = ∅
  /\ isTrusted Scenario.prompted_loader "map" = true
  /\ securityAlertAcknowledged st = true
  /\ previewFrame_src st = Scenario.url_of "/proj/index.html".
Proof. vm_compute. repeat split. Qed.


Example reload_forgets_the_second_root :
  isTrusted Scenario.both_trusted_loader "/other/" = true
  /\ sessionStorage Scenario.both_trusted_loader !! (SESSION_SECURITY_CLEAR_KEY ++ "/other/")
     = Some "true"
  /\ isTrusted (Scenario.reloaded Scenario.both_trusted_loader) "/proj/" = true
  /\ isTrusted (Scenario.reloaded Scenario.both_trusted_loader) "/other/" = false
  /\ securityAlertAcknowledged
       (fst (Scenario.loader_step (Scenario.reloaded Scenario.both_trusted_loader)
               (NavigatorMessage (PROJECT_SWITCH "/other/")))) = false.
Proof. vm_compute. repeat split. Qed.


Lemma redirect_page_reloads_only_on_change_witness :
  securityAlertAcknowledged Scenario.trusted_loader = true
  /\ previewFrame_src
       (fst (Scenario.loader_step Scenario.trusted_loader
               (NavigatorMessage (REDIRECT_PAGE (Scenario.url_of "/proj/index.html") false))))
     = Scenario.url_of "/proj/index.html"
  /\ previewFrame_src
       (fst (Scenario.loader_step Scenario.trusted_loader
               (NavigatorMessage (REDIRECT_PAGE (Scenario.url_of "/proj/about.html") false))))
     = Scenario.url_of "/proj/about.html".
Proof.
  split; [reflexivity|]. split.
  - apply (proj1 (redirect_page_reloads_only_on_change
                    Scenario.decodeURIComponent Scenario.iframe_src Scenario.trusted_loader
                    (Scenario.url_of "/proj/index.html") false eq_refl) eq_refl eq_refl).
  - apply (proj1 (proj2 (redirect_page_reloads_only_on_change
                    Scenario.decodeURIComponent Scenario.iframe_src Scenario.trusted_loader
                    (Scenario.url_of "/proj/about.html") false eq_refl))).
    right. vm_compute. discriminate.
Defined.

(** ** The origin allowlist *)

Section OriginFacts.

Variable _documentKey : string -> string.
Variable isMarkdownFile : string -> bool.
Variable getRemoteScript : string.
Variable URL_new : string -> option URL.
Variable URL_href : URL -> string.
Variable render_redirect : string -> string.
Variable marked_parse : string -> string.
Variable render_markdown : string -> string.
Variable PHOENIX_INSTANCE_ID : string.
Variable page_origin : string.
Variable decodeURIComponent : string -> option string.
Variable iframe_src : string -> string.

Local Abbreviation step := (loader_step decodeURIComponent iframe_src).
Local Abbreviation run := (loader_run decodeURIComponent iframe_src).
Local Abbreviation to_editor :=
  (window_message_to_editor _documentKey isMarkdownFile getRemoteScript URL_new URL_href
     render_redirect marked_parse render_markdown PHOENIX_INSTANCE_ID page_origin).

(** A message from an allowlisted origin is relayed under the page's id. *)
Lemma trusted_window_message_is_relayed st event :
  trusted_origin (origin event) = true ->
  loader_window_onmessage st event
  = [LoaderMessengerPost (mkEnvelope (Some (pageLoaderID st)) (data event))].
Proof.
  intros H. unfold loader_window_onmessage, TRUSTED_ORIGINS_lookup. now rewrite H.
Qed.

Lemma run_skips_silent_event st ev evs :
  step st ev = (st, []) -> run st (ev :: evs) = run st evs.
Proof.
  intros H. cbn [loader_run]. rewrite H. now destruct (run st evs).
Qed.

(** C2 (amended). The allowlist guards the window [message] listener of the
    loader page: a message for whose origin the lookup
    [TRUSTED_ORIGINS[event.origin]] is falsy is not relayed, so the editor
    emits nothing for it (no response, no read), and a run of the page is
    the same with or without it. The lookup is falsy exactly for the
    strings that are neither a key of [TRUSTED_ORIGINS] nor the name of a
    property the object inherits; a message under such a name is relayed.
    An origin as browsers serialise it (with "://" in it, or "null") is no
    such name, so there the test is membership in the keys. *)
Theorem untrusted_window_message_is_discarded :
  (forall st event,
      TRUSTED_ORIGINS_lookup (origin event) = false ->
      step st (WindowMessage event) = (st, [])
      /\ (forall now ph, to_editor now ph st event = (ph, []))
      /\ (forall st0 before after,
            run st0 (before ++ WindowMessage event :: after) = run st0 (before ++ after)))
  /\ (forall o,
        TRUSTED_ORIGINS_lookup o = false
        <-> trusted_origin o = false /\ Js.inherited_by_object o = false)
  /\ (forall o,
        Js.includes o "://" = true \/ o = "null" ->
        TRUSTED_ORIGINS_lookup o = trusted_origin o)
  /\ (forall st event,
        Js.inherited_by_object (origin event) = true ->
        step st (WindowMessage event)
        = (st, [LoaderMessengerPost (mkEnvelope (Some (pageLoaderID st)) (data event))])).
Proof.
  split; [|split; [|split]].
  - intros st event Huntrusted.
    assert (forall s, step s (WindowMessage event) = (s, [])) as Hsilent.
    { intros s. cbn [loader_step]. unfold loader_window_onmessage. now rewrite Huntrusted. }
    split; [apply Hsilent|]. split.
    + intros now ph. unfold window_message_to_editor, loader_window_onmessage.
      now rewrite Huntrusted.
    + intros st0 before after. revert st0.
      induction before as [|ev before IH]; intros st0.
      * cbn [app]. apply run_skips_silent_event, Hsilent.
      * cbn [app loader_run]. destruct (step st0 ev) as [st1 out]. now rewrite IH.
  - intros o. unfold TRUSTED_ORIGINS_lookup. apply orb_false_iff.
  - intros o Hshape. unfold TRUSTED_ORIGINS_lookup.
    rewrite (serialised_origin_is_not_inherited o Hshape). apply orb_false_r.
  - intros st event Hinherited. cbn [loader_step].
    unfold loader_window_onmessage, TRUSTED_ORIGINS_lookup.
    rewrite Hinherited, orb_true_r. reflexivity.
Qed.

End OriginFacts.

(** C2, as specified, fails: the messenger handler of the editor does not
    look at the origin of the event. A broadcast channel delivers the
    messages of the editor's own origin, whatever that origin is; with the
    editor served from a port outside the allowlist, a content request is
    read from disk and answered. *)
Lemma broadcast_handler_ignores_origin :
  ~ origin_checked_on_every_channel Scenario._documentKey Scenario.isMarkdownFile
      Scenario.getRemoteScript Scenario.URL_new Scenario.URL_href
      Scenario.render_redirect Scenario.marked_parse Scenario.render_markdown
      Scenario.PHOENIX_INSTANCE_ID.
Proof.
  intros (_ & H & _).
  specialize (H 0%Z (Scenario.phoenix None None)
                (Scenario.content_request "http://localhost:3000" "/proj/about.html")
                eq_refl).
  vm_compute in H. discriminate H.
Qed.

Example broadcast_handler_answers_any_origin :
  snd (Scenario.phoenix_messenger_onmessage 0%Z (Scenario.phoenix None None)
         (Scenario.content_request "http://localhost:3000" "/proj/about.html"))
  = [Did (FsReadFile "/proj/about.html");
     SendToLivePreviewServerTabs
       (mkEnvelope (Some "tab1")
          (REQUEST_RESPONSE "r1"
             (mkResponse "/proj/about.html"
                (Some (Binary [Byte.x3c; Byte.x70; Byte.x3e])) None)))].
Proof. vm_compute. reflexivity. Qed.

Lemma untrusted_window_message_is_discarded_witness :
  TRUSTED_ORIGINS_lookup "https://evil.example" = false
  /\ Scenario.loader_step Scenario.trusted_loader
       (WindowMessage (mkEvent "https://evil.example"
                         (GET_CONTENT "r1" "/proj/about.html" (Scenario.url_of "/proj/about.html"))))
     = (Scenario.trusted_loader, [])
  /\ snd (Scenario.loader_step Scenario.trusted_loader
            (WindowMessage (mkEvent "constructor"
                              (GET_CONTENT "r1" "/proj/about.html"
                                 (Scenario.url_of "/proj/about.html")))))
     = [LoaderMessengerPost
          (mkEnvelope (Some "tab1")
             (GET_CONTENT "r1" "/proj/about.html" (Scenario.url_of "/proj/about.html")))].
Proof.
  pose proof (untrusted_window_message_is_discarded
                Scenario._documentKey Scenario.isMarkdownFile Scenario.getRemoteScript
                Scenario.URL_new Scenario.URL_href Scenario.render_redirect
                Scenario.marked_parse Scenario.render_markdown Scenario.PHOENIX_INSTANCE_ID
                "https://phcode.dev" Scenario.decodeURIComponent Scenario.iframe_src)
    as (Hdiscarded & _ & _ & Hrelayed).
  split; [reflexivity|]. split.
  - apply (proj1 (Hdiscarded Scenario.trusted_loader
                    (mkEvent "https://evil.example"
                       (GET_CONTENT "r1" "/proj/about.html" (Scenario.url_of "/proj/about.html")))
                    eq_refl)).
  - unfold Scenario.loader_step.
    rewrite (Hrelayed Scenario.trusted_loader
               (mkEvent "constructor"
                  (GET_CONTENT "r1" "/proj/about.html" (Scenario.url_of "/proj/about.html")))
               eq_refl).
    reflexivity.
Defined.

(** ** The tab registry *)

Section RegistryFacts.

Local Open Scope Z_scope.

Local Abbreviation keys := (map (@fst string TabInfo)).
Local Abbreviation too_old now info := (now - lastSeen info >? TAB_HEARTBEAT_TIMEOUT).

Lemma Map_get_set k v m x :
  Map_get x (Map_set k v m) = if String.eqb k x then Some v else Map_get x m.
Proof.
  induction m as [|[k' v'] m IH]; cbn; [reflexivity|].
  destruct (String.eqb_spec k' k) as [->|Hne]; cbn.
  - now destruct (String.eqb k x).
  - rewrite IH. destruct (String.eqb_spec k' x) as [->|]; [|reflexivity].
    destruct (String.eqb_spec k x); [congruence|reflexivity].
Qed.

Lemma Map_get_fresh k m : ~ List.In k (keys m) -> Map_get k m = None.
Proof.
  induction m as [|[k' v'] m IH]; cbn; [reflexivity|].
  intros Hnot. destruct (String.eqb_spec k' k) as [->|]; [tauto|]. apply IH. tauto.
Qed.

Lemma Map_set_keys k v m x :
  List.In x (keys (Map_set k v m)) <-> x = k \/ List.In x (keys m).
Proof.
  induction m as [|[k' v'] m IH]; cbn.
  - intuition congruence.
  - destruct (String.eqb_spec k' k) as [->|Hne]; cbn; [intuition congruence|].
    rewrite IH. intuition congruence.
Qed.

Lemma Map_set_NoDup k v m :
  List.NoDup (keys m) -> List.NoDup (keys (Map_set k v m)).
Proof.
  induction m as [|[k' v'] m IH]; cbn; intros Hnd.
  - constructor; [tauto|constructor].
  - inversion Hnd as [|? ? Hnot Hnd']; subst.
    destruct (String.eqb_spec k' k) as [->|Hne]; cbn; [now constructor|].
    constructor; [|auto]. rewrite Map_set_keys. intuition congruence.
Qed.

Lemma sweep_keys now m x :
  List.In x (keys (fst (sweep now m))) -> List.In x (keys m).
Proof.
  induction m as [|[k i] m IH]; cbn; [tauto|].
  destruct (sweep now m) as [kept raised]. cbn [fst] in IH.
  destruct (too_old now i); cbn; tauto.
Qed.

Lemma sweep_NoDup now m :
  List.NoDup (keys m) -> List.NoDup (keys (fst (sweep now m))).
Proof.
  induction m as [|[k i] m IH]; cbn; intros Hnd; [constructor|].
  inversion Hnd as [|? ? Hnot Hnd']; subst. specialize (IH Hnd').
  pose proof (sweep_keys now m k) as Hsub.
  destruct (sweep now m) as [kept raised]. cbn [fst] in *.
  destruct (too_old now i); cbn; [assumption|]. constructor; tauto.
Qed.

(** What a sweep keeps: the tabs whose last heartbeat is within the
    timeout. *)
Lemma sweep_kept now m k :
  List.NoDup (keys m) ->
  Map_get k (fst (sweep now m))
  = match Map_get k m with
    | Some i => if too_old now i then None else Some i
    | None => None
    end.
Proof.
  induction m as [|[k' i'] m IH]; cbn; intros Hnd; [reflexivity|].
  inversion Hnd as [|? ? Hnot Hnd']; subst. specialize (IH Hnd').
  pose proof (sweep_keys now m k) as Hsub.
  destruct (sweep now m) as [kept raised]. cbn [fst] in *.
  destruct (String.eqb_spec k' k) as [->|Hne].
  - destruct (too_old now i'); cbn.
    + apply Map_get_fresh. tauto.
    + now rewrite String.eqb_refl.
  - destruct (too_old now i'); cbn; [assumption|].
    destruct (String.eqb_spec k' k); [congruence|assumption].
Qed.

(** What a sweep raises: one [BROWSER_CLOSE] for each tab it deletes that is
    not a loader tab. *)
Lemma sweep_raised now m k :
  List.NoDup (keys m) ->
  count_occ Triggered_eq_dec (snd (sweep now m)) (BROWSER_CLOSE k)
  = match Map_get k m with
    | Some i => if too_old now i && negb (navigationTab i) then 1%nat else 0%nat
    | None => 0%nat
    end.
Proof.
  induction m as [|[k' i'] m IH]; cbn; intros Hnd; [reflexivity|].
  inversion Hnd as [|? ? Hnot Hnd']; subst. specialize (IH Hnd').
  destruct (sweep now m) as [kept raised]. cbn [snd] in *.
  destruct (String.eqb_spec k' k) as [->|Hne].
  - rewrite (Map_get_fresh k m Hnot) in IH.
    destruct (too_old now i'); cbn [snd andb]; [|assumption].
    destruct (navigationTab i'); cbn [negb]; [assumption|].
    rewrite count_occ_cons_eq by reflexivity. now rewrite IH.
  - destruct (too_old now i'); cbn [snd]; [|assumption].
    destruct (navigationTab i'); cbn [negb]; [assumption|].
    rewrite count_occ_cons_neq by congruence. assumption.
Qed.

Lemma registry_step_NoDup now ev m :
  List.NoDup (keys m) -> List.NoDup (keys (fst (registry_step now ev m))).
Proof.
  destruct ev; cbn [registry_step fst]; auto using Map_set_NoDup, sweep_NoDup.
Qed.

Lemma registry_run_NoDup trace m :
  List.NoDup (keys m) -> List.NoDup (keys (fst (registry_run trace m))).
Proof.
  revert m. induction trace as [|[now ev] trace IH]; intros m Hnd; [exact Hnd|].
  cbn [registry_run]. pose proof (registry_step_NoDup now ev m Hnd) as Hs.
  destruct (registry_step now ev m) as [m' raised]. cbn [fst] in Hs.
  specialize (IH m' Hs). destruct (registry_run trace m'). exact IH.
Qed.

(** A tab that keeps beating within the timeout stays registered, and no
    [BROWSER_CLOSE] is raised for it. *)
Lemma beating_tab_survives period id trace : forall m info,
  period <= TAB_HEARTBEAT_TIMEOUT ->
  List.NoDup (keys m) ->
  Map_get id m = Some info ->
  beats_every period id (lastSeen info) trace = true ->
  (exists info', Map_get id (fst (registry_run trace m)) = Some info')
  /\ ~ List.In (BROWSER_CLOSE id) (snd (registry_run trace m)).
Proof.
  induction trace as [|[now ev] trace IH]; intros m info Hperiod Hnd Hget Hbeats.
  - cbn. split; [eauto|tauto].
  - cbn [beats_every] in Hbeats. apply andb_prop in Hbeats as [Hfresh Hbeats].
    apply Z.leb_le in Hfresh.
    cbn [registry_run].
    pose proof (registry_step_NoDup now ev m Hnd) as Hnd'.
    assert (exists info',
               Map_get id (fst (registry_step now ev m)) = Some info'
               /\ lastSeen info' = (if is_heartbeat_of id ev then now else lastSeen info)
               /\ ~ List.In (BROWSER_CLOSE id) (snd (registry_step now ev m)))
      as (info' & Hget' & Hlast & Hquiet).
    { destruct ev as [id' u|id' u|]; cbn [registry_step fst snd is_heartbeat_of].
      - rewrite Map_get_set. destruct (String.eqb id' id); eauto.
      - rewrite Map_get_set. destruct (String.eqb id' id); eauto.
      - assert (too_old now info = false) as Hyoung.
        { rewrite Z.gtb_ltb. apply Z.ltb_ge. lia. }
        exists info. rewrite sweep_kept, Hget, Hyoung by assumption.
        repeat split. rewrite (count_occ_not_In Triggered_eq_dec).
        rewrite sweep_raised, Hget, Hyoung by assumption. reflexivity. }
    destruct (registry_step now ev m) as [m' raised]. cbn [fst snd] in *.
    rewrite <- Hlast in Hbeats.
    destruct (IH m' info' Hperiod Hnd' Hget' Hbeats) as [Hkept Hquiet'].
    destruct (registry_run trace m') as [m'' raised']. cbn [fst snd] in *.
    split; [assumption|]. rewrite in_app_iff. tauto.
Qed.

(** C7. In a registry built by the handlers from the empty map: a tab that
    beats at least every [period] milliseconds, for any period up to the
    timeout (the sweep interval of 1000 ms in particular), is never
    deleted and no [BROWSER_CLOSE] is raised for it; a tab whose last
    heartbeat is more than 10000 ms old is deleted by the next sweep, which
    raises [BROWSER_CLOSE] for it once if it is not a loader tab and not at
    all if it is, and later sweeps raise nothing for it; a tab within the
    timeout is kept; every [BROWSER_CLOSE] raised is for a deleted tab that
    is not a loader tab. *)
Theorem heartbeat_sweep_evicts_stale_tabs_once
    (history : list (Z * TabEvent)) (id : string) (info : TabInfo) :
  let tabs := fst (registry_run history []) in
  Map_get id tabs = Some info ->
  (forall period trace,
      period <= TAB_HEARTBEAT_TIMEOUT ->
      beats_every period id (lastSeen info) trace = true ->
      (exists info', Map_get id (fst (registry_run trace tabs)) = Some info')
      /\ ~ List.In (BROWSER_CLOSE id) (snd (registry_run trace tabs)))
  /\ SWEEP_INTERVAL <= TAB_HEARTBEAT_TIMEOUT
  /\ (forall now,
        now - lastSeen info > TAB_HEARTBEAT_TIMEOUT ->
        Map_get id (fst (sweep now tabs)) = None
        /\ count_occ Triggered_eq_dec (snd (sweep now tabs)) (BROWSER_CLOSE id)
           = (if navigationTab info then 0%nat else 1%nat)
        /\ forall later, ~ List.In (BROWSER_CLOSE id) (snd (sweep later (fst (sweep now tabs)))))
  /\ (forall now,
        now - lastSeen info <= TAB_HEARTBEAT_TIMEOUT ->
        Map_get id (fst (sweep now tabs)) = Some info
        /\ ~ List.In (BROWSER_CLOSE id) (snd (sweep now tabs)))
  /\ (forall now id',
        List.In (BROWSER_CLOSE id') (snd (sweep now tabs)) ->
        exists info',
          Map_get id' tabs = Some info'
          /\ navigationTab info' = false
          /\ now - lastSeen info' > TAB_HEARTBEAT_TIMEOUT
          /\ Map_get id' (fst (sweep now tabs)) = None).
Proof.
  intros tabs Hget.
  assert (List.NoDup (keys tabs)) as Hnd by (apply registry_run_NoDup; constructor).
  split; [|split; [|split; [|split]]].
  - intros period trace Hperiod Hbeats. now apply (beating_tab_survives period id trace tabs info).
  - unfold SWEEP_INTERVAL, TAB_HEARTBEAT_TIMEOUT. lia.
  - intros now Hold.
    assert (too_old now info = true) as Hold' by (rewrite Z.gtb_ltb; apply Z.ltb_lt; lia).
    split; [|split].
    + now rewrite sweep_kept, Hget, Hold'.
    + rewrite sweep_raised, Hget, Hold' by assumption. now destruct (navigationTab info).
    + intros later. rewrite (count_occ_not_In Triggered_eq_dec).
      rewrite sweep_raised by now apply sweep_NoDup.
      now rewrite sweep_kept, Hget, Hold'.
  - intros now Hyoung.
    assert (too_old now info = false) as Hyoung' by (rewrite Z.gtb_ltb; apply Z.ltb_ge; lia).
    split.
    + now rewrite sweep_kept, Hget, Hyoung'.
    + rewrite (count_occ_not_In Triggered_eq_dec).
      now rewrite sweep_raised, Hget, Hyoung'.
  - intros now id' Hin.
    apply (count_occ_In Triggered_eq_dec) in Hin.
    rewrite sweep_raised in Hin by assumption.
    destruct (Map_get id' tabs) as [info'|] eqn:Hget'; [|lia].
    destruct (too_old now info') eqn:Hold; cbn [andb] in Hin; [|lia].
    destruct (navigationTab info') eqn:Hnav; cbn [negb] in Hin; [lia|].
    exists info'. split; [reflexivity|]. split; [exact Hnav|]. split.
    + rewrite Z.gtb_ltb in Hold. apply Z.ltb_lt in Hold. lia.
    + now rewrite sweep_kept, Hget', Hold.
Qed.

End RegistryFacts.

Lemma heartbeat_sweep_evicts_stale_tabs_once_witness :
  (exists info',
      Map_get "tabA" (fst (registry_run Scenario.beating_trace
                             (fst (registry_run Scenario.registry_history []))))
      = Some info')
  /\ fst (registry_run Scenario.beating_trace (fst (registry_run Scenario.registry_history [])))
     = [("tabA", mkTabInfo 12000 None false)]
  /\ snd (sweep 10001 (fst (registry_run Scenario.registry_history [])))
     = [BROWSER_CLOSE "tabA"]
  /\ Map_get "tabA" (fst (sweep 10001 (fst (registry_run Scenario.registry_history [])))) = None.
Proof.
  pose proof (heartbeat_sweep_evicts_stale_tabs_once Scenario.registry_history "tabA"
                (mkTabInfo 0 None false) eq_refl) as (Hbeat & _ & Hstale & _).
  split; [|split; [|split]].
  - apply (Hbeat 1000%Z Scenario.beating_trace); [vm_compute; discriminate|reflexivity].
  - reflexivity.
  - reflexivity.
  - apply (Hstale 10001%Z). reflexivity.
Defined.

(** * Further properties of the code *)

(** ** Content resolution: reads and misses *)

Section ResolverMore.

Variable _documentKey : string -> string.
Variable isMarkdownFile : string -> bool.
Variable getRemoteScript : string.
Variable URL_new : string -> option URL.
Variable URL_href : URL -> string.
Variable render_redirect : string -> string.
Variable marked_parse : string -> string.
Variable render_markdown : string -> string.

Local Abbreviation resolve :=
  (getContent _documentKey isMarkdownFile getRemoteScript URL_new URL_href
     render_redirect marked_parse render_markdown).

(** X1. [getContent] calls [fs.readFile] only for the path of the request,
    spelled as it was requested, only after
    [ProjectManager.isWithinProject] has answered true for that very
    string, and only when nothing in the editor's memory answers for it: no
    overlay content, no live document body, no open document; the markdown
    tier never reads through [fs.readFile]. What the read is confined to is
    therefore what that check accepts: the path is not normalised on the
    way, and the check is documented as not supporting "..". *)
Theorem disk_is_read_only_past_the_project_check inst ed p url q :
  List.In (FsReadFile q) (snd (resolve inst ed p url)) ->
  q = p
  /\ isWithinProject ed p = true
  /\ markdown_tier isMarkdownFile ed p = false
  /\ getOpenDocumentForPath ed !! getFileForPath ed p = None
  /\ exists srv,
      inst = Some srv
      /\ Js.truthy_opt (_virtualServingDocuments srv !! _documentKey p) = false
      /\ (_liveDocuments srv !! _documentKey p) ≫= getResponseData = None
      /\ snd (resolve inst ed p url) = [FsReadFile p].
Proof.
  unfold getContent, markdown_tier, currentFile.
  destruct inst as [srv|]; [|intros []].
  destruct (Js.startsWith url (_baseUrl srv)); cbn [negb]; [|intros []].
  destruct (isMarkdownFile p && _) eqn:Hmd.
  { unfold _getMarkdown. destruct (getDocumentForPath ed p); cbn; intuition discriminate. }
  unfold _getInstrumentedContent, resolve_with_headers.
  destruct (isWithinProject ed p) eqn:Hin; cbn [negb]; [|cbn; intuition discriminate].
  destruct (URL_new url); [|intros []].
  destruct (Js.truthy_opt _) eqn:Hov; [intros []|].
  destruct (_ ≫= getResponseData) eqn:Hlive.
  { destruct (Js.truthy_opt _ && _); cbn; intuition discriminate. }
  destruct (getOpenDocumentForPath ed !! _) eqn:Hopen; [intros []|].
  cbn. intros [[= <-]|[]]. repeat split. exists srv. repeat split; assumption.
Qed.

(** X2. A resolved response has null contents in two cases only: the
    project root check refused the path, or the disk was read and the read
    failed. Whatever the editor holds in memory for a path inside the
    project (overlay, live document, open document) is never answered with
    null, and neither is a rendered markdown document. *)
Theorem null_contents_only_from_guard_or_disk inst ed p url r :
  fst (resolve inst ed p url) = Resolved r ->
  (contents r = None
   <-> markdown_tier isMarkdownFile ed p = false
       /\ (isWithinProject ed p = false
           \/ (snd (resolve inst ed p url) = [FsReadFile p] /\ readFile ed p = None))).
Proof.
  unfold getContent, markdown_tier, currentFile.
  destruct inst as [srv|]; [|discriminate].
  destruct (Js.startsWith url (_baseUrl srv)); cbn [negb]; [|discriminate].
  destruct (isMarkdownFile p && _) eqn:Hmd.
  { unfold _getMarkdown. destruct (getDocumentForPath ed p); cbn; [|discriminate].
    intros [= <-]. cbn. intuition discriminate. }
  clear Hmd. unfold _getInstrumentedContent, resolve_with_headers.
  destruct (isWithinProject ed p) eqn:Hin; cbn [negb fst snd].
  2: { intros [= <-]. cbn. intuition. }
  destruct (URL_new url); cbn [fst snd]; [|discriminate].
  destruct (Js.truthy_opt _); cbn [fst snd].
  { intros [= <-]. cbn. intuition discriminate. }
  destruct (_ ≫= getResponseData).
  { destruct (Js.truthy_opt _ && _); cbn [fst snd]; intros [= <-]; cbn; intuition discriminate. }
  destruct (getOpenDocumentForPath ed !! _); cbn [fst snd].
  { intros [= <-]. cbn. intuition discriminate. }
  intros [= <-]. cbn. destruct (readFile ed p); cbn; intuition discriminate.
Qed.

End ResolverMore.

Lemma disk_is_read_only_past_the_project_check_witness :
  isWithinProject (Scenario.editor_with_current None) "/proj/about.html" = true
  /\ snd (Scenario.getContent (Some Scenario.server) (Scenario.editor_with_current None)
            "/proj/about.html" (Scenario.url_of "/proj/about.html"))
     = [FsReadFile "/proj/about.html"].
Proof.
  destruct (disk_is_read_only_past_the_project_check
              Scenario._documentKey Scenario.isMarkdownFile Scenario.getRemoteScript
              Scenario.URL_new Scenario.URL_href Scenario.render_redirect
              Scenario.marked_parse Scenario.render_markdown
              (Some Scenario.server) (Scenario.editor_with_current None)
              "/proj/about.html" (Scenario.url_of "/proj/about.html") "/proj/about.html"
              (or_introl eq_refl))
    as (_ & Hin & _ & _ & srv & _ & _ & _ & Heff).
  split; assumption.
Defined.

(** A check that compares prefixes, like the stand-in of [Scenario], lets
    a path through that leaves the project by "..": the read is issued for
    the string as requested. *)
Example unnormalised_path_reaches_the_disk :
  isWithinProject (Scenario.editor_with_current None) "/proj/../other/secret.txt" = true
  /\ snd (Scenario.getContent (Some Scenario.server) (Scenario.editor_with_current None)
            "/proj/../other/secret.txt" (Scenario.url_of "/proj/../other/secret.txt"))
     = [FsReadFile "/proj/../other/secret.txt"].
Proof. vm_compute. split; reflexivity. Qed.

Lemma null_contents_only_from_guard_or_disk_witness :
  contents (mkResponse "/proj/missing.png" None None) = None
  <-> markdown_tier Scenario.isMarkdownFile (Scenario.editor_with_current None) "/proj/missing.png" = false
      /\ (isWithinProject (Scenario.editor_with_current None) "/proj/missing.png" = false
          \/ (snd (Scenario.getContent (Some Scenario.server) (Scenario.editor_with_current None)
                     "/proj/missing.png" (Scenario.url_of "/proj/missing.png"))
              = [FsReadFile "/proj/missing.png"]
              /\ readFile (Scenario.editor_with_current None) "/proj/missing.png" = None)).
Proof.
  exact (null_contents_only_from_guard_or_disk
           Scenario._documentKey Scenario.isMarkdownFile Scenario.getRemoteScript
           Scenario.URL_new Scenario.URL_href Scenario.render_redirect
           Scenario.marked_parse Scenario.render_markdown
           (Some Scenario.server) (Scenario.editor_with_current None)
           "/proj/missing.png" (Scenario.url_of "/proj/missing.png")
           (mkResponse "/proj/missing.png" None None) eq_refl).
Defined.

(** ** The editor side as an event loop *)

Section EditorLoopFacts.

Variable _documentKey : string -> string.
Variable isMarkdownFile : string -> bool.
Variable getRemoteScript : string.
Variable URL_new : string -> option URL.
Variable URL_href : URL -> string.
Variable render_redirect : string -> string.
Variable marked_parse : string -> string.
Variable render_markdown : string -> string.
Variable PHOENIX_INSTANCE_ID : string.

Local Abbreviation resolve :=
  (getContent _documentKey isMarkdownFile getRemoteScript URL_new URL_href
     render_redirect marked_parse render_markdown).
Local Abbreviation on_messenger :=
  (phoenix_messenger_onmessage _documentKey isMarkdownFile getRemoteScript URL_new
     URL_href render_redirect marked_parse render_markdown PHOENIX_INSTANCE_ID).
Local Abbreviation ed_step :=
  (phoenix_step _documentKey isMarkdownFile getRemoteScript URL_new
     URL_href render_redirect marked_parse render_markdown PHOENIX_INSTANCE_ID).
Local Abbreviation ed_run :=
  (phoenix_run _documentKey isMarkdownFile getRemoteScript URL_new
     URL_href render_redirect marked_parse render_markdown PHOENIX_INSTANCE_ID).

Lemma triggered_of_app a b :
  triggered_of (a ++ b) = (triggered_of a ++ triggered_of b)%list.
Proof. induction a as [|[o|t] a IH]; cbn; congruence. Qed.

Lemma triggered_of_outputs (l : list PhoenixOut) : triggered_of (map inl l) = [].
Proof. induction l; cbn; auto. Qed.

Lemma triggered_of_raised (l : list Triggered) : triggered_of (map inr l) = l.
Proof. induction l; cbn; congruence. Qed.

Lemma raised_for_tabs_app a b :
  raised_for_tabs (a ++ b) = (raised_for_tabs a ++ raised_for_tabs b)%list.
Proof. induction a as [|[[]|t] a IH]; cbn; congruence. Qed.

Lemma raised_for_tabs_sweep (l : list Triggered) : raised_for_tabs (map inr l) = [].
Proof. induction l; cbn; auto. Qed.

Lemma raised_for_tabs_effects (l : list Effect) (rest : list PhoenixOut) :
  raised_for_tabs (map inl (map Did l ++ rest)%list) = raised_for_tabs (map inl rest).
Proof. induction l; cbn; auto. Qed.

(** One turn of the loop: only the registry moves, and as the registry
    step of the event says; an event is raised for the tabs exactly by a
    message of the default branch. *)
Lemma phoenix_step_frame now ph ev :
  let ph' := fst (ed_step now ph ev) in
  _staticServerInstance ph' = _staticServerInstance ph
  /\ editor ph' = editor ph
  /\ currentPopoutURL ph' = currentPopoutURL ph
  /\ (livePreviewTabs ph', triggered_of (snd (ed_step now ph ev)))
     = match tab_event_of ev with
       | Some t => registry_step now t (livePreviewTabs ph)
       | None => (livePreviewTabs ph, [])
       end
  /\ raised_for_tabs (snd (ed_step now ph ev)) = named_by_tabs [(now, ev)].
Proof.
  destruct ev as [event|event|]; cbn [phoenix_step tab_event_of named_by_tabs].
  - unfold phoenix_navigator_onmessage, _sendInitialURL.
    destruct (data event); cbn; rewrite ?triggered_of_outputs; auto.
    destruct (Js.truthy_opt _); cbn; auto 10.
  - unfold phoenix_messenger_onmessage, default_branch_name, exports_trigger.
    destruct (env_data (data event)) as [|requestID p url|clientID URL|message|title icon|name].
    + cbn. auto 10.
    + destruct (resolve _ _ _ _) as [promise effects]. cbn [fst snd].
      rewrite triggered_of_outputs, raised_for_tabs_effects. destruct promise; cbn; auto 10.
    + cbn. auto 10.
    + cbn. auto 10.
    + cbn. auto 10.
    + repeat match goal with
             | |- context [String.eqb name ?b] => destruct (String.eqb name b)
             end;
        cbn [orb fst snd]; rewrite ?triggered_of_outputs;
        try destruct (isLiveHighlightEnabled _); cbn; auto 10.
  - unfold phoenix_sweep. cbn [registry_step].
    destruct (sweep now (livePreviewTabs ph)) as [tabs raised]. cbn.
    rewrite triggered_of_raised, raised_for_tabs_sweep. auto.
Qed.

Lemma named_by_tabs_cons now ev trace :
  named_by_tabs ((now, ev) :: trace) = (named_by_tabs [(now, ev)] ++ named_by_tabs trace)%list.
Proof.
  destruct ev as [event|event|]; cbn; [reflexivity| |reflexivity].
  now destruct (default_branch_name _).
Qed.

(** X3. The handlers of this file leave the active server (hence its
    overlay and live documents), the editor's documents and the URL being
    previewed as they were, across any run of messages from tabs and timer
    ticks. The only state of the module that moves is the tab registry, and
    it moves exactly as the heartbeats and sweeps of the run dictate. Two
    things raise events on [exports]: the sweeps, with a [BROWSER_CLOSE]
    for each content tab they delete, and the tabs themselves, since a
    message under a name that the switch of the messenger handler does not
    handle is raised under that name, whatever it is, [BROWSER_CLOSE]
    included. Of the listeners of this file, the one for
    [EVENT_UPDATE_TITLE_ICON] then posts the title and icon of the message
    on the navigator channel, and the one for the escape key focuses the
    editor when live highlight is on. *)
Theorem tabs_move_the_registry_and_raise_events_by_name trace ph :
  let ph' := fst (ed_run trace ph) in
  _staticServerInstance ph' = _staticServerInstance ph
  /\ editor ph' = editor ph
  /\ currentPopoutURL ph' = currentPopoutURL ph
  /\ livePreviewTabs ph' = fst (registry_run (tab_events trace) (livePreviewTabs ph))
  /\ triggered_of (snd (ed_run trace ph))
     = snd (registry_run (tab_events trace) (livePreviewTabs ph))
  /\ raised_for_tabs (snd (ed_run trace ph)) = named_by_tabs trace
  /\ (forall now o id eventName,
        default_branch_name (OTHER_EVENT eventName) = Some eventName ->
        List.In (inl (ExportsTrigger eventName))
          (snd (ed_run [(now, MessengerEvent (mkEvent o (mkEnvelope id (OTHER_EVENT eventName))))]
                  ph)))
  /\ (forall now o id title icon,
        snd (ed_run [(now, MessengerEvent
                             (mkEvent o (mkEnvelope id (UPDATE_TITLE_AND_ICON title icon))))] ph)
        = [inl (ExportsTrigger EVENT_UPDATE_TITLE_ICON);
           inl (NavigatorPost (UPDATE_TITLE_ICON title icon))])
  /\ (forall now o id,
        snd (ed_run [(now, MessengerEvent
                             (mkEvent o (mkEnvelope id
                                           (OTHER_EVENT EVENT_EMBEDDED_IFRAME_ESCAPE_PRESS))))] ph)
        = inl (ExportsTrigger EVENT_EMBEDDED_IFRAME_ESCAPE_PRESS)
          :: (if isLiveHighlightEnabled (editor ph) then [inl FocusActiveEditor] else [])).
Proof.
  assert (forall ph,
             let ph' := fst (ed_run trace ph) in
             _staticServerInstance ph' = _staticServerInstance ph
             /\ editor ph' = editor ph
             /\ currentPopoutURL ph' = currentPopoutURL ph
             /\ livePreviewTabs ph' = fst (registry_run (tab_events trace) (livePreviewTabs ph))
             /\ triggered_of (snd (ed_run trace ph))
                = snd (registry_run (tab_events trace) (livePreviewTabs ph))
             /\ raised_for_tabs (snd (ed_run trace ph)) = named_by_tabs trace) as Hrun.
  { clear ph. induction trace as [|[now ev] trace IH]; intros ph; [cbn; auto 10|].
    rewrite named_by_tabs_cons. cbn [phoenix_run tab_events].
    pose proof (phoenix_step_frame now ph ev) as (Hs & He & Hu & Htabs & Hnamed).
    destruct (ed_step now ph ev) as [ph1 out1]. cbn [fst snd] in *.
    specialize (IH ph1). destruct (ed_run trace ph1) as [ph2 out2]. cbn [fst snd] in *.
    destruct IH as (IHs & IHe & IHu & IHtabs & IHraised & IHnamed).
    rewrite triggered_of_app, raised_for_tabs_app, Hnamed, IHnamed.
    destruct (tab_event_of ev) as [t|].
    - cbn [registry_run]. destruct (registry_step now t (livePreviewTabs ph)) as [tabs1 raised1].
      injection Htabs as Htabs Hraised. rewrite Htabs in *.
      destruct (registry_run (tab_events trace) tabs1) as [tabs2 raised2]. cbn [fst snd] in *.
      repeat split; congruence.
    - injection Htabs as Htabs Hraised. rewrite Htabs in *.
      rewrite Hraised. cbn [app]. repeat split; congruence. }
  destruct (Hrun ph) as (H1 & H2 & H3 & H4 & H5 & H6).
  repeat (split; [assumption|]). split; [|split].
  - intros now o id eventName Hname.
    cbn [phoenix_run phoenix_step]. unfold phoenix_messenger_onmessage. cbn [data env_data].
    unfold default_branch_name in Hname.
    destruct (String.eqb eventName EVENT_GET_PHOENIX_INSTANCE_ID); [discriminate|].
    destruct (String.eqb eventName EVENT_GET_CONTENT); [discriminate|].
    destruct (String.eqb eventName EVENT_TAB_ONLINE); [discriminate|].
    destruct (String.eqb eventName EVENT_REPORT_ERROR); [discriminate|].
    cbn. left. reflexivity.
  - intros now o id title icon. reflexivity.
  - intros now o id. cbn. now destruct (isLiveHighlightEnabled (editor ph)).
Qed.

(** X4. A content request relayed by a loader page comes back to that page
    and to no other. The editor answers on the messenger channel with an
    envelope that carries the id of the relaying page and the [requestID]
    of the request, and leaves its own state untouched; the page forwards
    that envelope to its server frame, and a page with another id drops
    it. *)
Theorem content_reply_returns_to_the_relaying_page
    page_origin now ph (st other : Loader) event requestID p url :
  trusted_origin (origin event) = true ->
  data event = GET_CONTENT requestID p url ->
  pageLoaderID st <> EmptyString ->
  pageLoaderID other <> pageLoaderID st ->
  let reply r := mkEnvelope (Some (pageLoaderID st)) (REQUEST_RESPONSE requestID r) in
  window_message_to_editor _documentKey isMarkdownFile getRemoteScript URL_new URL_href
    render_redirect marked_parse render_markdown PHOENIX_INSTANCE_ID page_origin
    now ph st event
  = (ph,
     (map Did (snd (resolve (_staticServerInstance ph) (editor ph) p url))
      ++ match fst (resolve (_staticServerInstance ph) (editor ph) p url) with
         | Resolved r => [SendToLivePreviewServerTabs (reply r)]
         | Rejected reason => [Did (ConsoleError reason)]
         end)%list)
  /\ forall r,
      loader_messenger_onmessage st (reply_for_loader (reply r))
      = [ServerFramePost (inr (REQUEST_RESPONSE requestID r))]
      /\ loader_messenger_onmessage other (reply_for_loader (reply r)) = [].
Proof.
  intros Htrusted Hdata Hid Hother reply. split.
  - unfold window_message_to_editor, loader_window_onmessage, TRUSTED_ORIGINS_lookup.
    rewrite Htrusted, Hdata.
    cbn [orb negb deliver_to_editor]. unfold phoenix_messenger_onmessage.
    cbn [data env_data env_pageLoaderID].
    destruct (resolve _ _ _ _) as [promise effects]. cbn [fst snd].
    now rewrite app_nil_r.
  - intros r. unfold loader_messenger_onmessage, reply_for_loader, reply.
    cbn [env_pageLoaderID env_data]. split.
    + now rewrite String.eqb_refl, andb_false_r.
    + assert (Js.truthy (pageLoaderID st) = true) as ->.
      { unfold Js.truthy. now destruct (String.eqb_spec (pageLoaderID st) EmptyString). }
      destruct (String.eqb_spec (pageLoaderID st) (pageLoaderID other)); [congruence|reflexivity].
Qed.

(** X5. A request raised by the embedded server frame is served only when
    it names this editor instance; any other request, and an event without
    a message, produces nothing at all. A served response is posted to the
    server frame of the editor window when there is one, and once on the
    messenger channel without an addressee, so that every loader page
    forwards it. *)
Theorem embedded_request_is_filtered_by_instance has_iframe ph message (st : Loader) :
  let handle :=
    on_EVENT_GET_CONTENT _documentKey isMarkdownFile getRemoteScript URL_new
      URL_href render_redirect marked_parse render_markdown PHOENIX_INSTANCE_ID
      has_iframe ph message in
  ((forall m, message = Some m -> emb_phoenixInstanceID m <> Some PHOENIX_INSTANCE_ID) ->
   handle = [])
  /\ (forall m r,
        message = Some m ->
        emb_phoenixInstanceID m = Some PHOENIX_INSTANCE_ID ->
        fst (resolve (_staticServerInstance ph) (editor ph) (emb_path m) (emb_url m))
        = Resolved r ->
        let answer := REQUEST_RESPONSE (emb_requestID m) r in
        handle
        = (map (fun e => ChannelOut (Did e))
             (snd (resolve (_staticServerInstance ph) (editor ph) (emb_path m) (emb_url m)))
           ++ (if has_iframe then [ServerIframePost answer] else [])
           ++ [ChannelOut (SendToLivePreviewServerTabs (mkEnvelope None answer))])%list
        /\ loader_messenger_onmessage st (reply_for_loader (mkEnvelope None answer))
           = [ServerFramePost (inr answer)]).
Proof.
  intros handle. subst handle. unfold on_EVENT_GET_CONTENT. split.
  - intros Hother. destruct message as [m|]; [|reflexivity].
    rewrite bool_decide_eq_false_2; [reflexivity|]. now apply Hother.
  - intros m r Hm Hid Hr. subst message. cbv zeta.
    rewrite bool_decide_eq_true_2 by assumption.
    destruct (resolve _ _ _ _) as [promise effects]. cbn [fst snd] in *. subst promise.
    split; reflexivity.
Qed.

End EditorLoopFacts.

Lemma tabs_move_the_registry_and_raise_events_by_name_witness :
  List.In (inl (ExportsTrigger "BROWSER_CLOSE"))
    (snd (phoenix_run Scenario._documentKey Scenario.isMarkdownFile Scenario.getRemoteScript
            Scenario.URL_new Scenario.URL_href Scenario.render_redirect
            Scenario.marked_parse Scenario.render_markdown Scenario.PHOENIX_INSTANCE_ID
            [(0%Z, MessengerEvent
                     (mkEvent "https://phcode.dev"
                        (mkEnvelope (Some "tab1") (OTHER_EVENT "BROWSER_CLOSE"))))]
            (Scenario.phoenix None None))).
Proof.
  apply (proj1 (proj2 (proj2 (proj2 (proj2 (proj2 (proj2
           (tabs_move_the_registry_and_raise_events_by_name
              Scenario._documentKey Scenario.isMarkdownFile Scenario.getRemoteScript
              Scenario.URL_new Scenario.URL_href Scenario.render_redirect
              Scenario.marked_parse Scenario.render_markdown Scenario.PHOENIX_INSTANCE_ID
              [] (Scenario.phoenix None None))))))))).
  reflexivity.
Defined.

Lemma content_reply_returns_to_the_relaying_page_witness :
  fst (window_message_to_editor Scenario._documentKey Scenario.isMarkdownFile
         Scenario.getRemoteScript Scenario.URL_new Scenario.URL_href
         Scenario.render_redirect Scenario.marked_parse Scenario.render_markdown
         Scenario.PHOENIX_INSTANCE_ID "https://phcode.dev" 0%Z (Scenario.phoenix None None)
         Scenario.trusted_loader
         (mkEvent "https://phcode.live"
            (GET_CONTENT "r1" "/proj/open.html" (Scenario.url_of "/proj/open.html"))))
  = Scenario.phoenix None None
  /\ loader_messenger_onmessage Scenario.trusted_loader
       (reply_for_loader
          (mkEnvelope (Some "tab1")
             (REQUEST_RESPONSE "r1"
                (mkResponse "/proj/open.html" (Some (Text "<p>edited</p>")) (Some html_headers)))))
     = [ServerFramePost
          (inr (REQUEST_RESPONSE "r1"
                  (mkResponse "/proj/open.html" (Some (Text "<p>edited</p>")) (Some html_headers))))].
Proof.
  destruct (content_reply_returns_to_the_relaying_page
              Scenario._documentKey Scenario.isMarkdownFile Scenario.getRemoteScript
              Scenario.URL_new Scenario.URL_href Scenario.render_redirect
              Scenario.marked_parse Scenario.render_markdown Scenario.PHOENIX_INSTANCE_ID
              "https://phcode.dev" 0%Z (Scenario.phoenix None None)
              Scenario.trusted_loader
              (Cases.page_with_id "tab2")
              (mkEvent "https://phcode.live"
                 (GET_CONTENT "r1" "/proj/open.html" (Scenario.url_of "/proj/open.html")))
              "r1" "/proj/open.html" (Scenario.url_of "/proj/open.html")
              eq_refl eq_refl)
    as [Hsent Hback]; [discriminate|discriminate|].
  split.
  - now rewrite Hsent.
  - apply Hback.
Defined.

Lemma embedded_request_is_filtered_by_instance_witness :
  on_EVENT_GET_CONTENT Scenario._documentKey Scenario.isMarkdownFile
    Scenario.getRemoteScript Scenario.URL_new Scenario.URL_href
    Scenario.render_redirect Scenario.marked_parse Scenario.render_markdown
    Scenario.PHOENIX_INSTANCE_ID true (Scenario.phoenix None None)
    (Some (mkEmbeddedContentRequest (Some "inst2") "/proj/open.html" "r7"
             (Scenario.url_of "/proj/open.html")))
  = [].
Proof.
  apply (proj1 (embedded_request_is_filtered_by_instance
                  Scenario._documentKey Scenario.isMarkdownFile Scenario.getRemoteScript
                  Scenario.URL_new Scenario.URL_href Scenario.render_redirect
                  Scenario.marked_parse Scenario.render_markdown Scenario.PHOENIX_INSTANCE_ID
                  true (Scenario.phoenix None None)
                  (Some (mkEmbeddedContentRequest (Some "inst2") "/proj/open.html" "r7"
                           (Scenario.url_of "/proj/open.html")))
                  Scenario.trusted_loader)).
  intros m [= <-]. discriminate.
Defined.

(** ** Synchronising a page that joins late *)

Section InitialUrlFacts.

Variable decodeURIComponent : string -> option string.
Variable iframe_src : string -> string.

(** X6. After [redirectAllTabs(newURL, force)] with a non-empty URL, the
    editor answers the [GET_INITIAL_URL] of a page with one
    [INITIAL_URL_NAVIGATE] that carries this latest URL and the id of the
    asking page. Every acknowledged page that hears the answer records the
    URL, but only the page that asked moves its frame. When no URL was ever
    set, or the last one is empty, a [GET_INITIAL_URL] is answered with
    nothing. *)
Theorem initial_url_goes_to_the_asking_page ph newURL force now o id (st : Loader) :
  newURL <> EmptyString ->
  securityAlertAcknowledged st = true ->
  let ph' := fst (redirectAllTabs ph newURL force) in
  let answer := INITIAL_URL_NAVIGATE newURL id in
  let st' := fst (loader_step decodeURIComponent iframe_src st (NavigatorMessage answer)) in
  phoenix_navigator_onmessage now ph' (mkEvent o (GET_INITIAL_URL id))
  = (ph', [NavigatorPost answer])
  /\ previewURL st' = Some newURL
  /\ previewFrame_src st'
     = (if String.eqb id (pageLoaderID st) then newURL else previewFrame_src st)
  /\ (forall ph0,
        Js.truthy_opt (currentPopoutURL ph0) = false ->
        phoenix_navigator_onmessage now ph0 (mkEvent o (GET_INITIAL_URL id)) = (ph0, [])).
Proof.
  intros Hurl Hack ph' answer st'. subst ph' answer st'.
  assert (Js.truthy newURL = true) as Htruthy.
  { unfold Js.truthy. now destruct (String.eqb_spec newURL EmptyString). }
  split; [|split; [|split]].
  - unfold phoenix_navigator_onmessage, _sendInitialURL, redirectAllTabs.
    cbn. now rewrite Htruthy.
  - cbn [loader_step loader_navigator_onmessage]. unfold_setters. rewrite Hack. cbn [negb orb].
    now destruct (String.eqb id (pageLoaderID st)).
  - cbn [loader_step loader_navigator_onmessage]. unfold_setters. rewrite Hack. cbn [negb orb].
    now destruct (String.eqb id (pageLoaderID st)).
  - intros ph0 Hnone. unfold phoenix_navigator_onmessage, _sendInitialURL. cbn.
    now rewrite Hnone.
Qed.

End InitialUrlFacts.

Lemma initial_url_goes_to_the_asking_page_witness :
  previewFrame_src
    (fst (Scenario.loader_step Scenario.trusted_loader
            (NavigatorMessage (INITIAL_URL_NAVIGATE (Scenario.url_of "/proj/about.html") "tab1"))))
  = Scenario.url_of "/proj/about.html"
  /\ previewFrame_src
       (fst (Scenario.loader_step Scenario.trusted_loader
               (NavigatorMessage (INITIAL_URL_NAVIGATE (Scenario.url_of "/proj/about.html") "tab2"))))
     = Scenario.url_of "/proj/index.html".
Proof.
  split.
  - apply (proj1 (proj2 (proj2
             (initial_url_goes_to_the_asking_page Scenario.decodeURIComponent Scenario.iframe_src
                (Scenario.phoenix None None) (Scenario.url_of "/proj/about.html") false 0%Z
                "https://phcode.dev" "tab1" Scenario.trusted_loader
                ltac:(discriminate) eq_refl)))).
  - apply (proj1 (proj2 (proj2
             (initial_url_goes_to_the_asking_page Scenario.decodeURIComponent Scenario.iframe_src
                (Scenario.phoenix None None) (Scenario.url_of "/proj/about.html") false 0%Z
                "https://phcode.dev" "tab2" Scenario.trusted_loader
                ltac:(discriminate) eq_refl)))).
Defined.

(** ** The tab registry: heartbeats and sweeps *)

Section RegistryMore.

Local Open Scope Z_scope.

Local Abbreviation keys := (map (@fst string TabInfo)).
Local Abbreviation too_old now info := (now - lastSeen info >? TAB_HEARTBEAT_TIMEOUT).

Lemma Map_set_length k v m :
  length (Map_set k v m)
  = match Map_get k m with
    | Some _ => length m
    | None => S (length m)
    end.
Proof.
  induction m as [|[k' v'] m IH]; cbn; [reflexivity|].
  destruct (String.eqb k' k); cbn; [reflexivity|].
  rewrite IH. now destruct (Map_get k m).
Qed.

(** X7. A heartbeat ([TAB_ONLINE] or [TAB_LOADER_ONLINE]) leaves the table
    with exactly one entry for its tab: the entry holds the time of this
    heartbeat, its URL and whether it came from a loader page; the entries
    of all other tabs are untouched; the table grows by one for a tab not
    yet known and keeps its size for a known one; nothing is raised and
    [hasActiveLivePreviews] holds afterwards. *)
Theorem heartbeat_replaces_the_entry_of_its_tab now ev id (tabs : list (string * TabInfo)) :
  is_heartbeat_of id ev = true ->
  let tabs' := fst (registry_step now ev tabs) in
  (exists URL nav,
      Map_get id tabs' = Some (mkTabInfo now URL nav)
      /\ ev = (if nav then TabLoaderOnline id URL else TabOnline id URL))
  /\ (forall other, other <> id -> Map_get other tabs' = Map_get other tabs)
  /\ length tabs' = match Map_get id tabs with
                    | Some _ => length tabs
                    | None => S (length tabs)
                    end
  /\ (List.NoDup (keys tabs) -> List.NoDup (keys tabs'))
  /\ snd (registry_step now ev tabs) = []
  /\ hasActiveLivePreviews tabs' = true.
Proof.
  intros Hbeat tabs'. subst tabs'.
  destruct ev as [id' URL|id' URL|]; cbn [is_heartbeat_of] in Hbeat; [| |discriminate];
    apply String.eqb_eq in Hbeat; subst id'; cbn [registry_step fst snd].
  - split; [exists URL, true; split; [|reflexivity]; now rewrite Map_get_set, String.eqb_refl|].
    split.
    { intros other Hother. rewrite Map_get_set.
      destruct (String.eqb_spec id other); [congruence|reflexivity]. }
    split; [apply Map_set_length|].
    split; [apply Map_set_NoDup|]. split; [reflexivity|].
    unfold hasActiveLivePreviews. rewrite Map_set_length.
    destruct (Map_get id tabs) eqn:Hget; [|reflexivity].
    destruct tabs; [discriminate|reflexivity].
  - split; [exists URL, false; split; [|reflexivity]; now rewrite Map_get_set, String.eqb_refl|].
    split.
    { intros other Hother. rewrite Map_get_set.
      destruct (String.eqb_spec id other); [congruence|reflexivity]. }
    split; [apply Map_set_length|].
    split; [apply Map_set_NoDup|]. split; [reflexivity|].
    unfold hasActiveLivePreviews. rewrite Map_set_length.
    destruct (Map_get id tabs) eqn:Hget; [|reflexivity].
    destruct tabs; [discriminate|reflexivity].
Qed.

Lemma loader_entry_step now ev id tabs :
  List.NoDup (keys tabs) ->
  (forall URL, ev <> TabOnline id URL) ->
  (forall info, Map_get id tabs = Some info -> navigationTab info = true) ->
  (forall info, Map_get id (fst (registry_step now ev tabs)) = Some info ->
                navigationTab info = true)
  /\ ~ List.In (BROWSER_CLOSE id) (snd (registry_step now ev tabs)).
Proof.
  intros Hnd Hev Hloader.
  destruct ev as [id' URL|id' URL|]; cbn [registry_step fst snd].
  - split; [|tauto]. intros info. rewrite Map_get_set.
    destruct (String.eqb id' id); [now intros [= <-]|apply Hloader].
  - split; [|tauto]. intros info. rewrite Map_get_set.
    destruct (String.eqb_spec id' id) as [->|]; [now destruct (Hev URL)|apply Hloader].
  - split.
    + intros info. rewrite sweep_kept by assumption.
      destruct (Map_get id tabs) as [i|] eqn:Hget; [|discriminate].
      destruct (too_old now i); [discriminate|]. intros [= <-]. now apply Hloader.
    + rewrite (count_occ_not_In Triggered_eq_dec), sweep_raised by assumption.
      destruct (Map_get id tabs) as [i|] eqn:Hget; [|reflexivity].
      rewrite (Hloader i eq_refl). now rewrite andb_false_r.
Qed.

(** X8. A tab that is only ever announced by [TAB_LOADER_ONLINE] never
    causes a [BROWSER_CLOSE], however late its heartbeats are and however
    often it is deleted and comes back: in every run from the empty table
    without a [TAB_ONLINE] under its id, no [BROWSER_CLOSE] carries that
    id. *)
Theorem loader_tab_never_raises_browser_close (trace : list (Z * TabEvent)) id :
  (forall now URL, ~ List.In (now, TabOnline id URL) trace) ->
  ~ List.In (BROWSER_CLOSE id) (snd (registry_run trace [])).
Proof.
  assert (forall tr tabs,
             List.NoDup (keys tabs) ->
             (forall info, Map_get id tabs = Some info -> navigationTab info = true) ->
             (forall now URL, ~ List.In (now, TabOnline id URL) tr) ->
             ~ List.In (BROWSER_CLOSE id) (snd (registry_run tr tabs))) as Hgen.
  { induction tr as [|[now ev] tr IH]; intros tabs Hnd Hloader Hnone; [cbn; tauto|].
    cbn [registry_run].
    assert (forall URL, ev <> TabOnline id URL) as Hev.
    { intros URL ->. apply (Hnone now URL). now left. }
    destruct (loader_entry_step now ev id tabs Hnd Hev Hloader) as [Hloader' Hquiet].
    pose proof (registry_step_NoDup now ev tabs Hnd) as Hnd'.
    destruct (registry_step now ev tabs) as [tabs' raised]. cbn [fst snd] in *.
    assert (forall n URL, ~ List.In (n, TabOnline id URL) tr) as Hnone'.
    { intros n URL Hin. apply (Hnone n URL). now right. }
    specialize (IH tabs' Hnd' Hloader' Hnone').
    destruct (registry_run tr tabs') as [tabs'' raised']. cbn [snd] in *.
    rewrite in_app_iff. tauto. }
  intros Hnone. apply Hgen; [constructor|discriminate|assumption].
Qed.

Lemma sweep_as_filter now m :
  fst (sweep now m) = List.filter (fun kv => negb (too_old now (snd kv))) m.
Proof.
  induction m as [|[k i] m IH]; cbn; [reflexivity|].
  destruct (sweep now m) as [kept raised]. cbn [fst] in IH.
  destruct (too_old now i); cbn; congruence.
Qed.

(** X9. Sweeping is idempotent and looks only at the clock: a second sweep
    at the same or an earlier clock reading deletes nothing and raises
    nothing. After a sweep [hasActiveLivePreviews] holds exactly when some
    tab was heard from within the timeout, and a sweep never adds a tab. *)
Theorem sweep_is_idempotent now earlier (tabs : list (string * TabInfo)) :
  earlier <= now ->
  sweep earlier (fst (sweep now tabs)) = (fst (sweep now tabs), [])
  /\ hasActiveLivePreviews (fst (sweep now tabs))
     = existsb (fun kv => negb (too_old now (snd kv))) tabs
  /\ (length (fst (sweep now tabs)) <= length tabs)%nat.
Proof.
  intros Hle. split; [|split].
  - induction tabs as [|[k i] tabs IH]; cbn; [reflexivity|].
    destruct (sweep now tabs) as [kept raised]. cbn [fst] in IH.
    destruct (too_old now i) eqn:Hold; cbn [fst]; [exact IH|].
    cbn [sweep]. rewrite IH.
    assert (too_old earlier i = false) as ->; [|reflexivity].
    rewrite Z.gtb_ltb in *. apply Z.ltb_ge. apply Z.ltb_ge in Hold. lia.
  - rewrite sweep_as_filter. unfold hasActiveLivePreviews.
    induction tabs as [|[k i] tabs IH]; cbn; [reflexivity|].
    destruct (too_old now i); cbn; [exact IH|reflexivity].
  - rewrite sweep_as_filter. apply List.filter_length_le.
Qed.

End RegistryMore.

Lemma heartbeat_replaces_the_entry_of_its_tab_witness :
  Map_get "tabA" (fst (registry_step 500 (TabOnline "tabA" None)
                         (fst (registry_run Scenario.registry_history []))))
  = Some (mkTabInfo 500 None false)
  /\ length (fst (registry_step 500 (TabOnline "tabA" None)
                    (fst (registry_run Scenario.registry_history [])))) = 2%nat.
Proof.
  destruct (heartbeat_replaces_the_entry_of_its_tab 500 (TabOnline "tabA" None) "tabA"
              (fst (registry_run Scenario.registry_history [])) eq_refl)
    as ((URL & nav & Hget & Hev) & _ & Hlen & _).
  split; [|exact Hlen].
  rewrite Hget. destruct nav; [discriminate Hev|]. now injection Hev as <-.
Defined.

Lemma loader_tab_never_raises_browser_close_witness :
  ~ List.In (BROWSER_CLOSE "loaderB")
      (snd (registry_run (Scenario.registry_history ++ [(20000%Z, SweepTick)]) [])).
Proof.
  apply loader_tab_never_raises_browser_close.
  intros now URL Hin. vm_compute in Hin.
  repeat (destruct Hin as [Hin|Hin]; [discriminate Hin|]). exact Hin.
Defined.

Lemma sweep_is_idempotent_witness :
  sweep 10001 (fst (sweep 10001 (fst (registry_run Scenario.registry_history []))))
  = (fst (sweep 10001 (fst (registry_run Scenario.registry_history []))), []).
Proof.
  apply (proj1 (sweep_is_idempotent 10001 10001
                  (fst (registry_run Scenario.registry_history [])) ltac:(lia))).
Defined.

(** ** Starting and stopping a server *)

Section ServerLifeCycle.

Variable _documentKey : string -> string.
Variable isMarkdownFile : string -> bool.
Variable getRemoteScript : string.
Variable URL_new : string -> option URL.
Variable URL_href : URL -> string.
Variable render_redirect : string -> string.
Variable marked_parse : string -> string.
Variable render_markdown : string -> string.

Local Abbreviation resolve :=
  (getContent _documentKey isMarkdownFile getRemoteScript URL_new URL_href
     render_redirect marked_parse render_markdown).

Lemma server_calls_last calls c active :
  fold_left server_call (calls ++ [c]) active
  = match c with
    | CallStart this => Some this
    | CallStop _ => None
    end.
Proof.
  rewrite fold_left_app. cbn. now destruct c.
Qed.

(** X10. The active server is decided by the last call alone. After
    [start] on an instance, that instance is the active one and every other
    instance is not. After [stop] on any instance, including one that was
    superseded long ago and is not the active one, no server is active:
    every instance reports inactive and every content request is rejected
    with "Static serve not started!" before anything is read. *)
Theorem last_call_decides_the_active_server calls (this : ServerObject) active :
  (let after := fold_left server_call (calls ++ [CallStart this]) active in
   isActive this after = true
   /\ (forall other, object_id other <> object_id this -> isActive other after = false)
   /\ serving after = Some (fields this))
  /\ (let after := fold_left server_call (calls ++ [CallStop this]) active in
      (forall any, isActive any after = false)
      /\ forall ed p url,
          resolve (serving after) ed p url = (Rejected "Static serve not started!", [])).
Proof.
  rewrite !server_calls_last. cbn. split.
  - split; [apply Nat.eqb_refl|]. split; [|reflexivity].
    intros other Hother. apply Nat.eqb_neq. congruence.
  - split; reflexivity.
Qed.

End ServerLifeCycle.

(** ** Popping a preview out into a tab and back *)

Section PopoutFacts.

Variable _documentKey : string -> string.
Variable getRemoteScript : string.
Variable URL_new : string -> option URL.
Variable URL_href : URL -> string.
Variable render_redirect : string -> string.

Lemma searchParams_get_set name value ps :
  searchParams_get name (searchParams_set name value ps) = Some value.
Proof.
  induction ps as [|[k v] ps IH]; cbn; [now rewrite String.eqb_refl|].
  destruct (String.eqb k name) eqn:E; cbn; now rewrite E.
Qed.

Lemma searchParams_delete_set name value ps :
  searchParams_delete name (searchParams_set name value ps) = searchParams_delete name ps.
Proof.
  induction ps as [|[k v] ps IH]; cbn; [now rewrite String.eqb_refl|].
  destruct (String.eqb k name) eqn:E; cbn; rewrite E.
  - clear IH. induction ps as [|[k' v'] ps IH]; cbn; [reflexivity|].
    destruct (String.eqb k' name) eqn:E'; cbn; rewrite ?E'; congruence.
  - congruence.
Qed.

Lemma searchParams_delete_absent name ps :
  searchParams_get name ps = None -> searchParams_delete name ps = ps.
Proof.
  induction ps as [|[k v] ps IH]; cbn; [reflexivity|].
  destruct (String.eqb k name); [discriminate|]. intros H. now rewrite IH.
Qed.

Lemma searchParams_get_delete_other name other ps :
  name <> other ->
  searchParams_get other (searchParams_delete name ps) = searchParams_get other ps.
Proof.
  intros Hne. induction ps as [|[k v] ps IH]; cbn; [reflexivity|].
  destruct (String.eqb_spec k name) as [->|Hk]; cbn.
  - destruct (String.eqb_spec name other); [congruence|exact IH].
  - now rewrite IH.
Qed.

Lemma searchParams_get_set_other name value other ps :
  name <> other ->
  searchParams_get other (searchParams_set name value ps) = searchParams_get other ps.
Proof.
  intros Hne. induction ps as [|[k v] ps IH]; cbn.
  - destruct (String.eqb_spec name other); [congruence|reflexivity].
  - destruct (String.eqb_spec k name) as [->|Hk]; cbn.
    + destruct (String.eqb_spec name other); [congruence|].
      now apply searchParams_get_delete_other.
    + now rewrite IH.
Qed.

(** X11. The tag of [getTabPopoutURL] leaves no trace in the redirection
    page. Writing the tag serialises the query anew. Every URL object with
    the path, pairs and fragment of the tagged URL, in particular the one
    parsed from its [href] when the request comes in, is recognised as a
    popped-out page by [_getInstrumentedContent], and the redirection page
    built for it is the page built for the untagged URL: it targets that
    URL with its query serialised from the pairs, which is spelled like the
    original only where the original was in serialised form. The URL is
    taken to carry no [phcodeLivePreview] parameter of its own. Other
    parameters keep their values. *)
Theorem popout_tag_leaves_no_trace_in_the_redirection url u :
  URL_new url = Some u ->
  searchParams_get PHCODE_LIVE_PREVIEW_QUERY_PARAM (searchParams u) = None ->
  exists tagged,
    popout_openURL URL_new url = Some tagged
    /\ url_query tagged = Serialised
    /\ (forall requested,
          url_prefix requested = url_prefix tagged ->
          searchParams requested = searchParams tagged ->
          url_hash requested = url_hash tagged ->
          Js.truthy_opt
            (searchParams_get PHCODE_LIVE_PREVIEW_QUERY_PARAM (searchParams requested)) = true
          /\ URL_delete_param PHCODE_LIVE_PREVIEW_QUERY_PARAM requested
             = mkURL (url_prefix u) Serialised (searchParams u) (url_hash u)
          /\ _getRedirectionPage URL_href render_redirect requested
             = _getRedirectionPage URL_href render_redirect u)
    /\ forall name,
        name <> PHCODE_LIVE_PREVIEW_QUERY_PARAM ->
        searchParams_get name (searchParams tagged) = searchParams_get name (searchParams u).
Proof.
  intros Hurl Habsent. unfold popout_openURL. rewrite Hurl. cbn.
  eexists. split; [reflexivity|]. split; [reflexivity|]. split.
  - intros requested Hprefix Hpairs Hhash.
    unfold URL_set_param in Hprefix, Hpairs, Hhash.
    cbn [url_prefix searchParams url_hash] in Hprefix, Hpairs, Hhash.
    assert (URL_delete_param PHCODE_LIVE_PREVIEW_QUERY_PARAM requested
            = mkURL (url_prefix u) Serialised (searchParams u) (url_hash u)) as Hundo.
    { unfold URL_delete_param. rewrite Hprefix, Hpairs, Hhash.
      now rewrite searchParams_delete_set, searchParams_delete_absent by assumption. }
    split; [|split; [exact Hundo|]].
    + rewrite Hpairs. now rewrite searchParams_get_set.
    + unfold _getRedirectionPage. rewrite Hundo. unfold URL_delete_param.
      now rewrite searchParams_delete_absent by assumption.
  - intros name Hname. unfold URL_set_param. cbn [searchParams].
    apply searchParams_get_set_other. congruence.
Qed.

End PopoutFacts.

Lemma popout_tag_leaves_no_trace_in_the_redirection_witness :
  exists tagged requested,
    popout_openURL Scenario.URL_new (Scenario.url_of "/proj/old.html") = Some tagged
    /\ Scenario.URL_href tagged = Scenario.popout_url_of "/proj/old.html"
    /\ Scenario.URL_new (Scenario.URL_href tagged) = Some requested
    /\ _getRedirectionPage Scenario.URL_href Scenario.render_redirect requested
       = Scenario.render_redirect (Scenario.url_of "/proj/old.html").
Proof.
  destruct (popout_tag_leaves_no_trace_in_the_redirection
              Scenario.URL_new Scenario.URL_href
              Scenario.render_redirect (Scenario.url_of "/proj/old.html")
              (mkURL (Scenario.url_of "/proj/old.html") (AsParsed EmptyString) [] EmptyString)
              eq_refl eq_refl)
    as (tagged & Htag & _ & Hrequested & _).
  exists tagged.
  exists (mkURL (Scenario.url_of "/proj/old.html") (AsParsed "phcodeLivePreview=true")
            [("phcodeLivePreview", "true")] EmptyString).
  split; [exact Htag|].
  vm_compute in Htag. injection Htag as <-.
  split; [reflexivity|]. split; [reflexivity|].
  destruct (Hrequested
              (mkURL (Scenario.url_of "/proj/old.html") (AsParsed "phcodeLivePreview=true")
                 [("phcodeLivePreview", "true")] EmptyString)
              eq_refl eq_refl eq_refl) as (_ & _ & ->).
  reflexivity.
Defined.

(** ** Strings *)

Lemma append_cons c (a b : string) : String c a ++ b = String c (a ++ b).
Proof. reflexivity. Qed.

Lemma string_length_app (a b : string) :
  String.length (a ++ b) = (String.length a + String.length b)%nat.
Proof.
  induction a as [|c a IH]; [reflexivity|].
  rewrite append_cons. cbn. now rewrite IH.
Qed.

Lemma string_app_assoc (a b c : string) : (a ++ b) ++ c = a ++ b ++ c.
Proof.
  induction a as [|x a IH]; [reflexivity|]. rewrite !append_cons. now rewrite IH.
Qed.

Lemma substring_skip (a b : string) k m :
  substring (String.length a + k) m (a ++ b) = substring k m b.
Proof.
  induction a as [|c a IH]; [reflexivity|]. rewrite append_cons. cbn. exact IH.
Qed.

Lemma substring_whole (s : string) : substring 0 (String.length s) s = s.
Proof. induction s; cbn; congruence. Qed.

Lemma substring_head (a b : string) :
  substring 0 (String.length a) (a ++ b) = a.
Proof.
  induction a as [|c a IH]; [now destruct b|].
  rewrite append_cons. cbn. now rewrite IH.
Qed.

Lemma prefix_app (a b : string) : String.prefix a (a ++ b) = true.
Proof. apply prefix_correct, substring_head. Qed.

Lemma prefix_split (a s : string) :
  String.prefix a s = true -> exists rest, s = a ++ rest.
Proof.
  revert s. induction a as [|c a IH]; intros s.
  - intros _. now exists s.
  - destruct s as [|c' s]; [discriminate|]. simpl.
    destruct (Ascii.ascii_dec c c') as [<-|]; [|discriminate].
    intros H. destruct (IH s H) as [rest ->]. now exists rest.
Qed.

Lemma endsWith_app (a b suf : string) :
  (String.length suf <= String.length b)%nat ->
  Js.endsWith (a ++ b) suf = Js.endsWith b suf.
Proof.
  intros Hle. unfold Js.endsWith. rewrite string_length_app.
  replace (String.length suf <=? String.length a + String.length b)%nat with true
    by (symmetry; apply Nat.leb_le; lia).
  replace (String.length suf <=? String.length b)%nat with true
    by (symmetry; apply Nat.leb_le; lia).
  replace (String.length a + String.length b - String.length suf)%nat
    with (String.length a + (String.length b - String.length suf))%nat by lia.
  now rewrite substring_skip.
Qed.

Lemma endsWith_slash_free (name : string) :
  contains_char "/" name = false -> Js.endsWith name "/" = false.
Proof.
  induction name as [|c name IH]; [reflexivity|].
  cbn [contains_char]. intros H. apply orb_false_elim in H as [Hc Hname].
  destruct name as [|c' name'].
  - unfold Js.endsWith. cbn. now rewrite Hc.
  - change (String c (String c' name')) with (String c EmptyString ++ String c' name').
    rewrite endsWith_app by (cbn; lia). now apply IH.
Qed.

Lemma drop_last_char_app (x : string) (c : ascii) :
  drop_last_char (x ++ String c EmptyString) = x.
Proof.
  unfold drop_last_char. rewrite string_length_app. cbn [String.length].
  replace (String.length x + 1 - 1)%nat with (String.length x) by lia.
  apply substring_head.
Qed.

Lemma split_on_nonempty c s : Scenario.split_on c s <> [].
Proof.
  destruct s as [|a s]; cbn; [discriminate|].
  destruct (Ascii.eqb a c); [discriminate|].
  destruct (Scenario.split_on c s); discriminate.
Qed.

Lemma last_segment_slash_free c (name : string) :
  contains_char c name = false -> last_segment c name = name.
Proof.
  unfold last_segment.
  assert (contains_char c name = false -> Scenario.split_on c name = [name]) as Hone.
  { induction name as [|a name IH]; [reflexivity|].
    cbn [contains_char Scenario.split_on]. intros H. apply orb_false_elim in H as [Ha Hname].
    rewrite Ha, (IH Hname). reflexivity. }
  intros H. now rewrite (Hone H).
Qed.

Lemma contains_char_app c (a b : string) : contains_char c (a ++ String c b) = true.
Proof.
  induction a as [|x a IH].
  - change (EmptyString ++ String c b) with (String c b). cbn [contains_char].
    now rewrite Ascii.eqb_refl.
  - rewrite append_cons. cbn [contains_char]. rewrite IH. apply orb_true_r.
Qed.

Lemma split_on_two c (s : string) :
  contains_char c s = true -> exists h1 h2 t, Scenario.split_on c s = h1 :: h2 :: t.
Proof.
  induction s as [|y s IH]; [discriminate|]. cbn [contains_char Scenario.split_on].
  destruct (Ascii.eqb y c) eqn:Ey; cbn [orb].
  - intros _. destruct (Scenario.split_on c s) as [|h t] eqn:E.
    + now apply split_on_nonempty in E.
    + eauto.
  - intros Hs. destruct (IH Hs) as (h1 & h2 & t & ->). eauto.
Qed.

Lemma last_segment_app c (a b : string) :
  last_segment c (a ++ String c b) = last_segment c b.
Proof.
  unfold last_segment. induction a as [|x a IH].
  - change (EmptyString ++ String c b) with (String c b). cbn [Scenario.split_on].
    rewrite Ascii.eqb_refl.
    destruct (Scenario.split_on c b) eqn:E; [now apply split_on_nonempty in E|reflexivity].
  - rewrite append_cons. cbn [Scenario.split_on].
    destruct (split_on_two c (a ++ String c b) (contains_char_app c a b)) as (h1 & h2 & t & E).
    rewrite E in *. destruct (Ascii.eqb x c); exact IH.
Qed.

Lemma expand_replacement_plain (r before matched after : string) :
  contains_char "$" r = false -> expand_replacement r before matched after = r.
Proof.
  induction r as [|a r IH]; [reflexivity|].
  cbn [contains_char expand_replacement]. intros H. apply orb_false_elim in H as [Ha Hr].
  rewrite Ha. now rewrite IH.
Qed.

(** ** The loader page: the label of the trust button *)

(** X12. The trust button names the project folder: for a non-empty
    template and a project root that ends in a folder name, with or without
    a trailing slash, the label is the template with its first [{0}]
    replaced by that folder name. When the name holds no dollar sign and
    the template holds a [{0}] at position [i], the label is the text
    before it, the name, and the text after it. A template without [{0}]
    is shown unchanged, and without a template (absent or empty) the label
    is "Trust Project?". *)
Theorem trust_button_names_the_project_folder template dir name i :
  template <> EmptyString ->
  name <> EmptyString ->
  contains_char "/" name = false ->
  contains_char "$" name = false ->
  index 0 "{0}" template = Some i ->
  let label :=
    substring 0 i template ++ name
    ++ substring (i + 3) (String.length template - (i + 3)) template in
  getTrustOkButton (Some template) (Some (dir ++ "/" ++ name ++ "/")) = label
  /\ getTrustOkButton (Some template) (Some (dir ++ "/" ++ name)) = label
  /\ (forall plain root,
        plain <> EmptyString -> index 0 "{0}" plain = None ->
        getTrustOkButton (Some plain) root = plain)
  /\ (forall root,
        getTrustOkButton None root = "Trust Project?"
        /\ getTrustOkButton (Some EmptyString) root = "Trust Project?").
Proof.
  intros Htemplate Hname Hslash Hdollar Hi label. subst label.
  assert (forall s, s <> EmptyString -> Js.truthy s = true) as Htruthy.
  { intros s Hs. unfold Js.truthy. now destruct (String.eqb_spec s EmptyString). }
  assert (forall r, r <> EmptyString -> Js.truthy_opt (Some r) = true) as Hroot
      by (intros; cbn; auto).
  assert (String_replace template "{0}" name
          = substring 0 i template ++ name
            ++ substring (i + 3) (String.length template - (i + 3)) template) as Hlabel.
  { unfold String_replace. rewrite Hi. cbn [String.length].
    now rewrite expand_replacement_plain. }
  assert (forall x, x ++ "/" ++ name <> EmptyString) as Hne1.
  { intros x. destruct x; cbn; discriminate. }
  split; [|split; [|split]].
  - unfold getTrustOkButton. rewrite (Htruthy _ Htemplate).
    replace (dir ++ "/" ++ name ++ "/") with ((dir ++ "/" ++ name) ++ "/").
    2: { now rewrite !string_app_assoc. }
    cbn [Js.truthy_opt root_key].
    rewrite Htruthy by (destruct (dir ++ "/" ++ name); discriminate).
    rewrite endsWith_app by (cbn; lia).
    change (Js.endsWith "/" "/") with true. cbv iota.
    rewrite drop_last_char_app.
    change (dir ++ "/" ++ name) with (dir ++ String "/" name).
    rewrite last_segment_app, last_segment_slash_free by assumption.
    exact Hlabel.
  - unfold getTrustOkButton. rewrite (Htruthy _ Htemplate).
    cbn [Js.truthy_opt root_key]. rewrite Htruthy by apply Hne1.
    replace (dir ++ "/" ++ name) with ((dir ++ "/") ++ name).
    2: { now rewrite !string_app_assoc. }
    rewrite endsWith_app.
    2: { destruct name; [congruence|cbn; lia]. }
    rewrite endsWith_slash_free by assumption. cbv iota.
    replace ((dir ++ "/") ++ name) with (dir ++ String "/" name).
    2: { now rewrite !string_app_assoc. }
    rewrite last_segment_app, last_segment_slash_free by assumption.
    exact Hlabel.
  - intros plain root Hplain Hnone. unfold getTrustOkButton. rewrite (Htruthy _ Hplain).
    unfold String_replace. rewrite Hnone. now destruct (Js.truthy_opt root).
  - intros root. split; reflexivity.
Qed.

Lemma trust_button_names_the_project_folder_witness :
  getTrustOkButton (Some "Trust {0}?") (Some "/fs/local/my site/") = "Trust my site?"
  /\ getTrustOkButton (Some "Trust {0}?") (Some "/fs/local/my site") = "Trust my site?".
Proof.
  destruct (trust_button_names_the_project_folder "Trust {0}?" "/fs/local" "my site" 6)
    as (Hslash & Hbare & _); try reflexivity; try discriminate.
  split; [exact Hslash|exact Hbare].
Defined.

(** ** The loader page: the URL allowlist and the page load *)

Lemma trusted_origin_In o : trusted_origin o = true <-> List.In o TRUSTED_ORIGINS.
Proof.
  unfold trusted_origin. rewrite existsb_exists. split.
  - intros (t & Hin & Heq). apply String.eqb_eq in Heq. now subst.
  - intros Hin. exists o. split; [assumption|apply String.eqb_refl].
Qed.

Lemma trusted_origins_nonempty t : List.In t TRUSTED_ORIGINS -> t <> EmptyString.
Proof.
  intros Hin ->. apply trusted_origin_In in Hin. discriminate Hin.
Qed.

Lemma truthy_app (t rest : string) : t <> EmptyString -> Js.truthy (t ++ rest) = true.
Proof. destruct t; [congruence|reflexivity]. Qed.

Lemma isTrustedURL_prefix url :
  isTrustedURL url = true
  <-> exists t rest, List.In t TRUSTED_ORIGINS /\ url = Some (t ++ rest).
Proof.
  destruct url as [u|]; cbn [isTrustedURL].
  - split.
    + intros H. apply andb_prop in H as [_ H]. apply existsb_exists in H as (t & Hin & Hpre).
      destruct (prefix_split t u Hpre) as [rest ->]. eauto.
    + intros (t & rest & Hin & [= ->]).
      rewrite truthy_app by now apply trusted_origins_nonempty.
      apply existsb_exists. exists t. split; [assumption|apply prefix_app].
  - split; [discriminate|]. intros (t & rest & _ & [=]).
Qed.

(** X13. [isTrustedURL] is a prefix test on text: it holds exactly for the
    URLs that begin with one of the trusted origins, so it accepts every
    origin of the message allowlist followed by anything at all (a path, a
    port, more host labels), and rejects null and the empty string. *)
Theorem isTrustedURL_accepts_every_extension_of_a_trusted_origin :
  (forall url,
      isTrustedURL url = true
      <-> exists t rest, List.In t TRUSTED_ORIGINS /\ url = Some (t ++ rest))
  /\ (forall o rest, trusted_origin o = true -> isTrustedURL (Some (o ++ rest)) = true)
  /\ isTrustedURL None = false
  /\ isTrustedURL (Some EmptyString) = false.
Proof.
  split; [apply isTrustedURL_prefix|]. split; [|split; reflexivity].
  intros o rest Ho. apply isTrustedURL_prefix. exists o, rest.
  split; [now apply trusted_origin_In|reflexivity].
Qed.

Section PageLoadFacts.

Variable decodeURIComponent : string -> option string.

Local Abbreviation onload := (navigateToInitialURL decodeURIComponent).

Lemma localise_prompt_frame q page out :
  let c := localise_prompt decodeURIComponent q page out in
  loader (page_of c) = loader page
  /\ okMessageTemplate (page_of c) = okMessageTemplate page
  /\ serverFrame_src (page_of c) = serverFrame_src page
  /\ okButton_text (page_of c) = okButton_text page
  /\ watching (page_of c) = watching page
  /\ (c = PageReturned (page_of c) out \/ c = PageThrew (page_of c) out).
Proof.
  unfold localise_prompt.
  destruct (q_localMessage q) as [m|]; [destruct (Js.truthy m); [destruct (decodeURIComponent m)|]|];
    destruct (q_appName q) as [a|]; try (destruct (Js.truthy a); [destruct (decodeURIComponent a)|]);
    cbn; auto 10.
Qed.

(** X14. What [navigateToInitialURL] leaves behind. The hidden server frame
    is either untouched or points at a URL that begins with a trusted
    origin. With a required parameter missing the page stays inert: no
    watcher, nothing posted, the frame untouched, and a stored
    acknowledgement is not replayed. With all of them, a page that finishes
    loading listens to the editor instance named in its URL, has asked for
    the initial URL once, and labels the button by [getTrustOkButton]. *)
Theorem page_load_points_the_server_frame_at_trusted_urls_only id storage origin q :
  let c := onload id storage origin q in
  (serverFrame_src (page_of c) = ABOUT_BLANK
   \/ exists t rest, List.In t TRUSTED_ORIGINS /\ serverFrame_src (page_of c) = t ++ rest)
  /\ (has_required q = false ->
      watching (page_of c) = None
      /\ serverFrame_src (page_of c) = ABOUT_BLANK
      /\ securityAlertAcknowledged (loader (page_of c)) = false
      /\ previewFrame_src (loader (page_of c)) = ABOUT_BLANK
      /\ forall page out, c = PageReturned page out ->
           out = [LoaderConsoleError
                    "Expected required query strings: phoenixInstanceID, virtualServerURL, appName"])
  /\ (has_required q = true ->
      forall page out,
        c = PageReturned page out ->
        watching page = q_phoenixInstanceID q
        /\ out = [LoaderNavigatorPost (GET_INITIAL_URL id)]
        /\ pageLoaderID (loader page) = id
        /\ currentProjectRoot (loader page) = q_initialProjectRoot q
        /\ okButton_text page
           = getTrustOkButton (okMessageTemplate page) (q_initialProjectRoot q)).
Proof.
  intros c. subst c. unfold navigateToInitialURL, has_required.
  destruct (decodeURIComponent (null_to_string (q_okMessage q))) as [template|].
  2: { cbn. split; [auto|]. split; [intros _; repeat split; discriminate|discriminate]. }
  destruct (Js.truthy_opt (q_phoenixInstanceID q) && Js.truthy_opt (q_virtualServerURL q)
            && Js.truthy_opt (q_appName q)) eqn:Hreq.
  - apply andb_prop in Hreq as [Hreq Happ]. apply andb_prop in Hreq as [Hid Hurl].
    rewrite Hid, Hurl, Happ. cbn [negb orb].
    set (st := page_loaded id (q_initialProjectRoot q) storage).
    assert (exists w, (if Js.truthy_opt (storage !! (SESSION_SECURITY_CLEAR_KEY
                                                      ++ root_key (q_initialProjectRoot q)))
                       then securityOk decodeURIComponent st else Returned st) = w
                      /\ pageLoaderID (state_of w) = id
                      /\ currentProjectRoot (state_of w) = q_initialProjectRoot q)
      as (w & -> & Hwid & Hwroot).
    { eexists. split; [reflexivity|].
      destruct (Js.truthy_opt (storage !! _)); [|split; reflexivity].
      unfold securityOk. cbn.
      destruct (decodeURIComponent _); split; reflexivity. }
    destruct w as [st'|st']; cbn [state_of] in Hwid, Hwroot.
    2: { cbn. split; [auto|]. split; discriminate. }
    destruct (decodeURIComponent (null_to_string (q_virtualServerURL q))) as [decoded|].
    2: { cbn. split; [auto|]. split; discriminate. }
    destruct (isTrustedURL (Some (decoded ++ "?parentOrigin=" ++ origin))) eqn:Htrusted.
    all: match goal with
         | |- context [localise_prompt _ _ ?page ?out] =>
             pose proof (localise_prompt_frame q page out) as Hf; cbv zeta in Hf;
             generalize dependent (localise_prompt decodeURIComponent q page out)
         end.
    all: intros c (Hl & Ht & Hs & Hb & Hw & Hc); cbn in Hl, Ht, Hs, Hb, Hw.
    all: (split; [|split; [discriminate|intros _]]);
      [|intros page out Hpage;
        assert (page = page_of c) as -> by (rewrite Hpage; reflexivity);
        assert (out = [LoaderNavigatorPost (GET_INITIAL_URL id)]) as ->
          by (destruct Hc as [Hc|Hc]; rewrite Hc in Hpage; [now injection Hpage|discriminate]);
        rewrite Hl, Ht, Hb, Hw, ?Hwroot; auto].
    + right. rewrite Hs.
      apply isTrustedURL_prefix in Htrusted as (t & rest & Hin & [= ->]); eauto.
    + left. now rewrite Hs.
  - assert (negb (Js.truthy_opt (q_phoenixInstanceID q))
            || negb (Js.truthy_opt (q_virtualServerURL q))
            || negb (Js.truthy_opt (q_appName q)) = true) as ->.
    { destruct (Js.truthy_opt (q_phoenixInstanceID q)), (Js.truthy_opt (q_virtualServerURL q)),
        (Js.truthy_opt (q_appName q)); cbn in *; congruence. }
    cbn. split; [auto|]. split; [|discriminate].
    intros _. repeat split. now intros page out [= <- <-].
Qed.

End PageLoadFacts.

Section LoaderMore.

Variable decodeURIComponent : string -> option string.
Variable iframe_src : string -> string.

Local Abbreviation ok := (securityOk decodeURIComponent).
Local Abbreviation step := (loader_step decodeURIComponent iframe_src).
Local Abbreviation run := (loader_run decodeURIComponent iframe_src).
Local Abbreviation setup := (setupNavigationWatcher decodeURIComponent).

(** X15. Going back to a project that was trusted earlier in the life of
    the page needs no second click: after any events, a [PROJECT_SWITCH] to
    a root that was trusted hides the prompt and loads the decoded preview
    URL at once. The root is taken not to be an array index: trust kept in
    an element of the array can be deleted again, see
    [trust_in_an_element_is_truncated]. *)
Theorem switching_back_to_a_trusted_project_skips_the_prompt st evs root u :
  reachable decodeURIComponent iframe_src st ->
  Js.array_index root = None ->
  isTrusted st root = true ->
  let st1 := fst (run st evs) in
  decodeURIComponent (Js.to_string (previewURL st1)) = Some u ->
  let r := step st1 (NavigatorMessage (PROJECT_SWITCH root)) in
  securityAlertAcknowledged (fst r) = true
  /\ previewFrame_src (fst r) = u
  /\ dialog_display (fst r) = Some "none"
  /\ currentProjectRoot (fst r) = Some root
  /\ (forall k, isTrusted (fst r) k = isTrusted st1 k)
  /\ snd r = [].
Proof.
  intros Hreach Hplain Htrusted st1 Hdecode r. subst r.
  pose proof (run_trust_grows decodeURIComponent iframe_src evs st root Hplain Htrusted)
    as Hstill.
  pose proof (reachable_invariant decodeURIComponent iframe_src _
                (run_reachable decodeURIComponent iframe_src evs st Hreach))
    as (_ & _ & Hdialog).
  fold st1 in Hstill, Hdialog.
  cbn [loader_step loader_navigator_onmessage].
  unfold isTrusted in *. unfold_setters.
  rewrite Hstill, bool_decide_true by assumption. cbn [andb].
  rewrite Hdecode. cbn. auto 10.
Qed.

Lemma step_same_but_storage a b ev :
  same_but_storage a b ->
  snd (step a ev) = snd (step b ev)
  /\ same_but_storage (fst (step a ev)) (fst (step b ev)).
Proof.
  unfold same_but_storage.
  destruct a as [id ack url trusted root frame dialog sa title icon].
  destruct b as [id' ack' url' trusted' root' frame' dialog' sb title' icon'].
  cbn. intros [= <- <- <- <- <- <- <- <- <-].
  destruct ev as [m|e|event| |].
  - unfold loader_step, loader_navigator_onmessage.
    destruct m; unfold isTrusted; unfold_setters; cbn;
      repeat (match goal with
              | |- context [if ?c then _ else _] => destruct c
              | |- context [match ?c with Some _ => _ | None => _ end] => destruct c
              end; cbn); auto.
  - cbn. auto.
  - cbn. auto.
  - cbn. unfold securityOk. cbn. destruct dialog; cbn; [|auto].
    destruct (decodeURIComponent _); cbn; auto.
  - cbn. auto.
Qed.

(** X16. After the page is set up, the session storage is only written:
    pages that differ in the stored entries alone answer every sequence of
    events with the same output and end in states that differ in the stored
    entries alone. *)
Theorem session_storage_is_never_read_after_setup evs st storage :
  snd (run (set_sessionStorage storage st) evs) = snd (run st evs)
  /\ same_but_storage (fst (run (set_sessionStorage storage st) evs)) (fst (run st evs)).
Proof.
  assert (forall a b, same_but_storage a b ->
                      snd (run a evs) = snd (run b evs)
                      /\ same_but_storage (fst (run a evs)) (fst (run b evs))) as Hgen.
  { induction evs as [|ev evs IH]; intros a b Hab; [now split|].
    cbn [loader_run].
    destruct (step_same_but_storage a b ev Hab) as [Hout Hnext].
    destruct (step a ev) as [a' outa], (step b ev) as [b' outb]. cbn [fst snd] in Hout, Hnext.
    destruct (IH a' b' Hnext) as [Hout' Hlast].
    destruct (run a' evs) as [a'' outa'], (run b' evs) as [b'' outb'].
    cbn [fst snd] in *. now subst. }
  apply Hgen. now destruct st.
Qed.

Lemma step_keeps_stored_ack st ev k :
  sessionStorage st !! k = Some "true" ->
  sessionStorage (fst (step st ev)) !! k = Some "true".
Proof.
  intros Hk. destruct ev as [m|e|event| |]; cbn; try assumption.
  - unfold loader_step, loader_navigator_onmessage.
    destruct m; unfold_setters; cbn;
      repeat (match goal with
              | |- context [if ?c then _ else _] => destruct c
              | |- context [match ?c with Some _ => _ | None => _ end] => destruct c
              end; cbn); assumption.
  - destruct (securityOk_cases decodeURIComponent st) as [(u & _ & _ & ->)|[[-> _]|[-> _]]];
      cbn; unfold_setters; cbn; try assumption.
    destruct (decide (SESSION_SECURITY_CLEAR_KEY ++ root_key (currentProjectRoot st) = k))
      as [->|Hne].
    + apply lookup_insert_eq.
    + now rewrite lookup_insert_ne.
Qed.

Lemma run_keeps_stored_ack evs st k :
  sessionStorage st !! k = Some "true" ->
  sessionStorage (fst (run st evs)) !! k = Some "true".
Proof.
  revert st. induction evs as [|ev evs IH]; intros st Hk; [exact Hk|].
  cbn [loader_run]. pose proof (step_keeps_stored_ack st ev k Hk) as Hs.
  destruct (step st ev) as [st' out]. cbn [fst] in Hs.
  specialize (IH st' Hs). destruct (run st' evs). exact IH.
Qed.

(** X17. An acknowledgement outlives the page: once [securityOk] has
    returned, a page loaded later in the same browser session for the same
    project root, whatever happened in between, replays it while it sets up.
    It hides the prompt and, no URL having arrived yet, loads the decoded
    text of [undefined] into the frame. *)
Theorem acknowledgement_is_replayed_on_reload st st' evs id' :
  ok st = Returned st' ->
  let storage := sessionStorage (fst (run st' evs)) in
  let root := currentProjectRoot st in
  let reloaded := fst (setup (page_loaded id' root storage)) in
  ~ session_unacknowledged root storage
  /\ dialog_display reloaded = Some "none"
  /\ (forall u,
        decodeURIComponent "undefined" = Some u ->
        securityAlertAcknowledged reloaded = true
        /\ isTrusted reloaded (root_key root) = true
        /\ previewFrame_src reloaded = u)
  /\ (decodeURIComponent "undefined" = None ->
      securityAlertAcknowledged reloaded = false
      /\ previewFrame_src reloaded = ABOUT_BLANK).
Proof.
  intros Hok storage root reloaded.
  assert (storage !! (SESSION_SECURITY_CLEAR_KEY ++ root_key root) = Some "true") as Hstored.
  { apply run_keeps_stored_ack.
    destruct (securityOk_cases decodeURIComponent st) as [(u & _ & _ & Heq)|[[Heq _]|[Heq _]]];
      rewrite Heq in Hok; [|discriminate..].
    injection Hok as <-. unfold_setters. cbn. apply lookup_insert_eq. }
  split; [unfold session_unacknowledged; now rewrite Hstored|].
  subst reloaded. unfold setupNavigationWatcher. cbn [fst page_loaded sessionStorage currentProjectRoot].
  rewrite Hstored. cbn [Js.truthy_opt Js.truthy].
  unfold securityOk, isTrusted. cbn -[Js.Array_assign_true Js.Array_truthy].
  destruct (decodeURIComponent "undefined") as [u|];
    cbn -[Js.Array_assign_true Js.Array_truthy].
  - split; [reflexivity|]. split; [|discriminate].
    intros ? [= <-]. repeat split. apply Array_truthy_assign_same.
  - split; [reflexivity|]. split; [discriminate|auto].
Qed.

End LoaderMore.

(** Trust kept in an element of the array does not last through every
    sequence of events. With the root "5" trusted the array has length 6,
    so a switch to the root "length" is accepted at once; a click event on
    the button, dispatched there although the prompt is hidden, assigns
    [true] to [length], which makes the length 1 and deletes the element,
    and the next switch to "5" meets the prompt again. *)
Example trust_in_an_element_is_truncated :
  let st :=
    fst (Scenario.loader_run
           (fst (setupNavigationWatcher Scenario.decodeURIComponent
                   (page_loaded "tab1" (Some "5") ∅)))
           [NavigatorMessage (REDIRECT_PAGE (Scenario.url_of "/proj/index.html") false);
            OkButtonClick]) in
  let st' :=
    fst (Scenario.loader_run st [NavigatorMessage (PROJECT_SWITCH "length"); OkButtonClick]) in
  isTrusted st "5" = true
  /\ isTrusted st "length" = true
  /\ isTrusted st' "5" = false
  /\ securityAlertAcknowledged
       (fst (Scenario.loader_step st' (NavigatorMessage (PROJECT_SWITCH "5")))) = false.
Proof. vm_compute. repeat split. Qed.

Lemma page_load_points_the_server_frame_at_trusted_urls_only_witness :
  let c := navigateToInitialURL Scenario.decodeURIComponent "tab1" ∅ "https://phcode.dev"
             Cases.query in
  watching (page_of c) = Some "inst1"
  /\ okButton_text (page_of c) = "Trust proj?"
  /\ serverFrame_src (page_of c) = "https://phcode.live/?parentOrigin=https://phcode.dev".
Proof.
  intros c.
  destruct (page_load_points_the_server_frame_at_trusted_urls_only
              Scenario.decodeURIComponent "tab1" ∅ "https://phcode.dev" Cases.query)
    as (_ & _ & Hloaded).
  destruct (Hloaded eq_refl (page_of c) [LoaderNavigatorPost (GET_INITIAL_URL "tab1")] eq_refl)
    as (Hwatching & _ & _ & _ & Hbutton).
  split; [exact Hwatching|]. split; [|reflexivity].
  rewrite Hbutton. reflexivity.
Defined.

Lemma switching_back_to_a_trusted_project_skips_the_prompt_witness :
  let st1 := fst (Scenario.loader_run Scenario.trusted_loader Cases.visit_other_project) in
  let r := Scenario.loader_step st1 (NavigatorMessage (PROJECT_SWITCH "/proj/")) in
  securityAlertAcknowledged st1 = false
  /\ securityAlertAcknowledged (fst r) = true
  /\ previewFrame_src (fst r) = Scenario.url_of "/other/a.html".
Proof.
  intros st1 r. split; [reflexivity|].
  destruct (switching_back_to_a_trusted_project_skips_the_prompt
              Scenario.decodeURIComponent Scenario.iframe_src
              Scenario.trusted_loader Cases.visit_other_project "/proj/"
              (Scenario.url_of "/other/a.html")
              (reach_step _ _ _ OkButtonClick
                 (reach_step _ _ _
                    (NavigatorMessage (REDIRECT_PAGE (Scenario.url_of "/proj/index.html") false))
                    (reach_setup Scenario.decodeURIComponent Scenario.iframe_src
                       "tab1" (Some "/proj/") ∅)))
              eq_refl eq_refl eq_refl)
    as (Hack & Hframe & _).
  split; [exact Hack|exact Hframe].
Defined.

Lemma acknowledgement_is_replayed_on_reload_witness :
  let storage :=
    sessionStorage
      (fst (Scenario.loader_run Scenario.trusted_loader Cases.visit_other_project)) in
  let reloaded :=
    fst (setupNavigationWatcher Scenario.decodeURIComponent
           (page_loaded "tab2" (Some "/proj/") storage)) in
  securityAlertAcknowledged reloaded = true
  /\ previewFrame_src reloaded = "undefined".
Proof.
  intros storage reloaded.
  destruct (acknowledgement_is_replayed_on_reload
              Scenario.decodeURIComponent Scenario.iframe_src
              Scenario.prompted_loader Scenario.trusted_loader Cases.visit_other_project
              "tab2" eq_refl)
    as (_ & _ & Hreplayed & _).
  destruct (Hreplayed "undefined" eq_refl) as (Hack & _ & Hframe).
  split; [exact Hack|exact Hframe].
Defined.

(** ** What to preview, and the URLs of paths *)

Section PreviewFacts.

Variable encodeURIComponent : string -> string.
Variable Phoenix_baseURL : string.
Variable PREVIEW_BASE_URL : string.
Variable DESCRIPTION_LIVEDEV_MAIN_HEADING : string.
Variable DESCRIPTION_LIVEDEV_MAIN_SPAN : string.
Variable DESCRIPTION_LIVEDEV_NO_PREVIEW : string.
Variable DESCRIPTION_LIVEDEV_NO_PREVIEW_DETAILS : string.
Variable DESCRIPTION_LIVEDEV_EXCLUDED : string.
Variable DESCRIPTION_LIVEDEV_NO_PREVIEW_EXCLUDED : string.
Variable StringUtils_format : string -> string -> string.
Variable _isLivePreviewSupported : bool.
Variable projectRoot : string.
Variable path_relative : string -> string -> string.
Variable getCustomServerConfig : string -> option string.
Variable isUsingCustomServer : bool.
Variable getCustomServeRoot : string.
Variable serverSupportsHotReload : bool.
Variable isMarkdownFile : string -> bool.
Variable isSVG : string -> bool.
Variable isHTMLFile : string -> bool.
Variable isPreviewableFile : string -> bool.
Variable liveDocument : option ((string -> bool) * string).

Local Abbreviation details :=
  (getPreviewDetails encodeURIComponent Phoenix_baseURL PREVIEW_BASE_URL
     DESCRIPTION_LIVEDEV_MAIN_HEADING DESCRIPTION_LIVEDEV_MAIN_SPAN
     DESCRIPTION_LIVEDEV_NO_PREVIEW DESCRIPTION_LIVEDEV_NO_PREVIEW_DETAILS
     DESCRIPTION_LIVEDEV_EXCLUDED DESCRIPTION_LIVEDEV_NO_PREVIEW_EXCLUDED
     StringUtils_format _isLivePreviewSupported projectRoot path_relative
     getCustomServerConfig isUsingCustomServer getCustomServeRoot serverSupportsHotReload
     isMarkdownFile isSVG isHTMLFile isPreviewableFile liveDocument).

Lemma startsWith_app (a b : string) : Js.startsWith (a ++ b) a = true.
Proof. apply prefix_app. Qed.

(** X18. The details [getPreviewDetails] resolves with either name a file
    or are marked [isNoPreview], never both. When they name a file that the
    built-in server is to show (no custom server, not a file that is itself
    an http(s) URL), the preview URL is the base URL of this editor
    instance followed by the project root and the path of the file relative
    to it, so a server started on that base URL does not turn the request
    away as belonging to another instance. A custom server URL, when the
    settings give one for the current file, wins over the built-in preview
    whatever the kind of file. *)
Theorem inbuilt_preview_urls_belong_to_this_instance ed :
  let d := details ed in
  (details_isNoPreview d = Some true <-> details_fullPath d = None)
  /\ (details_isNoPreview d = Some true \/ details_isNoPreview d = None)
  /\ (forall f,
        details_fullPath d = Some f ->
        details_isCustomServer d = None ->
        is_http f = false ->
        details_URL d = PREVIEW_BASE_URL ++ projectRoot ++ path_relative projectRoot f
        /\ forall srv,
             _baseUrl srv = PREVIEW_BASE_URL ->
             Js.startsWith (details_URL d) (_baseUrl srv) = true)
  /\ (forall f custom,
        _isLivePreviewSupported = true ->
        currentFile ed = Some f ->
        getCustomServerConfig f = Some custom ->
        Js.truthy custom = true ->
        details_URL d = custom
        /\ details_isCustomServer d = Some true
        /\ details_fullPath d = Some f).
Proof.
  intros d. subst d. unfold getPreviewDetails, currentFile, no_preview.
  destruct _isLivePreviewSupported; cbn [negb].
  2: { cbn. split; [tauto|]. split; [auto|]. split; [discriminate|discriminate]. }
  destruct (match getCurrentDocument ed with Some f => Some f | None => getSelectedItem ed end)
    as [fullPath|].
  2: { cbn. split; [tauto|]. split; [auto|]. split; [discriminate|discriminate]. }
  destruct (Js.truthy_opt (getCustomServerConfig fullPath)) eqn:Hcustom; cbn [negb andb].
  { cbn. split; [split; discriminate|]. split; [auto|]. split; [discriminate|].
    intros f custom _ [= <-] Hc _. now rewrite Hc. }
  assert (forall f custom, Some fullPath = Some f -> getCustomServerConfig f = Some custom ->
                           Js.truthy custom = true -> False) as Hno.
  { intros f custom [= <-] Hc Ht. rewrite Hc in Hcustom. cbn in Hcustom. congruence. }
  rewrite andb_true_r.
  destruct (isUsingCustomServer && negb (isMarkdownFile fullPath || isSVG fullPath)).
  { cbn. split; [tauto|]. split; [auto|]. split; [discriminate|].
    intros f custom _ Hf Hc Ht. destruct (Hno f custom Hf Hc Ht). }
  destruct (isPreviewableFile fullPath).
  { cbn. split; [split; discriminate|]. split; [auto|]. split.
    - intros f [= <-] _ Hhttp. rewrite Hhttp. cbn. split.
      + now rewrite string_app_assoc.
      + intros srv ->. rewrite string_app_assoc. apply startsWith_app.
    - intros f custom _ Hf Hc Ht. destruct (Hno f custom Hf Hc Ht). }
  destruct liveDocument as [[isRelated docPath]|].
  2: { cbn. split; [tauto|]. split; [auto|]. split; [discriminate|].
       intros f custom _ Hf Hc Ht. destruct (Hno f custom Hf Hc Ht). }
  destruct (isRelated fullPath).
  2: { cbn. split; [tauto|]. split; [auto|]. split; [discriminate|].
       intros f custom _ Hf Hc Ht. destruct (Hno f custom Hf Hc Ht). }
  cbn. split; [split; discriminate|]. split; [auto|]. split.
  - intros f [= <-] _ _. split.
    + now rewrite string_app_assoc.
    + intros srv ->. rewrite string_app_assoc. apply startsWith_app.
  - intros f custom _ Hf Hc Ht. destruct (Hno f custom Hf Hc Ht).
Qed.

End PreviewFacts.

Section PathFacts.

Variable _pathResolver : string -> string.
Variable encodeURI : string -> option string.
Variable isStaticHtmlFileExt : string -> bool.

Local Abbreviation url_of_path := (pathToUrl _pathResolver encodeURI).
Local Abbreviation can_serve := (canServe _pathResolver isStaticHtmlFileExt).

(** X19. [canServe] and [pathToUrl] agree on what lies in the project:
    every path that can be served has a URL (when it can be encoded), which
    starts with the base URL of the server; a path the resolver leaves as
    it is has no URL and is not served; and inside the project a path that
    ends with a slash is served whatever its extension. *)
Theorem servable_paths_have_urls_on_the_server this p :
  (can_serve this p = true ->
   match encodeURI p with
   | Some encoded =>
       url_of_path this p = Normal (Some (_baseUrl this ++ encoded))
       /\ Js.startsWith (_baseUrl this ++ encoded) (_baseUrl this) = true
   | None => url_of_path this p = Abrupt
   end)
  /\ (_pathResolver p = p <-> url_of_path this p = Normal None)
  /\ (_pathResolver p = p -> can_serve this p = false)
  /\ (_pathResolver p <> p -> Js.endsWith p "/" = true -> can_serve this p = true).
Proof.
  unfold pathToUrl, canServe.
  rewrite (String.eqb_sym p). 
  destruct (String.eqb_spec (_pathResolver p) p) as [Heq|Hne]; cbn [negb].
  - split; [discriminate|]. split; [tauto|]. split; [reflexivity|]. intros H. now destruct H.
  - split.
    + intros _. destruct (encodeURI p); [|reflexivity].
      split; [reflexivity|apply prefix_app].
    + split; [|split; [tauto|intros _ ->; reflexivity]].
      split; [tauto|]. destruct (encodeURI p); discriminate.
Qed.

End PathFacts.

Lemma inbuilt_preview_urls_belong_to_this_instance_witness :
  let d := Cases.details (Scenario.editor_with_current (Some "/proj/index.html")) in
  details_URL d = Scenario.url_of "/proj/index.html"
  /\ Js.startsWith (details_URL d) (_baseUrl Scenario.server) = true.
Proof.
  intros d.
  destruct (inbuilt_preview_urls_belong_to_this_instance
              (fun s => s) "https://phcode.dev/" Scenario.PREVIEW_BASE_URL
              "Heading" "Span" "No preview" "Nothing to preview" "Excluded" "Excluded from {0}"
              (fun template arg => String_replace template "{0}" arg)
              true Scenario.projectRoot Cases.relative (fun _ => None) false EmptyString false
              Scenario.isMarkdownFile (fun p => Js.endsWith p ".svg")
              (fun p => Js.endsWith p ".html")
              (fun p => Js.endsWith p ".html" || Scenario.isMarkdownFile p) None
              (Scenario.editor_with_current (Some "/proj/index.html")))
    as (_ & _ & Hinbuilt & _).
  destruct (Hinbuilt "/proj/index.html" eq_refl eq_refl eq_refl) as [Hurl Hserved].
  split; [exact Hurl|exact (Hserved Scenario.server eq_refl)].
Defined.

Lemma servable_paths_have_urls_on_the_server_witness :
  canServe Cases.pathResolver (fun p => Js.endsWith p ".html") Scenario.server "/proj/index.html"
  = true
  /\ pathToUrl Cases.pathResolver Some Scenario.server "/proj/index.html"
     = Normal (Some (Scenario.url_of "/proj/index.html"))
  /\ pathToUrl Cases.pathResolver Some Scenario.server "/other/index.html" = Normal None.
Proof.
  destruct (servable_paths_have_urls_on_the_server
              Cases.pathResolver Some (fun p => Js.endsWith p ".html")
              Scenario.server "/proj/index.html")
    as (Hserved & _).
  split; [reflexivity|]. split; [exact (proj1 (Hserved eq_refl))|].
  apply (proj1 (proj2 (servable_paths_have_urls_on_the_server
                         Cases.pathResolver Some (fun p => Js.endsWith p ".html")
                         Scenario.server "/other/index.html"))).
  reflexivity.
Defined.
